(** * The builtins registry and the tiering manager of V8, embedded in Rocq

    Sources: [src/builtins/builtins.cc] and [src/execution/tiering-manager.cc].

    Conventions of the embedding.
    - A C++ [int] is a [Z]; the result of [+], [-] and [*] on [int] is
      brought back into the 32-bit two's-complement range by [int32].
    - A [DCHECK] that fails, a read through a dangling reference, a
      division by zero and an access outside an array all end the
      computation: the functions return [None] there.
    - Heap objects are numbered and live in finite maps of the isolate, so
      that what is shared in the source is shared in the model.
    - Classes whose declarations are not among the sources are reduced to
      the attributes the two files read or write; their definitions say
      [Modelled from the spec].
    - Diagnostic output ([PrintF], [CodeTracer]) is not modelled; the
      [trace_*] flags only guard output. *)

From stdpp Require Import gmap list strings.
From Stdlib Require Import ZArith Lia.

Local Open Scope Z_scope.

(** ** Machine integers *)

Definition kMinInt : Z := - 2 ^ 31.
Definition kMaxInt : Z := 2 ^ 31 - 1.

(** Two's-complement wrap-around of a 32-bit signed integer. *)
Definition int32 (z : Z) : Z := (z + 2 ^ 31) mod 2 ^ 32 - 2 ^ 31.

Definition is_int32 (z : Z) : Prop := kMinInt <= z <= kMaxInt.

(** A value as an eight-bit unsigned field holds it. *)
Definition uint8 (z : Z) : Z := z mod 2 ^ 8.

(** Two's-complement wrap-around of a 16-bit signed integer. *)
Definition int16 (z : Z) : Z := (z + 2 ^ 15) mod 2 ^ 16 - 2 ^ 15.

(** ** builtins.cc *)

Module Builtins.

(** [Builtins::Kind]. *)
Inductive Kind := CPP | TFJ | TFC | TFS | TFH | BCH | ASM.

#[global] Instance Kind_eq_dec : EqDecision Kind.
Proof. solve_decision. Defined.

(** [BuiltinMetadata::KindSpecificData]: the union, with its tag made
    explicit. The default constructor stores a null [cpp_entry]. *)
Inductive KindSpecificData :=
  | cpp_entry (entry : Z)
  | parameter_count (count : Z)
  | bytecode_and_scale (bytecode scale : Z).

Record BuiltinMetadata := {
  name : string;
  kind : Kind;
  data : KindSpecificData
}.

(** [enum class Builtin : int32_t]. *)
Definition Builtin := Z.
Definition ToInt (builtin : Builtin) : Z := builtin.
Definition FromInt (id : Z) : Builtin := id.

(** [class BytecodeOffset], a wrapper of one [int]. *)
Record BytecodeOffset := { id_ : Z }.
Definition BytecodeOffset_ToInt (o : BytecodeOffset) : Z := id_ o.

(** A [Code] object; only its [builtin_id] field is read here. *)
Record Code := { builtin_id : Builtin }.

(** [Handle<T>]: the address of the slot that holds the object. *)
Record Handle := { location : Z }.

(** The part of the isolate the registry reads and writes: the address of
    [builtin_table()], its slots (tagged pointers), and the code objects
    the tagged pointers refer to. *)
Record Isolate := {
  builtin_table : Z;
  builtin_table_slots : list Z;
  code_objects : gmap Z Code
}.

Section Registry.

(** The expansion of [BUILTIN_LIST], one entry per builtin. The list macro
    is not part of this file and is taken as a parameter. *)
Variable builtin_metadata : list BuiltinMetadata.

(** [BytecodeOffset::kFirstBuiltinContinuationId], declared elsewhere. *)
Variable kFirstBuiltinContinuationId : Z.

(** [sizeof(Address)], the distance in bytes between two slots. *)
Variable kSystemPointerSize : Z.

(** [Internals::HasHeapObjectTag], declared elsewhere. *)
Variable HasHeapObjectTag : Z -> bool.

Definition kBuiltinCount : Z := Z.of_nat (length builtin_metadata).
Definition kFirst : Builtin := 0.
Definition kLast : Builtin := kBuiltinCount - 1.

(** [Builtins::IsBuiltinId]: the id is one of the enumerators. *)
Definition IsBuiltinId (maybe_id : Z) : bool :=
  (0 <=? maybe_id) && (maybe_id <? kBuiltinCount).

(** [Builtins::KindOf]. *)
Definition KindOf (builtin : Builtin) : option Kind :=
  if IsBuiltinId builtin
  then kind <$> builtin_metadata !! Z.to_nat (ToInt builtin)
  else None.

(** The condition of the [DCHECK] shared by the two continuation
    functions. *)
Definition is_continuation_kind (k : Kind) : bool :=
  bool_decide (k = TFJ) || bool_decide (k = TFC) || bool_decide (k = TFS).

(** [Builtins::GetContinuationBytecodeOffset]. *)
Definition GetContinuationBytecodeOffset (builtin : Builtin)
  : option BytecodeOffset :=
  match KindOf builtin with
  | Some k =>
      if is_continuation_kind k
      then Some {| id_ := int32 (kFirstBuiltinContinuationId + ToInt builtin) |}
      else None
  | None => None
  end.

(** [Builtins::GetBuiltinFromBytecodeOffset]. *)
Definition GetBuiltinFromBytecodeOffset (id : BytecodeOffset)
  : option Builtin :=
  let builtin :=
    FromInt (int32 (BytecodeOffset_ToInt id - kFirstBuiltinContinuationId)) in
  match KindOf builtin with
  | Some k => if is_continuation_kind k then Some builtin else None
  | None => None
  end.

(** [Builtins::set_code]. Storing outside the table is undefined. *)
Definition set_code (builtin : Builtin) (code : Z) (iso : Isolate)
  : option Isolate :=
  match code_objects iso !! code with
  | Some c =>
      if bool_decide (builtin = builtin_id c) && HasHeapObjectTag code
         && IsBuiltinId builtin
      then Some {| builtin_table := builtin_table iso;
                   builtin_table_slots :=
                     <[Z.to_nat (ToInt builtin) := code]>
                       (builtin_table_slots iso);
                   code_objects := code_objects iso |}
      else None
  | None => None
  end.

(** [Builtins::code]. *)
Definition code (builtin : Builtin) (iso : Isolate) : option Code :=
  if 0 <=? ToInt builtin
  then ptr ← builtin_table_slots iso !! Z.to_nat (ToInt builtin);
       code_objects iso !! ptr
  else None.

(** [Builtins::code_handle]: the address of slot [ToInt(builtin)]. *)
Definition code_handle (builtin : Builtin) (iso : Isolate) : Handle :=
  {| location := builtin_table iso + ToInt builtin * kSystemPointerSize |}.

(** [Builtins::IsBuiltin]. *)
Definition IsBuiltin (c : Code) : bool := IsBuiltinId (builtin_id c).

(** [Builtins::IsBuiltinHandle]. The out-parameter [*builtin] is passed in
    and returned next to the result; it is written only on success. The
    pointer difference counts slots. *)
Definition IsBuiltinHandle (maybe_code : Handle) (builtin : Builtin)
    (iso : Isolate) : bool * Builtin :=
  let handle_location := location maybe_code in
  let builtins_table := builtin_table iso in
  if handle_location <? builtins_table then (false, builtin) else
  let builtins_table_end :=
    builtins_table + kBuiltinCount * kSystemPointerSize in
  if handle_location >=? builtins_table_end then (false, builtin) else
  (true,
   FromInt (int32 ((handle_location - builtins_table) `quot` kSystemPointerSize))).

(** Initialization, seen from the registry: a sequence of [set_code]
    calls. *)
Fixpoint install (l : list (Builtin * Z)) (iso : Isolate) : option Isolate :=
  match l with
  | [] => Some iso
  | (builtin, code) :: l' =>
      match set_code builtin code iso with
      | Some iso' => install l' iso'
      | None => None
      end
  end.

(** Slot [id] of the table holds a code object whose [builtin_id] is [id]. *)
Definition installed (iso : Isolate) (id : Builtin) : Prop :=
  exists c, code id iso = Some c /\ builtin_id c = id.

(** The table is the array [builtin_table_[kBuiltinCount]]. *)
Definition table_sized (iso : Isolate) : Prop :=
  Z.of_nat (length (builtin_table_slots iso)) = kBuiltinCount.

(** *** The metadata table *)

(** The macros [DECL_CPP] ... [DECL_ASM] that build the entries of
    [builtin_metadata]. The constructor of the union for a parameter count
    casts it to [int16_t]; the default constructor stores a null
    [cpp_entry]. *)
Definition DECL_CPP (Name : string) (entry : Z) : BuiltinMetadata :=
  {| name := Name; kind := CPP; data := cpp_entry entry |}.
Definition DECL_TFJ (Name : string) (Count : Z) : BuiltinMetadata :=
  {| name := Name; kind := TFJ; data := parameter_count (int16 Count) |}.
Definition DECL_TFC (Name : string) : BuiltinMetadata :=
  {| name := Name; kind := TFC; data := cpp_entry 0 |}.
Definition DECL_TFS (Name : string) : BuiltinMetadata :=
  {| name := Name; kind := TFS; data := cpp_entry 0 |}.
Definition DECL_TFH (Name : string) : BuiltinMetadata :=
  {| name := Name; kind := TFH; data := cpp_entry 0 |}.
Definition DECL_BCH (Name : string) (OperandScale Bytecode : Z)
  : BuiltinMetadata :=
  {| name := Name; kind := BCH;
     data := bytecode_and_scale Bytecode OperandScale |}.
Definition DECL_ASM (Name : string) : BuiltinMetadata :=
  {| name := Name; kind := ASM; data := cpp_entry 0 |}.

(** An entry is the expansion of one of the seven macros. *)
Inductive declared : BuiltinMetadata -> Prop :=
  | declared_CPP Name entry : declared (DECL_CPP Name entry)
  | declared_TFJ Name Count : declared (DECL_TFJ Name Count)
  | declared_TFC Name : declared (DECL_TFC Name)
  | declared_TFS Name : declared (DECL_TFS Name)
  | declared_TFH Name : declared (DECL_TFH Name)
  | declared_BCH Name OperandScale Bytecode :
      declared (DECL_BCH Name OperandScale Bytecode)
  | declared_ASM Name : declared (DECL_ASM Name).

(** The entry of a builtin; reading outside the table is undefined. *)
Definition metadata_of (builtin : Builtin) : option BuiltinMetadata :=
  if IsBuiltinId builtin
  then builtin_metadata !! Z.to_nat (ToInt builtin)
  else None.

(** [Builtins::name]. *)
Definition builtin_name (builtin : Builtin) : option string :=
  name <$> metadata_of builtin.

(** [Builtins::IsCpp]. *)
Definition IsCpp (builtin : Builtin) : option bool :=
  k ← KindOf builtin; Some (bool_decide (k = CPP)).

(** [Builtins::GetStackParameterCount]. Reading a member of the union that
    was not the one stored is undefined. *)
Definition GetStackParameterCount (builtin : Builtin) : option Z :=
  match KindOf builtin with
  | Some TFJ =>
      m ← metadata_of builtin;
      match data m with
      | parameter_count count => Some count
      | _ => None
      end
  | _ => None
  end.

(** [Builtins::CppEntryOf]. *)
Definition CppEntryOf (builtin : Builtin) : option Z :=
  match IsCpp builtin with
  | Some true =>
      m ← metadata_of builtin;
      match data m with
      | cpp_entry entry => Some entry
      | _ => None
      end
  | _ => None
  end.

(** [Builtins::KindNameOf]. *)
Definition KindNameOf (builtin : Builtin) : option string :=
  k ← KindOf builtin;
  Some match k with
       | CPP => "CPP" | TFJ => "TFJ" | TFC => "TFC" | TFS => "TFS"
       | TFH => "TFH" | BCH => "BCH" | ASM => "ASM"
       end.

(** *** Call interface descriptors *)

(** [Builtin_##Name##_InterfaceDescriptor::key()], for the builtins that
    have one, and the key of [JSTrampolineDescriptor]; both are declared
    elsewhere. A [CallInterfaceDescriptor] is its key. *)
Variable InterfaceDescriptor_key : Builtin -> Z.
Variable JSTrampolineDescriptor : Z.

(** [Builtins::CallInterfaceDescriptorFor]. The switch has one case for
    each builtin that [BUILTIN_LIST] lists as TFC, TFS, TFH or ASM; the
    other builtins reach [default]. *)
Definition CallInterfaceDescriptorFor (builtin : Builtin) : option Z :=
  match KindOf builtin with
  | Some (TFC | TFS | TFH | ASM) => Some (InterfaceDescriptor_key builtin)
  | Some (TFJ | CPP) => Some JSTrampolineDescriptor
  | Some BCH => None
  | None => None
  end.

(** [Builtins::HasJSLinkage]. *)
Definition HasJSLinkage (builtin : Builtin) : option bool :=
  match KindOf builtin with
  | Some BCH | None => None
  | Some _ =>
      d ← CallInterfaceDescriptorFor builtin;
      Some (d =? JSTrampolineDescriptor)
  end.

(** [Builtins::CallableFor]: the code handle and the descriptor. *)
Definition CallableFor (iso : Isolate) (builtin : Builtin)
  : option (Handle * Z) :=
  d ← CallInterfaceDescriptorFor builtin;
  Some (code_handle builtin iso, d).

(** *** Lookup by program counter *)

(** The fields of a [Builtins] object. *)
Record BuiltinsObject := {
  isolate_ : Isolate;
  initialized_ : bool
}.

(** [Builtins::TearDown]. *)
Definition TearDown (this : BuiltinsObject) : BuiltinsObject :=
  {| isolate_ := isolate_ this; initialized_ := false |}.

(** [OffHeapInstructionStream::TryLookupCode] and [Code::contains],
    declared elsewhere. *)
Variable TryLookupCode : Z -> Builtin.
Variable contains : Code -> Z -> bool.

(** The loop of [Lookup] over the builtins [ids], in order. The result is
    [None] when the run ends in undefined behaviour, [Some None] for
    [nullptr]. *)
Fixpoint Lookup_loop (iso : Isolate) (pc : Z) (ids : list Builtin)
  : option (option string) :=
  match ids with
  | [] => Some None
  | builtin_ix :: rest =>
      match code builtin_ix iso with
      | Some c =>
          if contains c pc then Some <$> builtin_name builtin_ix
          else Lookup_loop iso pc rest
      | None => None
      end
  end.

(** [Builtins::Lookup]. *)
Definition Lookup (this : BuiltinsObject) (pc : Z) : option (option string) :=
  let builtin := TryLookupCode pc in
  if IsBuiltinId builtin then Some <$> builtin_name builtin
  else if negb (initialized_ this) then Some None
  else Lookup_loop (isolate_ this) pc (seqZ kFirst kBuiltinCount).

(** *** The entry tables *)

(** The tables of [IsolateData] next to the builtin table. *)
Record IsolateData := {
  isolate : Isolate;
  builtin_entry_table : list Z;
  builtin_tier0_entry_table : list Z;
  builtin_tier0_table : list Z
}.

(** [EmbeddedData::InstructionStartOf], [Builtins::kLastTier0] and
    [Code::has_instruction_stream], declared elsewhere. *)
Variable InstructionStartOf : Builtin -> Z.
Variable kLastTier0 : Builtin.
Variable has_instruction_stream : Code -> bool.

(** An assignment to element [i] of an array. *)
Definition store (i : Z) (v : Z) (table : list Z) : option (list Z) :=
  if (0 <=? i) && (i <? Z.of_nat (length table))
  then Some (<[Z.to_nat i := v]> table)
  else None.

(** The first loop of [InitializeIsolateDataTables]. *)
Fixpoint fill_entry_table (iso : Isolate) (ids : list Builtin)
    (entry_table : list Z) : option (list Z) :=
  match ids with
  | [] => Some entry_table
  | i :: rest =>
      match code i iso with
      | Some c =>
          if IsBuiltinId (builtin_id c) && negb (has_instruction_stream c)
          then
            entry_table' ← store (ToInt i) (InstructionStartOf i) entry_table;
            fill_entry_table iso rest entry_table'
          else None
      | None => None
      end
  end.

(** The second loop of [InitializeIsolateDataTables]. *)
Fixpoint mirror_tier0 (ids : list Builtin) (d : IsolateData)
  : option IsolateData :=
  match ids with
  | [] => Some d
  | i :: rest =>
      let ii := ToInt i in
      if 0 <=? ii then
        entry ← builtin_entry_table d !! Z.to_nat ii;
        tier0_entry ← store ii entry (builtin_tier0_entry_table d);
        slot ← builtin_table_slots (isolate d) !! Z.to_nat ii;
        tier0 ← store ii slot (builtin_tier0_table d);
        mirror_tier0 rest
          {| isolate := isolate d;
             builtin_entry_table := builtin_entry_table d;
             builtin_tier0_entry_table := tier0_entry;
             builtin_tier0_table := tier0 |}
      else None
  end.

(** [Builtins::InitializeIsolateDataTables]. *)
Definition InitializeIsolateDataTables (d : IsolateData) : option IsolateData :=
  entry_table ←
    fill_entry_table (isolate d) (seqZ kFirst kBuiltinCount)
      (builtin_entry_table d);
  mirror_tier0 (seqZ kFirst (kLastTier0 - kFirst + 1))
    {| isolate := isolate d;
       builtin_entry_table := entry_table;
       builtin_tier0_entry_table := builtin_tier0_entry_table d;
       builtin_tier0_table := builtin_tier0_table d |}.

(** *** Code-creation events *)

Inductive CodeTag := kBuiltin | kBytecodeHandler.

(** What [PROFILE(isolate, CodeCreateEvent(tag, code, name))] passes to the
    listeners. *)
Record CodeCreateEvent := {
  event_tag : CodeTag;
  event_code : Handle;
  event_name : string
}.

(** [Builtin::kFirstBytecodeHandler] and [interpreter::Bytecodes::ToString],
    declared elsewhere. *)
Variable kFirstBytecodeHandler : Builtin.
Variable Bytecodes_ToString : Z -> Z -> string.

(** The first loop of [EmitCodeCreateEvents], over the indices [ids]. *)
Fixpoint emit_builtins (iso : Isolate) (ids : list Z)
  : option (list CodeCreateEvent) :=
  match ids with
  | [] => Some []
  | i :: rest =>
      n ← builtin_name (FromInt i);
      events ← emit_builtins iso rest;
      Some ({| event_tag := kBuiltin; event_code := code_handle i iso;
               event_name := n |} :: events)
  end.

(** The second loop of [EmitCodeCreateEvents]. *)
Fixpoint emit_bytecode_handlers (iso : Isolate) (ids : list Z)
  : option (list CodeCreateEvent) :=
  match ids with
  | [] => Some []
  | i :: rest =>
      m ← metadata_of i;
      match data m with
      | bytecode_and_scale bytecode scale =>
          events ← emit_bytecode_handlers iso rest;
          Some ({| event_tag := kBytecodeHandler;
                   event_code := code_handle i iso;
                   event_name := Bytecodes_ToString bytecode scale |}
                :: events)
      | _ => None
      end
  end.

(** [Builtins::EmitCodeCreateEvents]: the events, in the order in which
    they are emitted. The second loop goes on where the first one
    stopped. *)
Definition EmitCodeCreateEvents (IsLoggingCodeCreation : bool) (iso : Isolate)
  : option (list CodeCreateEvent) :=
  if negb IsLoggingCodeCreation then Some []
  else
    let first := Z.max 0 (ToInt kFirstBytecodeHandler) in
    builtins ← emit_builtins iso (seqZ 0 first);
    handlers ← emit_bytecode_handlers iso (seqZ first (kBuiltinCount - first));
    Some (builtins ++ handlers).

End Registry.

(** *** An example registry

    Five builtins, one of each of five kinds, and an isolate whose table
    starts at address 4096 with slots of eight bytes. *)

Definition example_metadata : list BuiltinMetadata :=
  [ {| name := "RecordWrite"; kind := TFC; data := cpp_entry 0 |};
    {| name := "ArrayPrototypeJoin"; kind := TFJ; data := parameter_count 1 |};
    {| name := "HandleApiCall"; kind := CPP; data := cpp_entry 65536 |};
    {| name := "StringIndexOf"; kind := TFS; data := cpp_entry 0 |};
    {| name := "LdarHandler"; kind := BCH; data := bytecode_and_scale 11 1 |} ].

(** Heap objects carry tag 1 in their two low bits. *)
Definition example_HasHeapObjectTag (ptr : Z) : bool := Z.land ptr 3 =? 1.

Definition example_isolate : Isolate :=
  {| builtin_table := 4096;
     builtin_table_slots := [0; 0; 0; 0; 0];
     code_objects :=
       {[ 17 := {| builtin_id := 0 |}; 33 := {| builtin_id := 1 |};
          49 := {| builtin_id := 2 |}; 65 := {| builtin_id := 3 |};
          81 := {| builtin_id := 4 |} ]} |}.

Definition example_installs : list (Builtin * Z) :=
  [(0, 17); (1, 33); (2, 49); (3, 65); (4, 81)].

(** The example isolate after [example_installs], a [Builtins] object on
    it, and stand-ins for what is declared elsewhere: no program counter is
    known to the embedded blob, the code of builtin [i] covers the program
    counters from [100 * i] up to [100 * i + 99] and starts at
    [1000 + 100 * i], and builtins 0 and 1 are tier 0. *)
Definition example_installed : Isolate :=
  {| builtin_table := 4096;
     builtin_table_slots := [17; 33; 49; 65; 81];
     code_objects := code_objects example_isolate |}.

Definition example_builtins : BuiltinsObject :=
  {| isolate_ := example_installed; initialized_ := true |}.

Definition example_TryLookupCode (pc : Z) : Builtin := -1.

Definition example_contains (c : Code) (pc : Z) : bool :=
  (100 * builtin_id c <=? pc) && (pc <? 100 * builtin_id c + 100).

Definition example_InstructionStartOf (builtin : Builtin) : Z :=
  1000 + 100 * builtin.

Definition example_has_instruction_stream (c : Code) : bool := false.

Definition example_data : IsolateData :=
  {| isolate := example_installed;
     builtin_entry_table := [0; 0; 0; 0; 0];
     builtin_tier0_entry_table := [0; 0];
     builtin_tier0_table := [0; 0] |}.

Definition example_Bytecodes_ToString (bytecode scale : Z) : string :=
  if bytecode =? 11 then "Ldar" else "Illegal".

End Builtins.

(** ** tiering-manager.cc *)

Module TieringManager.

(** Maximum size in bytes of generate code for a function to allow OSR. *)
Definition kOSRBytecodeSizeAllowanceBase : Z := 119.
Definition kOSRBytecodeSizeAllowancePerTick : Z := 44.

(** [enum class OptimizationReason], from [OPTIMIZATION_REASON_LIST]. *)
Inductive OptimizationReason := kDoNotOptimize | kHotAndStable | kSmallFunction.

(** [OPTIMIZATION_REASON_LIST]: the texts, in the order of the constants. *)
Definition reasons : list string :=
  ["do not optimize"; "hot and stable"; "small function"]%string.

(** [static_cast<size_t>(reason)]. *)
Definition OptimizationReason_index (reason : OptimizationReason) : nat :=
  match reason with
  | kDoNotOptimize => 0
  | kHotAndStable => 1
  | kSmallFunction => 2
  end.

(** [OptimizationReasonToString]; an index outside the table fails the
    check. *)
Definition OptimizationReasonToString (reason : OptimizationReason)
  : option string :=
  reasons !! OptimizationReason_index reason.

(** Modelled from the spec: [enum class CodeKind] is declared outside the
    given sources; these are the tiers a function can run in (interpreter,
    baseline, mid-tier, top-tier). *)
Inductive CodeKind := INTERPRETED_FUNCTION | BASELINE | MAGLEV | TURBOFAN.

(** Modelled from the spec: [CodeKindIsUnoptimizedJSFunction], true of the
    interpreter and baseline tiers. *)
Definition CodeKindIsUnoptimizedJSFunction (kind : CodeKind) : bool :=
  match kind with
  | INTERPRETED_FUNCTION | BASELINE => true
  | MAGLEV | TURBOFAN => false
  end.

Inductive ConcurrencyMode := kNotConcurrent | kConcurrent.

(** Modelled from the spec: [OSRCodeCacheStateOfSFI], not-cached or
    cached-with-entries; [kNotCached] is the least value. *)
Inductive OSRCodeCacheStateOfSFI := kNotCached | kCached.

#[global] Instance OptimizationReason_eq_dec : EqDecision OptimizationReason.
Proof. solve_decision. Defined.
#[global] Instance CodeKind_eq_dec : EqDecision CodeKind.
Proof. solve_decision. Defined.
#[global] Instance ConcurrencyMode_eq_dec : EqDecision ConcurrencyMode.
Proof. solve_decision. Defined.
#[global] Instance OSRCodeCacheStateOfSFI_eq_dec
  : EqDecision OSRCodeCacheStateOfSFI.
Proof. solve_decision. Defined.

(** [class OptimizationDecision]. *)
Record OptimizationDecision := {
  optimization_reason : OptimizationReason;
  code_kind : CodeKind;
  concurrency_mode : ConcurrencyMode
}.

Definition Maglev : OptimizationDecision :=
  {| optimization_reason := kHotAndStable; code_kind := MAGLEV;
     concurrency_mode := kNotConcurrent |}.
Definition TurbofanHotAndStable : OptimizationDecision :=
  {| optimization_reason := kHotAndStable; code_kind := TURBOFAN;
     concurrency_mode := kConcurrent |}.
Definition TurbofanSmallFunction : OptimizationDecision :=
  {| optimization_reason := kSmallFunction; code_kind := TURBOFAN;
     concurrency_mode := kConcurrent |}.
Definition DoNotOptimize : OptimizationDecision :=
  {| optimization_reason := kDoNotOptimize; code_kind := TURBOFAN;
     concurrency_mode := kConcurrent |}.

Definition should_optimize (d : OptimizationDecision) : bool :=
  negb (bool_decide (optimization_reason d = kDoNotOptimize)).

(** The flags read by the tiering manager. *)
Record Flags := {
  FLAG_use_osr : bool;
  FLAG_maglev : bool;
  FLAG_always_osr : bool;
  FLAG_testing_d8_test_runner : bool;
  FLAG_baseline_batch_compilation : bool;
  FLAG_lazy_feedback_allocation : bool;
  FLAG_interrupt_budget : Z;
  FLAG_interrupt_budget_for_maglev : Z;
  FLAG_interrupt_budget_for_feedback_allocation : Z;
  FLAG_interrupt_budget_factor_for_feedback_allocation : Z;
  FLAG_ticks_before_optimization : Z;
  FLAG_bytecode_size_allowance_per_tick : Z;
  FLAG_max_bytecode_size_for_early_opt : Z
}.

(** *** Heap objects

    Objects live in the isolate's heap and are referred to by number, so
    that closures sharing a [SharedFunctionInfo], and frames sharing a
    [BytecodeArray], see each other's writes. *)

(** Modelled from the spec: what [BytecodeArrayIterator] reads at an
    offset, [GetJumpTargetOffset()] and [GetImmediateOperand(1)]; either is
    absent when the bytecode there has no such operand. *)
Record Bytecode := {
  jump_target_offset : option Z;
  immediate_operand_1 : option Z
}.

Record BytecodeArray := {
  bytecode_length : Z;
  osr_loop_nesting_level : Z;
  bytecodes : gmap Z Bytecode
}.

Record SharedFunctionInfo := {
  bytecode_array : nat;
  IsUserJavaScript : bool;
  optimization_disabled : bool;
  osr_code_cache_state : OSRCodeCacheStateOfSFI;
  (** Modelled from the spec: [CanCompileWithBaseline(isolate, shared)]. *)
  can_compile_with_baseline : bool;
  (** Modelled from the spec: whether the external service
      [Compiler::CompileBaseline] succeeds on this function. *)
  baseline_compile_succeeds : bool
}.

Record FeedbackVector := {
  profiler_ticks : Z;
  invocation_count : Z
}.

(** Modelled from the spec: the attributes of a function object that the
    controller reads or writes. *)
Record JSFunction := {
  shared : nat;
  native_context : nat;
  feedback_vector : option FeedbackVector;
  GetActiveTier : option CodeKind;
  IsInOptimizationQueue : bool;
  IsMarkedForOptimization : bool;
  IsMarkedForConcurrentOptimization : bool;
  HasAvailableOptimizedCode : bool;
  interrupt_budget : Z
}.

(** A [JavaScriptFrame]; [UnoptimizedFrame::cast] requires
    [is_unoptimized]. *)
Record Frame := {
  is_unoptimized : bool;
  function : nat;
  GetBytecodeArray : nat;
  GetBytecodeOffset : Z
}.

(** Ghost state: the calls of [MarkForOptimization] and
    [AttemptOnStackReplacement] that a run has made, in order. The source
    keeps no such log; it is there for the statements about which calls a
    run makes. *)
Inductive Call :=
  | CallMarkForOptimization (f : nat) (kind : CodeKind) (mode : ConcurrencyMode)
  | CallAttemptOnStackReplacement (frame : Frame) (loop_nesting_levels : Z).

(** The isolate, the flags and the tiering manager's own field
    [any_ic_changed_]. *)
Record Isolate := {
  flags : Flags;
  use_optimizer : bool;
  functions : gmap nat JSFunction;
  shared_function_infos : gmap nat SharedFunctionInfo;
  bytecode_arrays : gmap nat BytecodeArray;
  (** The [OSROptimizedCodeCache] of each native context: the cached jump
      offsets, by native context and shared function info. *)
  osr_optimized_code_cache : gmap (nat * nat) (list Z);
  (** [PendingOptimizationTable]: the shared function infos for which
      heuristic optimization is allowed. *)
  pending_optimization_allowed : gset nat;
  baseline_batch_compiler : list nat;
  any_ic_changed_ : bool;
  calls : list Call
}.

(** *** The monad of the controller: state, and failure of a check *)

Definition M (A : Type) : Type := Isolate -> option (A * Isolate).

#[global] Instance M_ret : MRet M := fun A a s => Some (a, s).
#[global] Instance M_bind : MBind M := fun A B k m s =>
  match m s with
  | Some (a, s') => k a s'
  | None => None
  end.

Definition fail {A} : M A := fun _ => None.
Definition get : M Isolate := fun s => Some (s, s).
Definition modify (f : Isolate -> Isolate) : M unit := fun s => Some (tt, f s).
Definition DCHECK (b : bool) : M unit := if b then mret tt else fail.
Definition value {A} (o : option A) : M A :=
  match o with Some a => mret a | None => fail end.

Definition set_functions (m : gmap nat JSFunction) (s : Isolate) : Isolate :=
  {| flags := flags s; use_optimizer := use_optimizer s; functions := m;
     shared_function_infos := shared_function_infos s;
     bytecode_arrays := bytecode_arrays s;
     osr_optimized_code_cache := osr_optimized_code_cache s;
     pending_optimization_allowed := pending_optimization_allowed s;
     baseline_batch_compiler := baseline_batch_compiler s;
     any_ic_changed_ := any_ic_changed_ s; calls := calls s |}.

Definition set_bytecode_arrays (m : gmap nat BytecodeArray) (s : Isolate)
  : Isolate :=
  {| flags := flags s; use_optimizer := use_optimizer s;
     functions := functions s;
     shared_function_infos := shared_function_infos s;
     bytecode_arrays := m;
     osr_optimized_code_cache := osr_optimized_code_cache s;
     pending_optimization_allowed := pending_optimization_allowed s;
     baseline_batch_compiler := baseline_batch_compiler s;
     any_ic_changed_ := any_ic_changed_ s; calls := calls s |}.

Definition set_baseline_batch_compiler (q : list nat) (s : Isolate) : Isolate :=
  {| flags := flags s; use_optimizer := use_optimizer s;
     functions := functions s;
     shared_function_infos := shared_function_infos s;
     bytecode_arrays := bytecode_arrays s;
     osr_optimized_code_cache := osr_optimized_code_cache s;
     pending_optimization_allowed := pending_optimization_allowed s;
     baseline_batch_compiler := q;
     any_ic_changed_ := any_ic_changed_ s; calls := calls s |}.

Definition set_any_ic_changed (b : bool) (s : Isolate) : Isolate :=
  {| flags := flags s; use_optimizer := use_optimizer s;
     functions := functions s;
     shared_function_infos := shared_function_infos s;
     bytecode_arrays := bytecode_arrays s;
     osr_optimized_code_cache := osr_optimized_code_cache s;
     pending_optimization_allowed := pending_optimization_allowed s;
     baseline_batch_compiler := baseline_batch_compiler s;
     any_ic_changed_ := b; calls := calls s |}.

Definition set_calls (l : list Call) (s : Isolate) : Isolate :=
  {| flags := flags s; use_optimizer := use_optimizer s;
     functions := functions s;
     shared_function_infos := shared_function_infos s;
     bytecode_arrays := bytecode_arrays s;
     osr_optimized_code_cache := osr_optimized_code_cache s;
     pending_optimization_allowed := pending_optimization_allowed s;
     baseline_batch_compiler := baseline_batch_compiler s;
     any_ic_changed_ := any_ic_changed_ s; calls := l |}.

(** Dereferencing; a dangling reference ends the run. *)
Definition load_function (f : nat) : M JSFunction :=
  s ← get; value (functions s !! f).
Definition load_shared (sfi : nat) : M SharedFunctionInfo :=
  s ← get; value (shared_function_infos s !! sfi).
Definition load_bytecode_array (b : nat) : M BytecodeArray :=
  s ← get; value (bytecode_arrays s !! b).

Definition store_function (f : nat) (o : JSFunction) : M unit :=
  modify (fun s => set_functions (<[f := o]> (functions s)) s).

Definition record (c : Call) : M unit :=
  modify (fun s => set_calls (calls s ++ [c]) s).

(** *** External collaborators *)

(** The isolate in which the bytecode array [b], so far [old], has nesting
    level [depth]. *)
Definition with_osr_level (b : nat) (depth : Z) (old : BytecodeArray)
    (s : Isolate) : Isolate :=
  set_bytecode_arrays
    (<[b := {| bytecode_length := bytecode_length old;
               osr_loop_nesting_level := depth;
               bytecodes := bytecodes old |}]> (bytecode_arrays s)) s.

(** Modelled from the spec: [BytecodeArray::set_osr_loop_nesting_level], a
    plain store into the header of the bytecode array. The field is eight
    bits wide and unsigned, so that is what it keeps of [depth]. *)
Definition set_osr_loop_nesting_level (b : nat) (depth : Z) : M unit :=
  bytecode ← load_bytecode_array b;
  modify (with_osr_level b (uint8 depth) bytecode).

(** Modelled from the spec: [JSFunction::MarkForOptimization] marks the
    function for optimization in the requested concurrency mode. *)
Definition MarkForOptimization (f : nat) (kind : CodeKind)
    (mode : ConcurrencyMode) : M unit :=
  record (CallMarkForOptimization f kind mode);;
  o ← load_function f;
  store_function f
    {| shared := shared o; native_context := native_context o;
       feedback_vector := feedback_vector o;
       GetActiveTier := GetActiveTier o;
       IsInOptimizationQueue := IsInOptimizationQueue o;
       IsMarkedForOptimization :=
         if mode is kNotConcurrent then true else IsMarkedForOptimization o;
       IsMarkedForConcurrentOptimization :=
         if mode is kConcurrent then true
         else IsMarkedForConcurrentOptimization o;
       HasAvailableOptimizedCode := HasAvailableOptimizedCode o;
       interrupt_budget := interrupt_budget o |}.

(** Modelled from the spec:
    [PendingOptimizationTable::IsHeuristicOptimizationAllowed]. *)
Definition IsHeuristicOptimizationAllowed (f : nat) : M bool :=
  o ← load_function f;
  s ← get;
  mret (bool_decide (shared o ∈ pending_optimization_allowed s)).

(** Modelled from the spec:
    [OSROptimizedCodeCache::GetBytecodeOffsetsFromSFI]. *)
Definition GetBytecodeOffsetsFromSFI (context sfi : nat) : M (list Z) :=
  s ← get; mret (default [] (osr_optimized_code_cache s !! (context, sfi))).

(** Modelled from the spec: [iterator.SetOffset(offset)] followed by
    [iterator.GetJumpTargetOffset()]. *)
Definition GetJumpTargetOffset (bytecode : BytecodeArray) (offset : Z) : M Z :=
  value (bytecodes bytecode !! offset ≫= jump_target_offset).

(** Modelled from the spec: [iterator.GetImmediateOperand(1)] at
    [offset]. *)
Definition GetImmediateOperand1 (bytecode : BytecodeArray) (offset : Z) : M Z :=
  value (bytecodes bytecode !! offset ≫= immediate_operand_1).

Definition with_feedback_vector (o : JSFunction) (v : option FeedbackVector)
  : JSFunction :=
  {| shared := shared o; native_context := native_context o;
     feedback_vector := v; GetActiveTier := GetActiveTier o;
     IsInOptimizationQueue := IsInOptimizationQueue o;
     IsMarkedForOptimization := IsMarkedForOptimization o;
     IsMarkedForConcurrentOptimization := IsMarkedForConcurrentOptimization o;
     HasAvailableOptimizedCode := HasAvailableOptimizedCode o;
     interrupt_budget := interrupt_budget o |}.

(** [feedback_vector().set_invocation_count(count, kRelaxedStore)]. *)
Definition set_invocation_count (f : nat) (count : Z) : M unit :=
  o ← load_function f;
  v ← value (feedback_vector o);
  store_function f
    (with_feedback_vector o
       (Some {| profiler_ticks := profiler_ticks v;
                invocation_count := count |})).

(** Modelled from the spec:
    [FeedbackVector::SaturatingIncrementProfilerTicks]; the counter stops at
    the largest [int]. *)
Definition SaturatingIncrementProfilerTicks (f : nat) : M unit :=
  o ← load_function f;
  v ← value (feedback_vector o);
  store_function f
    (with_feedback_vector o
       (Some {| profiler_ticks :=
                  if profiler_ticks v <? kMaxInt then profiler_ticks v + 1
                  else profiler_ticks v;
                invocation_count := invocation_count v |})).

(** Modelled from the spec: the baseline batch compiler's
    [EnqueueFunction]. *)
Definition EnqueueFunction (f : nat) : M unit :=
  modify (fun s =>
    set_baseline_batch_compiler (baseline_batch_compiler s ++ [f]) s).

(** Modelled from the spec: [Compiler::CompileBaseline] with
    [CLEAR_EXCEPTION]; on success the function runs baseline code unless it
    already runs in a tier above the interpreter, on failure nothing
    changes. *)
Definition CompileBaseline (f : nat) : M unit :=
  o ← load_function f;
  sfi ← load_shared (shared o);
  if baseline_compile_succeeds sfi then
    store_function f
      {| shared := shared o; native_context := native_context o;
         feedback_vector := feedback_vector o;
         GetActiveTier :=
           match GetActiveTier o with
           | Some INTERPRETED_FUNCTION | None => Some BASELINE
           | t => t
           end;
         IsInOptimizationQueue := IsInOptimizationQueue o;
         IsMarkedForOptimization := IsMarkedForOptimization o;
         IsMarkedForConcurrentOptimization :=
           IsMarkedForConcurrentOptimization o;
         HasAvailableOptimizedCode := HasAvailableOptimizedCode o;
         interrupt_budget := interrupt_budget o |}
  else mret tt.

(** *** The tiering manager *)

Section Controller.

(** [AbstractCode::kMaxLoopNestingMarker], declared elsewhere. *)
Variable kMaxLoopNestingMarker : Z.

(** [TieringManager::Optimize]. *)
Definition Optimize (f : nat) (kind : CodeKind) (d : OptimizationDecision)
  : M unit :=
  DCHECK (should_optimize d);;
  MarkForOptimization f (code_kind d) (concurrency_mode d).

(** [TieringManager::AttemptOnStackReplacement]. *)
Definition AttemptOnStackReplacement (frame : Frame) (loop_nesting_levels : Z)
  : M unit :=
  record (CallAttemptOnStackReplacement frame loop_nesting_levels);;
  o ← load_function (function frame);
  sfi ← load_shared (shared o);
  s ← get;
  if negb (FLAG_use_osr (flags s)) || negb (IsUserJavaScript sfi) then mret tt
  else if optimization_disabled sfi then mret tt
  else
    DCHECK (is_unoptimized frame);;
    bytecode ← load_bytecode_array (GetBytecodeArray frame);
    let level := osr_loop_nesting_level bytecode in
    set_osr_loop_nesting_level (GetBytecodeArray frame)
      (Z.min (int32 (level + loop_nesting_levels)) kMaxLoopNestingMarker).

(** [TiersUpToMaglev(CodeKind)]. *)
Definition TiersUpToMaglev (fl : Flags) (kind : CodeKind) : bool :=
  FLAG_maglev fl && CodeKindIsUnoptimizedJSFunction kind.

(** [TiersUpToMaglev(base::Optional<CodeKind>)]. *)
Definition TiersUpToMaglev_opt (fl : Flags) (kind : option CodeKind) : bool :=
  match kind with
  | Some k => TiersUpToMaglev fl k
  | None => false
  end.

(** [TieringManager::InterruptBudgetFor]. *)
Definition InterruptBudgetFor (f : nat) : M Z :=
  o ← load_function f;
  s ← get;
  if bool_decide (is_Some (feedback_vector o)) then
    mret (if TiersUpToMaglev_opt (flags s) (GetActiveTier o)
          then FLAG_interrupt_budget_for_maglev (flags s)
          else FLAG_interrupt_budget (flags s))
  else
    sfi ← load_shared (shared o);
    bytecode ← load_bytecode_array (bytecode_array sfi);
    mret (int32 (bytecode_length bytecode *
                 FLAG_interrupt_budget_factor_for_feedback_allocation (flags s))).

(** [TieringManager::InitialInterruptBudget]. *)
Definition InitialInterruptBudget (fl : Flags) : Z :=
  if FLAG_lazy_feedback_allocation fl
  then FLAG_interrupt_budget_for_feedback_allocation fl
  else FLAG_interrupt_budget fl.

(** Modelled from the spec: [JSFunction::SetInterruptBudget] re-seeds the
    budget with [InterruptBudgetFor]. *)
Definition SetInterruptBudget (f : nat) : M unit :=
  budget ← InterruptBudgetFor f;
  o ← load_function f;
  store_function f
    {| shared := shared o; native_context := native_context o;
       feedback_vector := feedback_vector o;
       GetActiveTier := GetActiveTier o;
       IsInOptimizationQueue := IsInOptimizationQueue o;
       IsMarkedForOptimization := IsMarkedForOptimization o;
       IsMarkedForConcurrentOptimization :=
         IsMarkedForConcurrentOptimization o;
       HasAvailableOptimizedCode := HasAvailableOptimizedCode o;
       interrupt_budget := budget |}.

(** Modelled from the spec: [JSFunction::CreateAndAttachFeedbackVector]
    attaches a fresh feedback vector and, as [OnInterruptTick] says of
    both of its branches, resets the interrupt budget for the next tick:
    the function then has a feedback vector, so the budget is the one
    [InterruptBudgetFor] gives for a function with a vector. *)
Definition CreateAndAttachFeedbackVector (f : nat) : M unit :=
  o ← load_function f;
  store_function f
    (with_feedback_vector o
       (Some {| profiler_ticks := 0; invocation_count := 0 |}));;
  SetInterruptBudget f.

(** [TieringManager::MaybeOSR]. The default argument of
    [AttemptOnStackReplacement] is one nesting level. *)
Definition MaybeOSR (f : nat) (frame : Frame) : M bool :=
  o ← load_function f;
  v ← value (feedback_vector o);
  let ticks := profiler_ticks v in
  if IsMarkedForOptimization o || IsMarkedForConcurrentOptimization o
     || HasAvailableOptimizedCode o
  then
    let allowance :=
      int32 (kOSRBytecodeSizeAllowanceBase
             + int32 (ticks * kOSRBytecodeSizeAllowancePerTick)) in
    sfi ← load_shared (shared o);
    bytecode ← load_bytecode_array (bytecode_array sfi);
    (if bytecode_length bytecode <=? allowance
     then AttemptOnStackReplacement frame 1
     else mret tt);;
    mret true
  else mret false.

(** [ShouldOptimizeAsSmallFunction]. *)
Definition ShouldOptimizeAsSmallFunction (fl : Flags) (bytecode_size : Z)
    (any_ic_changed : bool) : bool :=
  negb any_ic_changed
  && (bytecode_size <? FLAG_max_bytecode_size_for_early_opt fl).

(** The loop of [ShouldOptimize] over the cached jump offsets. It returns
    the decision of the iteration that left the function, if any. *)
Fixpoint osr_cache_loop (b : nat) (bytecode : BytecodeArray)
    (current_offset : Z) (bytecode_offsets : list Z)
  : M (option OptimizationDecision) :=
  match bytecode_offsets with
  | [] => mret None
  | jump_offset :: rest =>
      jump_target ← GetJumpTargetOffset bytecode jump_offset;
      if (jump_offset >=? current_offset) && (current_offset >=? jump_target)
      then
        operand ← GetImmediateOperand1 bytecode jump_offset;
        set_osr_loop_nesting_level b (int32 (operand + 1));;
        mret (Some TurbofanHotAndStable)
      else osr_cache_loop b bytecode current_offset rest
  end.

(** [TieringManager::ShouldOptimize]. Division by zero ends the run. *)
Definition ShouldOptimize (f : nat) (kind : CodeKind) (frame : Frame)
  : M OptimizationDecision :=
  o ← load_function f;
  DCHECK (bool_decide (GetActiveTier o = Some kind));;
  s ← get;
  if TiersUpToMaglev (flags s) kind then mret Maglev
  else if bool_decide (kind = TURBOFAN) then mret DoNotOptimize
  else
    sfi ← load_shared (shared o);
    bytecode ← load_bytecode_array (bytecode_array sfi);
    cached ←
      (if negb (bool_decide (osr_code_cache_state sfi = kNotCached))
          && is_unoptimized frame
       then
         let current_offset := GetBytecodeOffset frame in
         bytecode_offsets ←
           GetBytecodeOffsetsFromSFI (native_context o) (shared o);
         osr_cache_loop (bytecode_array sfi) bytecode current_offset
           bytecode_offsets
       else mret None);
    match cached with
    | Some d => mret d
    | None =>
        v ← value (feedback_vector o);
        let ticks := profiler_ticks v in
        DCHECK (negb (FLAG_bytecode_size_allowance_per_tick (flags s) =? 0));;
        let ticks_for_optimization :=
          int32 (FLAG_ticks_before_optimization (flags s)
                 + int32 (bytecode_length bytecode
                          `quot` FLAG_bytecode_size_allowance_per_tick (flags s)))
        in
        s' ← get;
        if ticks >=? ticks_for_optimization then mret TurbofanHotAndStable
        else if ShouldOptimizeAsSmallFunction (flags s)
                  (bytecode_length bytecode) (any_ic_changed_ s')
        then mret TurbofanSmallFunction
        else mret DoNotOptimize
    end.

(** [TieringManager::MaybeOptimizeFrame]. *)
Definition MaybeOptimizeFrame (f : nat) (frame : Frame) (kind : CodeKind)
  : M unit :=
  o ← load_function f;
  if IsInOptimizationQueue o then mret tt
  else
    s ← get;
    allowed ← IsHeuristicOptimizationAllowed f;
    if FLAG_testing_d8_test_runner (flags s) && negb allowed then mret tt
    else
      sfi ← load_shared (shared o);
      if optimization_disabled sfi then mret tt
      else
        done ←
          (if is_unoptimized frame then
             if FLAG_always_osr (flags s) then
               AttemptOnStackReplacement frame kMaxLoopNestingMarker;;
               mret false
             else MaybeOSR f frame
           else mret false);
        if done : bool then mret tt
        else
          d ← ShouldOptimize f kind frame;
          if should_optimize d then Optimize f kind d else mret tt.

(** [TieringManager::OnInterruptTick]. The frame is the top JavaScript
    frame of the isolate; the destructor of [OnInterruptTickScope] runs
    when the scope is left. *)
Definition OnInterruptTick (f : nat) (frame : Frame) : M unit :=
  o ← load_function f;
  let had_feedback_vector := bool_decide (is_Some (feedback_vector o)) in
  (if had_feedback_vector then SetInterruptBudget f
   else
     CreateAndAttachFeedbackVector f;;
     set_invocation_count f 1);;
  o1 ← load_function f;
  DCHECK (bool_decide (is_Some (feedback_vector o1)));;
  sfi ← load_shared (shared o1);
  _ ← load_bytecode_array (bytecode_array sfi);
  s ← get;
  (if can_compile_with_baseline sfi
      && negb (bool_decide (GetActiveTier o1 = Some BASELINE))
   then
     if FLAG_baseline_batch_compilation (flags s)
     then EnqueueFunction f
     else CompileBaseline f
   else mret tt);;
  if negb had_feedback_vector then mret tt
  else
    s2 ← get;
    if negb (use_optimizer s2) then mret tt
    else
      (SaturatingIncrementProfilerTicks f;;
       DCHECK (is_unoptimized frame);;
       o2 ← load_function f;
       kind ← value (GetActiveTier o2);
       MaybeOptimizeFrame f frame kind);;
      modify (set_any_ic_changed false).

(** *** Sequences of controller operations *)

Inductive Operation :=
  | OpOnInterruptTick (f : nat) (frame : Frame)
  | OpMaybeOptimizeFrame (f : nat) (frame : Frame) (kind : CodeKind)
  | OpShouldOptimize (f : nat) (kind : CodeKind) (frame : Frame)
  | OpAttemptOnStackReplacement (frame : Frame) (loop_nesting_levels : Z).

Definition run (op : Operation) : M unit :=
  match op with
  | OpOnInterruptTick f frame => OnInterruptTick f frame
  | OpMaybeOptimizeFrame f frame kind => MaybeOptimizeFrame f frame kind
  | OpShouldOptimize f kind frame => ShouldOptimize f kind frame;; mret tt
  | OpAttemptOnStackReplacement frame n => AttemptOnStackReplacement frame n
  end.

(** [steps s ops s']: running [ops] in order from [s] ends in [s']. *)
Inductive steps : Isolate -> list Operation -> Isolate -> Prop :=
  | steps_nil s : steps s [] s
  | steps_cons s op s1 ops s2 :
      run op s = Some (tt, s1) -> steps s1 ops s2 -> steps s (op :: ops) s2.

(** The same as a function: the isolate after running [ops] in order. *)
Fixpoint run_all (ops : list Operation) (s : Isolate) : option Isolate :=
  match ops with
  | [] => Some s
  | op :: ops' =>
      match run op s with
      | Some (_, s1) => run_all ops' s1
      | None => None
      end
  end.

End Controller.

(** *** Vocabulary of the statements *)

(** The cached jump at [jump_offset] decodes and its range
    [[jump_target, jump_offset]] does not contain [current_offset]. *)
Definition no_bracket (bytecode : BytecodeArray) (current_offset jump_offset : Z)
  : Prop :=
  exists jump_target,
    bytecodes bytecode !! jump_offset ≫= jump_target_offset = Some jump_target
    /\ ~ (current_offset <= jump_offset /\ jump_target <= current_offset).

(** No OSR-code-cache hit: the shared function info has nothing cached, or
    the frame is optimized, or no cached jump brackets the frame's
    offset. *)
Definition osr_cache_miss (s : Isolate) (o : JSFunction)
    (sfi : SharedFunctionInfo) (bytecode : BytecodeArray) (frame : Frame)
  : Prop :=
  osr_code_cache_state sfi = kNotCached
  \/ is_unoptimized frame = false
  \/ Forall (no_bracket bytecode (GetBytecodeOffset frame))
       (default [] (osr_optimized_code_cache s !! (native_context o, shared o))).

(** *** Vocabulary of the invariants *)

(** [o'] is [o] up to its feedback vector, active tier and interrupt
    budget; a feedback vector and an active tier that [o] has are not taken
    away. *)
Definition same_marks (o o' : JSFunction) : Prop :=
  shared o' = shared o
  /\ native_context o' = native_context o
  /\ IsInOptimizationQueue o' = IsInOptimizationQueue o
  /\ IsMarkedForOptimization o' = IsMarkedForOptimization o
  /\ IsMarkedForConcurrentOptimization o' = IsMarkedForConcurrentOptimization o
  /\ HasAvailableOptimizedCode o' = HasAvailableOptimizedCode o
  /\ (is_Some (feedback_vector o) -> is_Some (feedback_vector o'))
  /\ (is_Some (GetActiveTier o) -> is_Some (GetActiveTier o')).

(** [s'] is [s] up to the feedback vector, active tier and interrupt budget
    of function [f] and the queue of the baseline batch compiler. *)
Definition housekeeping (f : nat) (s s' : Isolate) : Prop :=
  flags s' = flags s
  /\ use_optimizer s' = use_optimizer s
  /\ shared_function_infos s' = shared_function_infos s
  /\ bytecode_arrays s' = bytecode_arrays s
  /\ osr_optimized_code_cache s' = osr_optimized_code_cache s
  /\ pending_optimization_allowed s' = pending_optimization_allowed s
  /\ any_ic_changed_ s' = any_ic_changed_ s
  /\ calls s' = calls s
  /\ (forall g, g <> f -> functions s' !! g = functions s !! g)
  /\ (forall o, functions s !! f = Some o ->
        exists o', functions s' !! f = Some o' /\ same_marks o o').

(** Every nesting level lies between 0 and the marker. *)
Definition osr_levels_bounded (marker : Z) (s : Isolate) : Prop :=
  forall b bytecode,
    bytecode_arrays s !! b = Some bytecode ->
    0 <= osr_loop_nesting_level bytecode <= marker.

(** No bytecode array of [s] has a lower nesting level in [s']. *)
Definition osr_levels_le (s s' : Isolate) : Prop :=
  forall b bytecode,
    bytecode_arrays s !! b = Some bytecode ->
    exists bytecode',
      bytecode_arrays s' !! b = Some bytecode'
      /\ osr_loop_nesting_level bytecode <= osr_loop_nesting_level bytecode'.

(** A run of [ShouldOptimize] for function [f] on [frame] misses the
    OSR-code cache. *)
Definition misses_cache (s : Isolate) (f : nat) (frame : Frame) : Prop :=
  forall o sfi bytecode,
    functions s !! f = Some o ->
    shared_function_infos s !! shared o = Some sfi ->
    bytecode_arrays s !! bytecode_array sfi = Some bytecode ->
    osr_cache_miss s o sfi bytecode frame.

(** The operation does not take the OSR-code-cache path of
    [ShouldOptimize]: it is a call of [AttemptOnStackReplacement], or its
    function misses the cache on its frame. Other functions may have
    what they like in the cache. *)
Definition outside_cache_path (s : Isolate) (op : Operation) : Prop :=
  match op with
  | OpOnInterruptTick f frame
  | OpMaybeOptimizeFrame f frame _
  | OpShouldOptimize f _ frame => misses_cache s f frame
  | OpAttemptOnStackReplacement _ _ => True
  end.

(** An explicit [AttemptOnStackReplacement] asks for a number of levels
    that is not negative and can be added to a level without overflow. *)
Definition levels_valid (marker : Z) (op : Operation) : Prop :=
  match op with
  | OpAttemptOnStackReplacement _ n => 0 <= n <= kMaxInt - marker
  | _ => True
  end.

(** From [s] to [s'] the shared function infos are untouched and, if the
    levels of [s] are bounded, so are those of [s'] and none is lower. *)
Definition advance (marker : Z) (s s' : Isolate) : Prop :=
  shared_function_infos s' = shared_function_infos s
  /\ (osr_levels_bounded marker s ->
      osr_levels_bounded marker s' /\ osr_levels_le s s').

(** *** Vocabulary of the effects *)

(** [o'] is [o] up to its optimization marks, and no mark is taken away. *)
Definition marks_added (o o' : JSFunction) : Prop :=
  shared o' = shared o
  /\ native_context o' = native_context o
  /\ feedback_vector o' = feedback_vector o
  /\ GetActiveTier o' = GetActiveTier o
  /\ IsInOptimizationQueue o' = IsInOptimizationQueue o
  /\ HasAvailableOptimizedCode o' = HasAvailableOptimizedCode o
  /\ interrupt_budget o' = interrupt_budget o
  /\ (IsMarkedForOptimization o = true -> IsMarkedForOptimization o' = true)
  /\ (IsMarkedForConcurrentOptimization o = true ->
      IsMarkedForConcurrentOptimization o' = true).

(** [bytecode'] is [bytecode] up to its nesting level. *)
Definition level_changed (bytecode bytecode' : BytecodeArray) : Prop :=
  bytecode_length bytecode' = bytecode_length bytecode
  /\ bytecodes bytecode' = bytecodes bytecode.

(** [s'] is [s] up to entries added to the call log, the nesting levels of
    its bytecode arrays and marks added to function [f]. *)
Definition decision_effect (f : nat) (s s' : Isolate) : Prop :=
  flags s' = flags s
  /\ use_optimizer s' = use_optimizer s
  /\ shared_function_infos s' = shared_function_infos s
  /\ osr_optimized_code_cache s' = osr_optimized_code_cache s
  /\ pending_optimization_allowed s' = pending_optimization_allowed s
  /\ baseline_batch_compiler s' = baseline_batch_compiler s
  /\ any_ic_changed_ s' = any_ic_changed_ s
  /\ calls s `prefix_of` calls s'
  /\ (forall g, g <> f -> functions s' !! g = functions s !! g)
  /\ (forall o, functions s !! f = Some o ->
        exists o', functions s' !! f = Some o' /\ marks_added o o')
  /\ (forall b bytecode,
        bytecode_arrays s !! b = Some bytecode ->
        exists bytecode',
          bytecode_arrays s' !! b = Some bytecode'
          /\ level_changed bytecode bytecode')
  /\ (forall b, bytecode_arrays s !! b = None -> bytecode_arrays s' !! b = None).

(** The function is marked for optimization or has optimized code. *)
Definition pending (o : JSFunction) : bool :=
  IsMarkedForOptimization o || IsMarkedForConcurrentOptimization o
  || HasAvailableOptimizedCode o.

(** [o] after [MarkForOptimization] in mode [mode]. *)
Definition marked (mode : ConcurrencyMode) (o : JSFunction) : JSFunction :=
  {| shared := shared o; native_context := native_context o;
     feedback_vector := feedback_vector o;
     GetActiveTier := GetActiveTier o;
     IsInOptimizationQueue := IsInOptimizationQueue o;
     IsMarkedForOptimization :=
       if mode is kNotConcurrent then true else IsMarkedForOptimization o;
     IsMarkedForConcurrentOptimization :=
       if mode is kConcurrent then true
       else IsMarkedForConcurrentOptimization o;
     HasAvailableOptimizedCode := HasAvailableOptimizedCode o;
     interrupt_budget := interrupt_budget o |}.

(** Whether a logged call is a call of [MarkForOptimization] for function
    [f], and the number of such calls in a log. *)
Definition is_mark_of (f : nat) (c : Call) : bool :=
  match c with
  | CallMarkForOptimization g _ _ => bool_decide (g = f)
  | CallAttemptOnStackReplacement _ _ => false
  end.

Fixpoint count_marks (f : nat) (l : list Call) : nat :=
  match l with
  | [] => 0%nat
  | c :: l' => ((if is_mark_of f c then 1 else 0) + count_marks f l')%nat
  end.

(** An operation that reaches [MaybeOptimizeFrame] with an unoptimized
    frame; a tick checks this itself. *)
Definition on_unoptimized_frame (op : Operation) : Prop :=
  match op with
  | OpMaybeOptimizeFrame _ frame _ => is_unoptimized frame = true
  | _ => True
  end.

(** From [s] to [s'] the calls [added] were logged: among them at most one
    call of [MarkForOptimization] for any one function, none for a function
    that was pending or is not there, and one only for a function that is
    pending afterwards; no function has gone or is pending no more. *)
Definition marked_once (s s' : Isolate) (added : list Call) : Prop :=
  calls s' = calls s ++ added
  /\ forall f,
       (count_marks f added <= 1)%nat
       /\ (functions s !! f = None ->
           functions s' !! f = None /\ count_marks f added = 0%nat)
       /\ (forall o,
             functions s !! f = Some o ->
             exists o',
               functions s' !! f = Some o'
               /\ (pending o = true ->
                   pending o' = true /\ count_marks f added = 0%nat)
               /\ (count_marks f added = 1%nat -> pending o' = true)).

(** *** Vocabulary of a tick's bookkeeping *)

Definition with_interrupt_budget (o : JSFunction) (budget : Z) : JSFunction :=
  {| shared := shared o; native_context := native_context o;
     feedback_vector := feedback_vector o;
     GetActiveTier := GetActiveTier o;
     IsInOptimizationQueue := IsInOptimizationQueue o;
     IsMarkedForOptimization := IsMarkedForOptimization o;
     IsMarkedForConcurrentOptimization := IsMarkedForConcurrentOptimization o;
     HasAvailableOptimizedCode := HasAvailableOptimizedCode o;
     interrupt_budget := budget |}.

Definition with_active_tier (o : JSFunction) (tier : option CodeKind)
  : JSFunction :=
  {| shared := shared o; native_context := native_context o;
     feedback_vector := feedback_vector o;
     GetActiveTier := tier;
     IsInOptimizationQueue := IsInOptimizationQueue o;
     IsMarkedForOptimization := IsMarkedForOptimization o;
     IsMarkedForConcurrentOptimization := IsMarkedForConcurrentOptimization o;
     HasAvailableOptimizedCode := HasAvailableOptimizedCode o;
     interrupt_budget := interrupt_budget o |}.

(** The function after the first part of a tick: it has got a feedback
    vector with invocation count 1 if it had none, and its budget is
    seeded again. *)
Definition seeded (fl : Flags) (o : JSFunction) : JSFunction :=
  with_interrupt_budget
    (if bool_decide (is_Some (feedback_vector o)) then o
     else with_feedback_vector o
            (Some {| profiler_ticks := 0; invocation_count := 1 |}))
    (if TiersUpToMaglev_opt fl (GetActiveTier o)
     then FLAG_interrupt_budget_for_maglev fl
     else FLAG_interrupt_budget fl).

(** Whether a tick hands the function to the baseline compiler. *)
Definition wants_baseline (sfi : SharedFunctionInfo) (o : JSFunction) : bool :=
  can_compile_with_baseline sfi
  && negb (bool_decide (GetActiveTier o = Some BASELINE)).

(** The tier after a successful baseline compilation. *)
Definition baseline_tier (tier : option CodeKind) : option CodeKind :=
  match tier with
  | Some INTERPRETED_FUNCTION | None => Some BASELINE
  | t => t
  end.

(** The function after the baseline part of a tick. *)
Definition after_baseline (fl : Flags) (sfi : SharedFunctionInfo)
    (o : JSFunction) : JSFunction :=
  if wants_baseline sfi o && negb (FLAG_baseline_batch_compilation fl)
     && baseline_compile_succeeds sfi
  then with_active_tier o (baseline_tier (GetActiveTier o))
  else o.

(** The queue of the baseline batch compiler after that part. *)
Definition queue_after_baseline (fl : Flags) (sfi : SharedFunctionInfo)
    (o : JSFunction) (f : nat) (queue : list nat) : list nat :=
  if wants_baseline sfi o && FLAG_baseline_batch_compilation fl
  then queue ++ [f] else queue.

Definition saturating_increment (ticks : Z) : Z :=
  if ticks <? kMaxInt then ticks + 1 else ticks.

(** The function after [SaturatingIncrementProfilerTicks]. *)
Definition counted (o : JSFunction) : JSFunction :=
  with_feedback_vector o
    (match feedback_vector o with
     | Some v =>
         Some {| profiler_ticks := saturating_increment (profiler_ticks v);
                 invocation_count := invocation_count v |}
     | None => None
     end).

(** [s'] is [s] with function [f] replaced by [o'] and the queue of the
    baseline batch compiler by [queue]. *)
Definition updated (f : nat) (o' : JSFunction) (queue : list nat)
    (s s' : Isolate) : Prop :=
  flags s' = flags s
  /\ use_optimizer s' = use_optimizer s
  /\ shared_function_infos s' = shared_function_infos s
  /\ bytecode_arrays s' = bytecode_arrays s
  /\ osr_optimized_code_cache s' = osr_optimized_code_cache s
  /\ pending_optimization_allowed s' = pending_optimization_allowed s
  /\ any_ic_changed_ s' = any_ic_changed_ s
  /\ calls s' = calls s
  /\ baseline_batch_compiler s' = queue
  /\ functions s' = <[f := o']> (functions s).

(** *** Vocabulary of what the controller never does *)

(** [o'] is [o] with its place in the optimization queue and its optimized
    code untouched, still pending if it was, no feedback vector taken away
    or set back, and its tier not lowered. *)
Definition function_kept (o o' : JSFunction) : Prop :=
  shared o' = shared o
  /\ native_context o' = native_context o
  /\ IsInOptimizationQueue o' = IsInOptimizationQueue o
  /\ HasAvailableOptimizedCode o' = HasAvailableOptimizedCode o
  /\ (pending o = true -> pending o' = true)
  /\ (forall v,
        feedback_vector o = Some v ->
        exists v',
          feedback_vector o' = Some v'
          /\ invocation_count v' = invocation_count v
          /\ profiler_ticks v <= profiler_ticks v')
  /\ (forall kind,
        GetActiveTier o = Some kind ->
        GetActiveTier o' = Some kind
        \/ kind = INTERPRETED_FUNCTION /\ GetActiveTier o' = Some BASELINE).

(** From [s] to [s'] the flags, the shared function infos, the OSR-code
    cache and the table of pending optimizations are untouched; the call
    log and the queue of the baseline batch compiler have only grown; the
    same functions and bytecode arrays are there, the functions kept and
    the bytecode arrays changed in their nesting level at most. *)
Definition controller_effect (s s' : Isolate) : Prop :=
  flags s' = flags s
  /\ use_optimizer s' = use_optimizer s
  /\ shared_function_infos s' = shared_function_infos s
  /\ osr_optimized_code_cache s' = osr_optimized_code_cache s
  /\ pending_optimization_allowed s' = pending_optimization_allowed s
  /\ calls s `prefix_of` calls s'
  /\ baseline_batch_compiler s `prefix_of` baseline_batch_compiler s'
  /\ (forall f, functions s !! f = None -> functions s' !! f = None)
  /\ (forall f o,
        functions s !! f = Some o ->
        exists o', functions s' !! f = Some o' /\ function_kept o o')
  /\ (forall b, bytecode_arrays s !! b = None -> bytecode_arrays s' !! b = None)
  /\ (forall b bytecode,
        bytecode_arrays s !! b = Some bytecode ->
        exists bytecode',
          bytecode_arrays s' !! b = Some bytecode'
          /\ level_changed bytecode bytecode').

(** *** Example configurations

    The scenarios of the specification, as isolates with one function
    (number 0), its shared function info (number 0) and its bytecode array
    (number 0). *)

Definition scenario_flags (maglev use_osr : bool) : Flags :=
  {| FLAG_use_osr := use_osr; FLAG_maglev := maglev; FLAG_always_osr := false;
     FLAG_testing_d8_test_runner := false;
     FLAG_baseline_batch_compilation := false;
     FLAG_lazy_feedback_allocation := true;
     FLAG_interrupt_budget := 135168;
     FLAG_interrupt_budget_for_maglev := 40960;
     FLAG_interrupt_budget_for_feedback_allocation := 940;
     FLAG_interrupt_budget_factor_for_feedback_allocation := 8;
     FLAG_ticks_before_optimization := 5;
     FLAG_bytecode_size_allowance_per_tick := 50;
     FLAG_max_bytecode_size_for_early_opt := 80 |}.

(** A bytecode array with one loop: a backward jump at offset 120 to offset
    40, whose immediate operand 1 is 2. *)
Definition scenario_bytecode (len level : Z) : BytecodeArray :=
  {| bytecode_length := len; osr_loop_nesting_level := level;
     bytecodes :=
       {[ 120 := {| jump_target_offset := Some 40;
                    immediate_operand_1 := Some 2 |} ]} |}.

Definition scenario_shared (user_js disabled : bool)
    (cache : OSRCodeCacheStateOfSFI) : SharedFunctionInfo :=
  {| bytecode_array := 0%nat; IsUserJavaScript := user_js;
     optimization_disabled := disabled; osr_code_cache_state := cache;
     can_compile_with_baseline := false; baseline_compile_succeeds := false |}.

Definition scenario_function (vector : option FeedbackVector)
    (queued marked : bool) : JSFunction :=
  {| shared := 0%nat; native_context := 0%nat;
     feedback_vector := vector;
     GetActiveTier := Some INTERPRETED_FUNCTION;
     IsInOptimizationQueue := queued;
     IsMarkedForOptimization := marked;
     IsMarkedForConcurrentOptimization := false;
     HasAvailableOptimizedCode := false;
     interrupt_budget := 0 |}.

Definition scenario_isolate (fl : Flags) (optimizer : bool) (o : JSFunction)
    (sfi : SharedFunctionInfo) (bytecode : BytecodeArray)
    (cached_offsets : list Z) (ic_changed : bool) : Isolate :=
  {| flags := fl; use_optimizer := optimizer;
     functions := {[ 0%nat := o ]};
     shared_function_infos := {[ 0%nat := sfi ]};
     bytecode_arrays := {[ 0%nat := bytecode ]};
     osr_optimized_code_cache := {[ (0%nat, 0%nat) := cached_offsets ]};
     pending_optimization_allowed := ∅;
     baseline_batch_compiler := [];
     any_ic_changed_ := ic_changed; calls := [] |}.

Definition scenario_frame (offset : Z) : Frame :=
  {| is_unoptimized := true; function := 0%nat; GetBytecodeArray := 0%nat;
     GetBytecodeOffset := offset |}.

Definition ticked (ticks : Z) : option FeedbackVector :=
  Some {| profiler_ticks := ticks; invocation_count := 1 |}.

(** S1, S2: bytecode length 200, nothing cached, an IC changed. *)
Definition cold_or_hot (ticks : Z) : Isolate :=
  scenario_isolate (scenario_flags false true) true
    (scenario_function (ticked ticks) false false)
    (scenario_shared true false kNotCached)
    (scenario_bytecode 200 0) [] true.

(** S3, S4: bytecode length 40, one tick. *)
Definition small_function (ic_changed : bool) : Isolate :=
  scenario_isolate (scenario_flags false true) true
    (scenario_function (ticked 1) false false)
    (scenario_shared true false kNotCached)
    (scenario_bytecode 40 0) [] ic_changed.

(** S6: the function is marked for optimization, no ticks, bytecode
    length 120. *)
Definition osr_size_gate : Isolate :=
  scenario_isolate (scenario_flags false true) true
    (scenario_function (ticked 0) false true)
    (scenario_shared true false kNotCached)
    (scenario_bytecode 120 0) [] false.

(** S5: the jump at offset 120 is cached and the nesting level is
    [level]; [osr] is the flag [use_osr], [user_js] says whether the
    function is user JavaScript. *)
Definition cached_loop (osr user_js : bool) (level : Z) : Isolate :=
  scenario_isolate (scenario_flags false osr) true
    (scenario_function (ticked 1) false false)
    (scenario_shared user_js false kCached)
    (scenario_bytecode 200 level) [120] false.

(** A small function with three ticks and stable ICs; [queued] says
    whether it is in the optimization queue, [disabled] whether
    optimization is disabled for it. *)
Definition warm_function (queued disabled : bool) : Isolate :=
  scenario_isolate (scenario_flags false true) true
    (scenario_function (ticked 3) queued false)
    (scenario_shared true disabled kNotCached)
    (scenario_bytecode 40 0) [] false.

(** A function before its first tick, after an IC changed. *)
Definition first_tick : Isolate :=
  scenario_isolate (scenario_flags false true) true
    (scenario_function None false false)
    (scenario_shared true false kNotCached)
    (scenario_bytecode 40 0) [] true.

(** The Maglev flag is on; the function has no feedback vector yet and its
    loop is in the OSR-code cache. *)
Definition maglev_function : Isolate :=
  scenario_isolate (scenario_flags true true) true
    (scenario_function None false false)
    (scenario_shared true false kCached)
    (scenario_bytecode 200 0) [120] true.

(** A function that can be compiled with the baseline compiler, before its
    first tick, with batch compilation switched on. *)
Definition baseline_candidate : Isolate :=
  {| flags :=
       {| FLAG_use_osr := true; FLAG_maglev := false; FLAG_always_osr := false;
          FLAG_testing_d8_test_runner := false;
          FLAG_baseline_batch_compilation := true;
          FLAG_lazy_feedback_allocation := true;
          FLAG_interrupt_budget := 135168;
          FLAG_interrupt_budget_for_maglev := 40960;
          FLAG_interrupt_budget_for_feedback_allocation := 940;
          FLAG_interrupt_budget_factor_for_feedback_allocation := 8;
          FLAG_ticks_before_optimization := 5;
          FLAG_bytecode_size_allowance_per_tick := 50;
          FLAG_max_bytecode_size_for_early_opt := 80 |};
     use_optimizer := true;
     functions := {[ 0%nat := scenario_function None false false ]};
     shared_function_infos :=
       {[ 0%nat :=
            {| bytecode_array := 0%nat; IsUserJavaScript := true;
               optimization_disabled := false;
               osr_code_cache_state := kNotCached;
               can_compile_with_baseline := true;
               baseline_compile_succeeds := true |} ]};
     bytecode_arrays := {[ 0%nat := scenario_bytecode 40 0 ]};
     osr_optimized_code_cache := ∅;
     pending_optimization_allowed := ∅;
     baseline_batch_compiler := [7%nat];
     any_ic_changed_ := false; calls := [] |}.

(** The scenario flags with Maglev off and OSR in use; [always_osr] and
    [test_runner] set the flags of those names. *)
Definition testing_flags (always_osr test_runner : bool) : Flags :=
  {| FLAG_use_osr := true; FLAG_maglev := false; FLAG_always_osr := always_osr;
     FLAG_testing_d8_test_runner := test_runner;
     FLAG_baseline_batch_compilation := false;
     FLAG_lazy_feedback_allocation := true;
     FLAG_interrupt_budget := 135168;
     FLAG_interrupt_budget_for_maglev := 40960;
     FLAG_interrupt_budget_for_feedback_allocation := 940;
     FLAG_interrupt_budget_factor_for_feedback_allocation := 8;
     FLAG_ticks_before_optimization := 5;
     FLAG_bytecode_size_allowance_per_tick := 50;
     FLAG_max_bytecode_size_for_early_opt := 80 |}.

(** A hot function under the test runner, which has not allowed heuristic
    optimization for it. *)
Definition under_test_runner : Isolate :=
  scenario_isolate (testing_flags false true) true
    (scenario_function (ticked 20) false false)
    (scenario_shared true false kNotCached)
    (scenario_bytecode 200 0) [] false.

(** A hot function that is already marked, under [always_osr]. *)
Definition always_osr_marked : Isolate :=
  scenario_isolate (testing_flags true false) true
    (scenario_function (ticked 20) false true)
    (scenario_shared true false kNotCached)
    (scenario_bytecode 200 0) [] false.

(** The bytecode array and the cached loop of S5 with [operand] as the
    immediate operand 1 of the jump at offset 120. *)
Definition scenario_bytecode_operand (len level operand : Z) : BytecodeArray :=
  {| bytecode_length := len; osr_loop_nesting_level := level;
     bytecodes :=
       {[ 120 := {| jump_target_offset := Some 40;
                    immediate_operand_1 := Some operand |} ]} |}.

Definition cached_loop_operand (osr user_js : bool) (level operand : Z)
  : Isolate :=
  scenario_isolate (scenario_flags false osr) true
    (scenario_function (ticked 1) false false)
    (scenario_shared user_js false kCached)
    (scenario_bytecode_operand 200 level operand) [120] false.

End TieringManager.

(** * Properties *)

(** ** Machine integers *)

Lemma int32_id (z : Z) : is_int32 z -> int32 z = z.
Proof.
  unfold is_int32, int32, kMinInt, kMaxInt. intros Hz.
  rewrite Z.mod_small; lia.
Qed.

(** Adding a constant and subtracting it again is the identity on [int],
    whether or not the intermediate sum wraps. *)
Lemma int32_add_sub (k b : Z) : is_int32 b -> int32 (int32 (k + b) - k) = b.
Proof.
  intros Hb. unfold int32 at 1 2.
  replace ((k + b + 2 ^ 31) mod 2 ^ 32 - 2 ^ 31 - k + 2 ^ 31)
    with ((k + b + 2 ^ 31) mod 2 ^ 32 - k) by lia.
  rewrite Zminus_mod_idemp_l.
  replace (k + b + 2 ^ 31 - k) with (b + 2 ^ 31) by lia.
  apply int32_id in Hb. unfold int32 in Hb. exact Hb.
Qed.

(** ** The builtins registry *)

Module BuiltinsFacts.
Import Builtins.

Section Registry.

Variable builtin_metadata : list BuiltinMetadata.
Variable kFirstBuiltinContinuationId : Z.
Variable kSystemPointerSize : Z.
Variable HasHeapObjectTag : Z -> bool.

(** [Builtin] is an [int32_t] enumeration, so its enumerators fit. *)
Hypothesis builtin_count_fits : kBuiltinCount builtin_metadata <= kMaxInt + 1.

Local Abbreviation IsBuiltinId := (IsBuiltinId builtin_metadata).
Local Abbreviation KindOf := (KindOf builtin_metadata).
Local Abbreviation GetContinuationBytecodeOffset :=
  (GetContinuationBytecodeOffset builtin_metadata kFirstBuiltinContinuationId).
Local Abbreviation GetBuiltinFromBytecodeOffset :=
  (GetBuiltinFromBytecodeOffset builtin_metadata kFirstBuiltinContinuationId).
Local Abbreviation set_code := (set_code builtin_metadata HasHeapObjectTag).
Local Abbreviation install := (install builtin_metadata HasHeapObjectTag).
Local Abbreviation code_handle := (code_handle kSystemPointerSize).
Local Abbreviation IsBuiltinHandle := (IsBuiltinHandle builtin_metadata kSystemPointerSize).
Local Abbreviation table_sized := (table_sized builtin_metadata).

Lemma IsBuiltinId_range (id : Z) :
  IsBuiltinId id = true <-> 0 <= id < kBuiltinCount builtin_metadata.
Proof. unfold Builtins.IsBuiltinId. rewrite andb_true_iff. lia. Qed.

Lemma IsBuiltinId_int32 (id : Z) : IsBuiltinId id = true -> is_int32 id.
Proof.
  rewrite IsBuiltinId_range. unfold is_int32, kMinInt, kMaxInt in *. lia.
Qed.

Lemma KindOf_Some (b : Builtin) (k : Kind) :
  KindOf b = Some k -> IsBuiltinId b = true.
Proof. unfold Builtins.KindOf. destruct (IsBuiltinId b); [done | discriminate]. Qed.

Lemma GetContinuationBytecodeOffset_Some (b : Builtin) (o : BytecodeOffset) :
  GetContinuationBytecodeOffset b = Some o ->
  exists k, KindOf b = Some k /\ is_continuation_kind k = true
            /\ id_ o = int32 (kFirstBuiltinContinuationId + ToInt b).
Proof.
  unfold Builtins.GetContinuationBytecodeOffset.
  destruct (KindOf b) as [k|]; [|discriminate].
  destruct (is_continuation_kind k) eqn:Hk; [|discriminate].
  intros [= <-]. eauto.
Qed.

(** The builtin recovered from the continuation offset of [b] is [b], and
    its kind passes the check of the reverse function. *)
Lemma GetBuiltinFromBytecodeOffset_of_offset (b : Builtin) (k : Kind) :
  KindOf b = Some k -> is_continuation_kind k = true ->
  GetBuiltinFromBytecodeOffset
    {| id_ := int32 (kFirstBuiltinContinuationId + ToInt b) |} = Some b.
Proof.
  intros Hk Hc. unfold Builtins.GetBuiltinFromBytecodeOffset. cbn.
  unfold FromInt, ToInt.
  rewrite int32_add_sub by (eapply IsBuiltinId_int32, KindOf_Some; eauto).
  by rewrite Hk, Hc.
Qed.

(** C8. Over the builtins of kind TFJ, TFC or TFS,
    [GetBuiltinFromBytecodeOffset] undoes [GetContinuationBytecodeOffset],
    and on every offset that [GetContinuationBytecodeOffset] produces,
    [GetContinuationBytecodeOffset] undoes [GetBuiltinFromBytecodeOffset];
    the first adds [kFirstBuiltinContinuationId] to the builtin's number and
    the second subtracts it. *)
Theorem continuation_offset_roundtrip :
  (forall (b : Builtin) (k : Kind),
     KindOf b = Some k -> k = TFJ \/ k = TFC \/ k = TFS ->
     exists o,
       GetContinuationBytecodeOffset b = Some o
       /\ id_ o = int32 (kFirstBuiltinContinuationId + ToInt b)
       /\ GetBuiltinFromBytecodeOffset o = Some b)
  /\ (forall (b : Builtin) (o : BytecodeOffset),
        GetContinuationBytecodeOffset b = Some o ->
        exists b',
          GetBuiltinFromBytecodeOffset o = Some b'
          /\ b' = FromInt (int32 (id_ o - kFirstBuiltinContinuationId))
          /\ GetContinuationBytecodeOffset b' = Some o).
Proof.
  split.
  - intros b k Hk Hkind.
    assert (Hc : is_continuation_kind k = true)
      by (destruct Hkind as [-> | [-> | ->]]; reflexivity).
    eexists. split; [|split].
    + unfold Builtins.GetContinuationBytecodeOffset. by rewrite Hk, Hc.
    + reflexivity.
    + eapply GetBuiltinFromBytecodeOffset_of_offset; eauto.
  - intros b [o] Ho.
    destruct (GetContinuationBytecodeOffset_Some _ _ Ho) as (k & Hk & Hc & Hid).
    cbn in Hid. subst o. exists b. split; [|split].
    + eapply GetBuiltinFromBytecodeOffset_of_offset; eauto.
    + cbn. unfold FromInt, ToInt.
      rewrite int32_add_sub; [done|]. eapply IsBuiltinId_int32, KindOf_Some; eauto.
    + exact Ho.
Qed.

(** *** The builtin table *)

Lemma set_code_Some (b : Builtin) (ptr : Z) (iso iso' : Isolate) :
  set_code b ptr iso = Some iso' ->
  exists c,
    code_objects iso !! ptr = Some c /\ builtin_id c = b
    /\ IsBuiltinId b = true
    /\ iso' = {| builtin_table := builtin_table iso;
                 builtin_table_slots :=
                   <[Z.to_nat b := ptr]> (builtin_table_slots iso);
                 code_objects := code_objects iso |}.
Proof.
  unfold Builtins.set_code, ToInt.
  destruct (code_objects iso !! ptr) as [c|]; [|discriminate].
  destruct (bool_decide (b = builtin_id c)) eqn:Hb; [|discriminate].
  destruct (HasHeapObjectTag ptr); [|discriminate].
  destruct (IsBuiltinId b) eqn:Hid; [|discriminate].
  cbn. intros [= <-]. apply bool_decide_eq_true in Hb. eauto.
Qed.

Lemma set_code_sized (b : Builtin) (ptr : Z) (iso iso' : Isolate) :
  set_code b ptr iso = Some iso' -> table_sized iso -> table_sized iso'.
Proof.
  intros (c & _ & _ & _ & ->)%set_code_Some. unfold table_sized. cbn.
  by rewrite length_insert.
Qed.

(** An install fills its own slot. *)
Lemma set_code_installed (b : Builtin) (ptr : Z) (iso iso' : Isolate) :
  set_code b ptr iso = Some iso' -> table_sized iso -> installed iso' b.
Proof.
  intros (c & Hc & Hb & Hid & ->)%set_code_Some Hsz.
  apply IsBuiltinId_range in Hid. exists c. split; [|done].
  unfold code, ToInt. cbn.
  destruct (Z.leb_spec 0 b); [|lia].
  rewrite list_lookup_insert_eq by (unfold table_sized in Hsz; lia).
  exact Hc.
Qed.

(** An install leaves the other slots as they were. *)
Lemma set_code_other (b id : Builtin) (ptr : Z) (iso iso' : Isolate) :
  set_code b ptr iso = Some iso' -> id <> b ->
  installed iso id -> installed iso' id.
Proof.
  intros (c & Hc & Hb & Hid & ->)%set_code_Some Hne (c' & Hc' & Hb').
  apply IsBuiltinId_range in Hid. exists c'. split; [|done].
  revert Hc'. unfold code, ToInt. cbn.
  destruct (Z.leb_spec 0 id); [|done].
  rewrite list_lookup_insert_ne by lia. done.
Qed.

(** After a run of installs, every slot that was filled before or by one
    of the installs holds the code object of its own builtin. *)
Lemma install_installed (l : list (Builtin * Z)) :
  forall (iso iso' : Isolate) (id : Builtin),
    install l iso = Some iso' -> table_sized iso ->
    id ∈ l.*1 \/ installed iso id -> installed iso' id.
Proof.
  induction l as [|[b ptr] l IH]; intros iso iso' id Hrun Hsz Hid.
  - injection Hrun as <-. destruct Hid as [Hin|]; [|done].
    by apply elem_of_nil in Hin.
  - cbn in Hrun. destruct (set_code b ptr iso) as [iso1|] eqn:Hset; [|done].
    apply (IH iso1 iso' id Hrun (set_code_sized _ _ _ _ Hset Hsz)).
    destruct (decide (id = b)) as [->|Hne].
    + right. eapply set_code_installed; eauto.
    + destruct Hid as [Hin|Hold].
      * left. cbn in Hin. apply elem_of_cons in Hin as [?|?]; [done|done].
      * right. eapply set_code_other; eauto.
Qed.

(** C9. Once every builtin in [kFirst, kLast] has been installed with
    [set_code], [code(id)] has [builtin_id] equal to [id];
    [IsBuiltinHandle] applied to [code_handle(id)] answers true and stores
    [id]; applied to a handle below or beyond the table it answers false and
    stores nothing. *)
Theorem builtin_table_identity :
  0 < kSystemPointerSize ->
  (forall (l : list (Builtin * Z)) (iso0 iso : Isolate),
     table_sized iso0 ->
     install l iso0 = Some iso ->
     (forall id, kFirst <= id <= kLast builtin_metadata -> id ∈ l.*1) ->
     forall id, kFirst <= id <= kLast builtin_metadata ->
       exists c, code id iso = Some c /\ builtin_id c = id)
  /\ (forall (iso : Isolate) (id b0 : Builtin),
        kFirst <= id <= kLast builtin_metadata ->
        IsBuiltinHandle (code_handle id iso) b0 iso = (true, id))
  /\ (forall (iso : Isolate) (h : Handle) (b0 : Builtin),
        location h < builtin_table iso
        \/ builtin_table iso
           + kBuiltinCount builtin_metadata * kSystemPointerSize <= location h ->
        IsBuiltinHandle h b0 iso = (false, b0)).
Proof.
  intros Hsize. unfold kFirst, kLast. split; [|split].
  - intros l iso0 iso Hsz Hrun Hall id Hid.
    apply (install_installed l iso0 iso id Hrun Hsz). left. by apply Hall.
  - intros iso id b0 Hid.
    unfold Builtins.IsBuiltinHandle, Builtins.code_handle, ToInt, FromInt. cbn.
    destruct (Z.ltb_spec (builtin_table iso + id * kSystemPointerSize)
                (builtin_table iso)); [nia|].
    destruct (Z.geb_spec (builtin_table iso + id * kSystemPointerSize)
                (builtin_table iso
                 + kBuiltinCount builtin_metadata * kSystemPointerSize)); [nia|].
    replace (builtin_table iso + id * kSystemPointerSize - builtin_table iso)
      with (id * kSystemPointerSize) by lia.
    rewrite Z.quot_mul by lia.
    rewrite int32_id; [done|]. unfold is_int32, kMinInt, kMaxInt in *. lia.
  - intros iso h b0 Hout. unfold Builtins.IsBuiltinHandle.
    destruct (Z.ltb_spec (location h) (builtin_table iso)); [done|].
    destruct (Z.geb_spec (location h)
                (builtin_table iso
                 + kBuiltinCount builtin_metadata * kSystemPointerSize)); [done|].
    lia.
Qed.

End Registry.

Lemma continuation_offset_roundtrip_witness :
  exists o,
    GetContinuationBytecodeOffset example_metadata 1 3 = Some o
    /\ id_ o = 4
    /\ GetBuiltinFromBytecodeOffset example_metadata 1 o = Some 3.
Proof.
  apply (proj1 (continuation_offset_roundtrip example_metadata 1
                  ltac:(vm_compute; discriminate)) 3 TFS);
    [reflexivity | by right; right].
Defined.

Lemma builtin_table_identity_witness :
  (exists iso c,
     install example_metadata example_HasHeapObjectTag example_installs
       example_isolate = Some iso
     /\ code 2 iso = Some c /\ builtin_id c = 2)
  /\ IsBuiltinHandle example_metadata 8
       (code_handle 8 2 example_isolate) 0 example_isolate = (true, 2)
  /\ IsBuiltinHandle example_metadata 8 {| location := 4136 |} 0
       example_isolate = (false, 0).
Proof.
  pose proof (builtin_table_identity example_metadata 8
                example_HasHeapObjectTag ltac:(vm_compute; discriminate) ltac:(lia))
    as (Hcode & Hhandle & Houtside).
  split; [|split].
  - eexists.
    destruct (Hcode example_installs example_isolate _ eq_refl eq_refl) with 2
      as (c & Hc & Hid).
    + intros id [Hlo Hhi].
      change (kLast example_metadata) with 4 in Hhi. change kFirst with 0 in Hlo.
      assert (Hid : id = 0 \/ id = 1 \/ id = 2 \/ id = 3 \/ id = 4) by lia.
      cbn. rewrite !elem_of_cons. intuition.
    + vm_compute. split; discriminate.
    + eauto.
  - apply Hhandle. vm_compute. split; discriminate.
  - apply Houtside. right. vm_compute. discriminate.
Defined.

End BuiltinsFacts.

(** ** The tiering manager *)

Module TieringFacts.
Import TieringManager.

(** *** Running the monad *)

Lemma bind_Some {A B} (m : M A) (k : A -> M B) s b s' :
  (m ≫= k) s = Some (b, s') <->
  exists a s1, m s = Some (a, s1) /\ k a s1 = Some (b, s').
Proof.
  unfold mbind, M_bind. split.
  - destruct (m s) as [[a s1]|]; [eauto | discriminate].
  - intros (a & s1 & -> & Hk). exact Hk.
Qed.

Lemma bind_run {A B} (m : M A) (k : A -> M B) s a s1 :
  m s = Some (a, s1) -> (m ≫= k) s = k a s1.
Proof. unfold mbind, M_bind. by intros ->. Qed.

Lemma load_function_run s f o :
  functions s !! f = Some o -> load_function f s = Some (o, s).
Proof. unfold load_function, get, value, mbind, M_bind. by intros ->. Qed.

Lemma load_shared_run s x sfi :
  shared_function_infos s !! x = Some sfi -> load_shared x s = Some (sfi, s).
Proof. unfold load_shared, get, value, mbind, M_bind. by intros ->. Qed.

Lemma load_bytecode_array_run s b bytecode :
  bytecode_arrays s !! b = Some bytecode ->
  load_bytecode_array b s = Some (bytecode, s).
Proof. unfold load_bytecode_array, get, value, mbind, M_bind. by intros ->. Qed.

Lemma bind_assoc {A B C} (m : M A) (k1 : A -> M B) (k2 : B -> M C) s :
  ((m ≫= k1) ≫= k2) s = (m ≫= fun a => k1 a ≫= k2) s.
Proof. unfold mbind, M_bind. by destruct (m s) as [[a s1]|]. Qed.

(** One step of a run whose next action is known from the context. *)
Ltac exec_step :=
  match goal with
  | |- context [mbind ?k2 (mbind ?k1 ?m) ?s] =>
      rewrite (bind_assoc m k1 k2 s)
  | |- context [mbind ?k (mret ?a) ?s] =>
      rewrite (bind_run (mret a) k s a s eq_refl)
  | |- context [mbind ?k get ?s] =>
      rewrite (bind_run get k s s s eq_refl)
  | |- context [mbind ?k (DCHECK true) ?s] =>
      rewrite (bind_run (DCHECK true) k s tt s eq_refl)
  | |- context [mbind ?k (value (Some ?a)) ?s] =>
      rewrite (bind_run (value (Some a)) k s a s eq_refl)
  | |- context [mbind ?k (modify ?g) ?s] =>
      rewrite (bind_run (modify g) k s tt (g s) eq_refl)
  | H : functions ?s !! ?f = Some ?o
    |- context [mbind ?k (load_function ?f) ?s] =>
      rewrite (bind_run _ k s o s (load_function_run s f o H))
  | H : shared_function_infos ?s !! ?x = Some ?sfi
    |- context [mbind ?k (load_shared ?x) ?s] =>
      rewrite (bind_run _ k s sfi s (load_shared_run s x sfi H))
  | H : bytecode_arrays ?s !! ?b = Some ?bytecode
    |- context [mbind ?k (load_bytecode_array ?b) ?s] =>
      rewrite (bind_run _ k s bytecode s (load_bytecode_array_run s b bytecode H))
  end.

Ltac exec := repeat (exec_step; cbv beta).

(** Side conditions on concrete isolates, settled by evaluation. *)
Ltac by_evaluation :=
  try reflexivity; try (left; reflexivity); try discriminate;
  try (vm_compute; split; discriminate); try (cbn; lia).

(** What a finished run says about its parts. *)

Lemma ret_Some {A} (a b : A) s s' :
  @mret M _ A a s = Some (b, s') -> b = a /\ s' = s.
Proof. by intros [= <- <-]. Qed.

Lemma get_Some s a s' : get s = Some (a, s') -> a = s /\ s' = s.
Proof. by intros [= <- <-]. Qed.

Lemma modify_Some g s u s' : modify g s = Some (u, s') -> s' = g s.
Proof. by intros [= <-]. Qed.

Lemma DCHECK_Some c s u s' : DCHECK c s = Some (u, s') -> c = true /\ s' = s.
Proof. destruct c; [by intros [= <-] | discriminate]. Qed.

Lemma value_Some {A} (o : option A) s a s' :
  value o s = Some (a, s') -> o = Some a /\ s' = s.
Proof. destruct o; [by intros [= <- <-] | discriminate]. Qed.

Lemma load_function_Some s f o s' :
  load_function f s = Some (o, s') -> functions s !! f = Some o /\ s' = s.
Proof.
  unfold load_function. intros (? & ? & [-> ->]%get_Some & H)%bind_Some.
  by apply value_Some in H.
Qed.

Lemma load_shared_Some s x sfi s' :
  load_shared x s = Some (sfi, s') ->
  shared_function_infos s !! x = Some sfi /\ s' = s.
Proof.
  unfold load_shared. intros (? & ? & [-> ->]%get_Some & H)%bind_Some.
  by apply value_Some in H.
Qed.

Lemma load_bytecode_array_Some s b bytecode s' :
  load_bytecode_array b s = Some (bytecode, s') ->
  bytecode_arrays s !! b = Some bytecode /\ s' = s.
Proof.
  unfold load_bytecode_array. intros (? & ? & [-> ->]%get_Some & H)%bind_Some.
  by apply value_Some in H.
Qed.

(** One step backwards through a finished run, without case distinction. *)
Ltac inv_step :=
  match goal with
  | H : mbind _ _ _ = Some _ |- _ => apply bind_Some in H as (? & ? & ? & H)
  | H : mret _ _ = Some _ |- _ => apply ret_Some in H as [? ?]
  | H : get _ = Some _ |- _ => apply get_Some in H as [? ?]
  | H : modify _ _ = Some _ |- _ => apply modify_Some in H
  | H : DCHECK _ _ = Some _ |- _ => apply DCHECK_Some in H as [? ?]
  | H : value _ _ = Some _ |- _ => apply value_Some in H as [? ?]
  | H : fail _ = Some _ |- _ => discriminate H
  | H : load_function _ _ = Some _ |- _ => apply load_function_Some in H as [? ?]
  | H : load_shared _ _ = Some _ |- _ => apply load_shared_Some in H as [? ?]
  | H : load_bytecode_array _ _ = Some _ |- _ =>
      apply load_bytecode_array_Some in H as [? ?]
  | H1 : ?x = Some _, H2 : ?x = Some _ |- _ =>
      rewrite H1 in H2; injection H2 as ?
  end; subst.

Ltac inv_run := repeat inv_step.

(** The same, splitting on the conditions of the run's branches. *)
Ltac inv_case :=
  match goal with
  | H : (if ?c then _ else _) _ = Some _ |- _ => destruct c eqn:?
  | H : match ?c with Some _ => _ | None => _ end _ = Some _ |- _ =>
      destruct c eqn:?
  end; subst.

Ltac inv_all := repeat (inv_step || inv_case).

Lemma set_osr_loop_nesting_level_Some b depth s u s' :
  set_osr_loop_nesting_level b depth s = Some (u, s') ->
  exists old, bytecode_arrays s !! b = Some old
              /\ s' = with_osr_level b (uint8 depth) old s.
Proof. unfold set_osr_loop_nesting_level. intros H. inv_run. eauto. Qed.

Lemma set_osr_loop_nesting_level_run b depth s old :
  bytecode_arrays s !! b = Some old ->
  set_osr_loop_nesting_level b depth s
  = Some (tt, with_osr_level b (uint8 depth) old s).
Proof. intros H. unfold set_osr_loop_nesting_level. by exec. Qed.

(** The loop over the cached jumps either passes every entry and writes
    nothing, or stops at an entry, stores that entry's immediate operand 1
    plus one as the nesting level, and decides TurbofanHotAndStable. *)
Lemma osr_cache_loop_Some b bytecode current_offset bytecode_offsets s r s1 :
  osr_cache_loop b bytecode current_offset bytecode_offsets s = Some (r, s1) ->
  (r = None /\ s1 = s
   /\ Forall (no_bracket bytecode current_offset) bytecode_offsets)
  \/ (r = Some TurbofanHotAndStable
      /\ exists jump_offset operand old,
           jump_offset ∈ bytecode_offsets
           /\ bytecodes bytecode !! jump_offset ≫= immediate_operand_1
              = Some operand
           /\ bytecode_arrays s !! b = Some old
           /\ s1 = with_osr_level b (uint8 (int32 (operand + 1))) old s).
Proof.
  induction bytecode_offsets as [|jump_offset rest IH]; cbn [osr_cache_loop].
  - intros [-> ->]%ret_Some. left. by repeat split.
  - intros H. apply bind_Some in H as (jump_target & s2 & Hdec & H).
    unfold GetJumpTargetOffset in Hdec. apply value_Some in Hdec as [Hdec ->].
    destruct ((jump_offset >=? current_offset)
              && (current_offset >=? jump_target)) eqn:Hin.
    + right. apply bind_Some in H as (operand & s3 & Hop & H).
      unfold GetImmediateOperand1 in Hop. apply value_Some in Hop as [Hop ->].
      apply bind_Some in H as (u & s4 & Hset & [-> ->]%ret_Some).
      apply set_osr_loop_nesting_level_Some in Hset as (old & Hold & ->).
      split; [done|]. exists jump_offset, operand, old.
      repeat split; [apply elem_of_cons; by left | done..].
    + destruct (IH H) as [(-> & -> & Hall) | (-> & j & op & old & Hj & ?)].
      * left. repeat split. constructor; [|done].
        exists jump_target. split; [done|].
        apply andb_false_iff in Hin. lia.
      * right. split; [done|]. exists j, op, old.
        split; [apply elem_of_cons; by right | done].
Qed.

(** A loop over cached jumps none of which brackets the current offset
    leaves the isolate as it was and decides nothing. *)
Lemma osr_cache_loop_miss b bytecode current_offset bytecode_offsets s :
  Forall (no_bracket bytecode current_offset) bytecode_offsets ->
  osr_cache_loop b bytecode current_offset bytecode_offsets s = Some (None, s).
Proof.
  induction 1 as [|jump_offset rest (jump_target & Hdec & Hout) _ IH]; [done|].
  cbn [osr_cache_loop].
  rewrite (bind_run _ _ s jump_target s)
    by (unfold GetJumpTargetOffset; by rewrite Hdec).
  destruct (Z.geb_spec jump_offset current_offset);
    destruct (Z.geb_spec current_offset jump_target); cbn; try exact IH.
  exfalso. apply Hout. lia.
Qed.

(** The quotient of a non-negative [int] by a non-zero [int] is an [int]. *)
Lemma quot_is_int32 (a b : Z) : 0 <= a <= kMaxInt -> b <> 0 -> is_int32 (a `quot` b).
Proof.
  intros Ha Hb. unfold is_int32, kMinInt, kMaxInt in *.
  assert (Habs : Z.abs (a `quot` b) <= a).
  { rewrite <- Z.quot_abs by done. rewrite (Z.abs_eq a) by lia.
    apply Z.quot_le_upper_bound; [lia|]. nia. }
  lia.
Qed.

(** *** The decision below the OSR-code cache *)

Section Decision.

Variables (s : Isolate) (f : nat) (kind : CodeKind) (frame : Frame).
Variables (o : JSFunction) (sfi : SharedFunctionInfo).
Variables (bytecode : BytecodeArray) (v : FeedbackVector).

Hypothesis function_at : functions s !! f = Some o.
Hypothesis active_tier : GetActiveTier o = Some kind.
Hypothesis maglev_off : FLAG_maglev (flags s) = false.
Hypothesis not_top_tier : kind <> TURBOFAN.
Hypothesis shared_at : shared_function_infos s !! shared o = Some sfi.
Hypothesis bytecode_at : bytecode_arrays s !! bytecode_array sfi = Some bytecode.
Hypothesis vector_at : feedback_vector o = Some v.
Hypothesis cache_miss : osr_cache_miss s o sfi bytecode frame.

(** The arithmetic of the threshold is defined: the length is a
    non-negative [int], the divisor is not zero and the sum is an [int]. *)
Hypothesis length_range : 0 <= bytecode_length bytecode <= kMaxInt.
Hypothesis allowance_nonzero :
  FLAG_bytecode_size_allowance_per_tick (flags s) <> 0.
Hypothesis threshold_range :
  is_int32 (FLAG_ticks_before_optimization (flags s)
            + bytecode_length bytecode
              `quot` FLAG_bytecode_size_allowance_per_tick (flags s)).

(** With the Maglev flag off, below the top tier and without a cache hit,
    the decision is a function of the ticks, the bytecode length and
    [any_ic_changed_], and the isolate is not written. *)
Lemma ShouldOptimize_run :
  ShouldOptimize f kind frame s =
  Some (if profiler_ticks v >=?
           FLAG_ticks_before_optimization (flags s)
           + bytecode_length bytecode
             `quot` FLAG_bytecode_size_allowance_per_tick (flags s)
        then TurbofanHotAndStable
        else if ShouldOptimizeAsSmallFunction (flags s)
                  (bytecode_length bytecode) (any_ic_changed_ s)
        then TurbofanSmallFunction
        else DoNotOptimize, s).
Proof.
  unfold ShouldOptimize. exec.
  rewrite active_tier, (bool_decide_eq_true_2 (Some kind = Some kind)) by done.
  exec. unfold TiersUpToMaglev.
  rewrite maglev_off, (bool_decide_eq_false_2 (kind = TURBOFAN)) by done.
  cbn [andb]. exec.
  assert (Hmiss :
    (if negb (bool_decide (osr_code_cache_state sfi = kNotCached))
        && is_unoptimized frame
     then
       bytecode_offsets ←
         GetBytecodeOffsetsFromSFI (native_context o) (shared o);
       osr_cache_loop (bytecode_array sfi) bytecode (GetBytecodeOffset frame)
         bytecode_offsets
     else mret None) s = Some (None, s)).
  { destruct cache_miss as [-> | [-> | Hall]].
    - done.
    - by rewrite andb_false_r.
    - destruct (negb _ && _); [|done].
      unfold GetBytecodeOffsetsFromSFI. exec. by apply osr_cache_loop_miss. }
  rewrite (bind_run _ _ _ _ _ Hmiss). rewrite vector_at. exec.
  destruct (Z.eqb_spec (FLAG_bytecode_size_allowance_per_tick (flags s)) 0);
    [done|]. cbn [negb]. exec.
  rewrite (int32_id _ (quot_is_int32 _ _ length_range allowance_nonzero)).
  rewrite (int32_id _ threshold_range).
  by repeat case_match.
Qed.

End Decision.

(** C1. With the Maglev flag off, an unoptimized active tier and no
    OSR-code-cache hit, [ShouldOptimize] answers TurbofanHotAndStable (top
    tier, concurrent) when the profiler ticks reach
    [ticks_before_optimization + length / bytecode_size_allowance_per_tick],
    and DoNotOptimize below that when an IC changed or the bytecode is not
    below [max_bytecode_size_for_early_opt]. With 5, 50 and length 200 the
    answer is DoNotOptimize at 1 tick and TurbofanHotAndStable at 9. *)
Theorem ShouldOptimize_hot_and_stable
    (s : Isolate) (f : nat) (kind : CodeKind) (frame : Frame)
    (o : JSFunction) (sfi : SharedFunctionInfo)
    (bytecode : BytecodeArray) (v : FeedbackVector) :
  functions s !! f = Some o ->
  GetActiveTier o = Some kind ->
  CodeKindIsUnoptimizedJSFunction kind = true ->
  FLAG_maglev (flags s) = false ->
  shared_function_infos s !! shared o = Some sfi ->
  bytecode_arrays s !! bytecode_array sfi = Some bytecode ->
  feedback_vector o = Some v ->
  osr_cache_miss s o sfi bytecode frame ->
  0 <= bytecode_length bytecode <= kMaxInt ->
  FLAG_bytecode_size_allowance_per_tick (flags s) <> 0 ->
  is_int32 (FLAG_ticks_before_optimization (flags s)
            + bytecode_length bytecode
              `quot` FLAG_bytecode_size_allowance_per_tick (flags s)) ->
  (profiler_ticks v >=
     FLAG_ticks_before_optimization (flags s)
     + bytecode_length bytecode
       `quot` FLAG_bytecode_size_allowance_per_tick (flags s) ->
   ShouldOptimize f kind frame s = Some (TurbofanHotAndStable, s))
  /\ (profiler_ticks v <
        FLAG_ticks_before_optimization (flags s)
        + bytecode_length bytecode
          `quot` FLAG_bytecode_size_allowance_per_tick (flags s) ->
      any_ic_changed_ s = true
      \/ ~ bytecode_length bytecode
           < FLAG_max_bytecode_size_for_early_opt (flags s) ->
      ShouldOptimize f kind frame s = Some (DoNotOptimize, s))
  /\ code_kind TurbofanHotAndStable = TURBOFAN
  /\ concurrency_mode TurbofanHotAndStable = kConcurrent
  /\ (FLAG_ticks_before_optimization (flags s) = 5 ->
      FLAG_bytecode_size_allowance_per_tick (flags s) = 50 ->
      bytecode_length bytecode = 200 ->
      (profiler_ticks v = 1 ->
       any_ic_changed_ s = true
       \/ FLAG_max_bytecode_size_for_early_opt (flags s) <= 200 ->
       ShouldOptimize f kind frame s = Some (DoNotOptimize, s))
      /\ (profiler_ticks v = 9 ->
          ShouldOptimize f kind frame s = Some (TurbofanHotAndStable, s))).
Proof.
  intros Hf Htier Hkind Hmaglev Hsfi Hbc Hv Hmiss Hlen Hallow Hthr.
  assert (Hnot : kind <> TURBOFAN) by (intros ->; discriminate).
  rewrite (ShouldOptimize_run s f kind frame o sfi bytecode v) by assumption.
  unfold ShouldOptimizeAsSmallFunction.
  split; [|split; [|split; [|split]]]; try reflexivity.
  - intros Hhot. by rewrite (proj2 (Z.geb_le _ _)) by lia.
  - intros Hcold Hguard.
    destruct (Z.geb_spec (profiler_ticks v)
                (FLAG_ticks_before_optimization (flags s)
                 + bytecode_length bytecode
                   `quot` FLAG_bytecode_size_allowance_per_tick (flags s)));
      [lia|].
    destruct Hguard as [-> | Hbig]; [done|].
    rewrite (proj2 (Z.ltb_ge _ _)) by lia. by rewrite andb_false_r.
  - intros -> -> ->. split; intros ->; [|reflexivity].
    intros [-> | Hbig]; [reflexivity|].
    cbn. rewrite (proj2 (Z.ltb_ge _ _)) by lia. by rewrite andb_false_r.
Qed.

Lemma ShouldOptimize_hot_and_stable_witness :
  ShouldOptimize 0%nat INTERPRETED_FUNCTION (scenario_frame 80) (cold_or_hot 1)
  = Some (DoNotOptimize, cold_or_hot 1)
  /\ ShouldOptimize 0%nat INTERPRETED_FUNCTION (scenario_frame 80) (cold_or_hot 9)
     = Some (TurbofanHotAndStable, cold_or_hot 9).
Proof.
  split.
  - apply (ShouldOptimize_hot_and_stable (cold_or_hot 1) 0%nat
             INTERPRETED_FUNCTION (scenario_frame 80)
             (scenario_function (ticked 1) false false)
             (scenario_shared true false kNotCached)
             (scenario_bytecode 200 0)
             {| profiler_ticks := 1; invocation_count := 1 |});
      by_evaluation.
  - apply (ShouldOptimize_hot_and_stable (cold_or_hot 9) 0%nat
             INTERPRETED_FUNCTION (scenario_frame 80)
             (scenario_function (ticked 9) false false)
             (scenario_shared true false kNotCached)
             (scenario_bytecode 200 0)
             {| profiler_ticks := 9; invocation_count := 1 |});
      by_evaluation.
Defined.

(** Every finished run of [ShouldOptimize] either leaves the isolate as it
    was, and then decides TurbofanSmallFunction only if no IC changed and
    the bytecode is small, or it went through the OSR-code cache, stored a
    nesting level and decided TurbofanHotAndStable. *)
Lemma ShouldOptimize_Some s f kind frame d s' :
  ShouldOptimize f kind frame s = Some (d, s') ->
  (s' = s
   /\ (optimization_reason d = kSmallFunction -> any_ic_changed_ s = false))
  \/ (d = TurbofanHotAndStable
      /\ exists o sfi operand old,
           functions s !! f = Some o
           /\ shared_function_infos s !! shared o = Some sfi
           /\ osr_code_cache_state sfi <> kNotCached
           /\ is_unoptimized frame = true
           /\ bytecode_arrays s !! bytecode_array sfi = Some old
           /\ s' = with_osr_level (bytecode_array sfi)
                     (uint8 (int32 (operand + 1))) old s).
Proof.
  unfold ShouldOptimize, GetBytecodeOffsetsFromSFI. intros H.
  inv_run. inv_case; [inv_run; left; split; [done | discriminate]|].
  inv_case; [inv_run; left; split; [done | discriminate]|].
  inv_run.
  match goal with
  | Hc : (if ?c then _ else _) _ = Some _ |- _ => destruct c eqn:Hcached
  end.
  - inv_run.
    match goal with
    | Hl : osr_cache_loop _ _ _ _ _ = Some _ |- _ =>
        apply osr_cache_loop_Some in Hl
          as [(-> & -> & _) | (-> & j & operand & old & _ & _ & Hold & ->)]
    end.
    + inv_all; left; (split; [done|]); try discriminate.
      intros _. unfold ShouldOptimizeAsSmallFunction in *.
      by destruct (any_ic_changed_ _).
    + inv_run. right. split; [done|].
      apply andb_true_iff in Hcached as [Hstate Hframe].
      apply negb_true_iff, bool_decide_eq_false in Hstate.
      eauto 10.
  - inv_all; left; (split; [done|]); try discriminate.
    intros _. unfold ShouldOptimizeAsSmallFunction in *.
    by destruct (any_ic_changed_ _).
Qed.

(** C2. Below the tick threshold (Maglev flag off, not in the top tier, no
    OSR-code-cache hit) [ShouldOptimize] answers TurbofanSmallFunction (top
    tier, concurrent) exactly when no IC changed and the bytecode is
    shorter than [max_bytecode_size_for_early_opt]; and no run at all
    answers TurbofanSmallFunction while [any_ic_changed_] is true. *)
Theorem ShouldOptimize_small_function
    (s : Isolate) (f : nat) (kind : CodeKind) (frame : Frame)
    (o : JSFunction) (sfi : SharedFunctionInfo)
    (bytecode : BytecodeArray) (v : FeedbackVector) :
  functions s !! f = Some o ->
  GetActiveTier o = Some kind ->
  kind <> TURBOFAN ->
  FLAG_maglev (flags s) = false ->
  shared_function_infos s !! shared o = Some sfi ->
  bytecode_arrays s !! bytecode_array sfi = Some bytecode ->
  feedback_vector o = Some v ->
  osr_cache_miss s o sfi bytecode frame ->
  0 <= bytecode_length bytecode <= kMaxInt ->
  FLAG_bytecode_size_allowance_per_tick (flags s) <> 0 ->
  is_int32 (FLAG_ticks_before_optimization (flags s)
            + bytecode_length bytecode
              `quot` FLAG_bytecode_size_allowance_per_tick (flags s)) ->
  profiler_ticks v <
    FLAG_ticks_before_optimization (flags s)
    + bytecode_length bytecode
      `quot` FLAG_bytecode_size_allowance_per_tick (flags s) ->
  (exists d,
     ShouldOptimize f kind frame s = Some (d, s)
     /\ (d = TurbofanSmallFunction <->
         any_ic_changed_ s = false
         /\ bytecode_length bytecode
            < FLAG_max_bytecode_size_for_early_opt (flags s)))
  /\ code_kind TurbofanSmallFunction = TURBOFAN
  /\ concurrency_mode TurbofanSmallFunction = kConcurrent
  /\ (forall s0 f0 kind0 frame0 d0 s0',
        any_ic_changed_ s0 = true ->
        ShouldOptimize f0 kind0 frame0 s0 = Some (d0, s0') ->
        d0 <> TurbofanSmallFunction).
Proof.
  intros Hf Htier Hkind Hmaglev Hsfi Hbc Hv Hmiss Hlen Hallow Hthr Hcold.
  split; [|split; [|split]]; try reflexivity.
  - eexists. split.
    + by apply (ShouldOptimize_run s f kind frame o sfi bytecode v).
    + destruct (Z.geb_spec (profiler_ticks v)
                  (FLAG_ticks_before_optimization (flags s)
                   + bytecode_length bytecode
                     `quot` FLAG_bytecode_size_allowance_per_tick (flags s)));
        [lia|].
      unfold ShouldOptimizeAsSmallFunction.
      destruct (any_ic_changed_ s); cbn [negb andb].
      * split; [discriminate | intros [? _]; discriminate].
      * destruct (Z.ltb_spec (bytecode_length bytecode)
                    (FLAG_max_bytecode_size_for_early_opt (flags s))).
        -- done.
        -- split; [discriminate | lia].
  - intros s0 f0 kind0 frame0 d0 s0' Hic Hrun ->.
    apply ShouldOptimize_Some in Hrun as [[-> Hsmall] | [[=] _]].
    specialize (Hsmall eq_refl). congruence.
Qed.

Lemma ShouldOptimize_small_function_witness :
  (exists d,
     ShouldOptimize 0%nat INTERPRETED_FUNCTION (scenario_frame 10)
       (small_function false) = Some (d, small_function false)
     /\ (d = TurbofanSmallFunction <->
         any_ic_changed_ (small_function false) = false /\ 40 < 80))
  /\ ShouldOptimize 0%nat INTERPRETED_FUNCTION (scenario_frame 10)
       (small_function true) <> Some (TurbofanSmallFunction, small_function true).
Proof.
  split.
  - apply (ShouldOptimize_small_function (small_function false) 0%nat
             INTERPRETED_FUNCTION (scenario_frame 10)
             (scenario_function (ticked 1) false false)
             (scenario_shared true false kNotCached)
             (scenario_bytecode 40 0)
             {| profiler_ticks := 1; invocation_count := 1 |});
      by_evaluation.
  - intros Hrun.
    eapply (ShouldOptimize_small_function (small_function false) 0%nat
              INTERPRETED_FUNCTION (scenario_frame 10)
              (scenario_function (ticked 1) false false)
              (scenario_shared true false kNotCached)
              (scenario_bytecode 40 0)
              {| profiler_ticks := 1; invocation_count := 1 |});
      [by_evaluation.. | | exact Hrun | reflexivity]; by_evaluation.
Defined.

(** *** On-stack replacement *)

(** The isolate after the call has been recorded. *)
Local Abbreviation recorded c s := (set_calls (calls s ++ [c]) s).

(** [AttemptOnStackReplacement], once the frame's function and its shared
    function info are known. *)
Lemma AttemptOnStackReplacement_run kMax frame levels s o sfi :
  functions s !! function frame = Some o ->
  shared_function_infos s !! shared o = Some sfi ->
  AttemptOnStackReplacement kMax frame levels s =
  let s1 := recorded (CallAttemptOnStackReplacement frame levels) s in
  if negb (FLAG_use_osr (flags s)) || negb (IsUserJavaScript sfi)
  then Some (tt, s1)
  else if optimization_disabled sfi then Some (tt, s1)
  else if is_unoptimized frame then
    match bytecode_arrays s !! GetBytecodeArray frame with
    | Some bytecode =>
        Some (tt, with_osr_level (GetBytecodeArray frame)
                    (uint8
                       (Z.min (int32 (osr_loop_nesting_level bytecode + levels))
                          kMax)) bytecode s1)
    | None => None
    end
  else None.
Proof.
  intros Hf Hsfi. unfold AttemptOnStackReplacement, record. exec.
  assert (Hf1 : functions
                  (recorded (CallAttemptOnStackReplacement frame levels) s)
                  !! function frame = Some o) by exact Hf.
  assert (Hsfi1 : shared_function_infos
                    (recorded (CallAttemptOnStackReplacement frame levels) s)
                    !! shared o = Some sfi) by exact Hsfi.
  exec. cbn [flags set_calls].
  destruct (negb (FLAG_use_osr (flags s)) || negb (IsUserJavaScript sfi));
    [done|].
  destruct (optimization_disabled sfi); [done|].
  destruct (is_unoptimized frame); [|done]. exec.
  destruct (bytecode_arrays s !! GetBytecodeArray frame) as [bytecode|] eqn:Hb.
  - assert (Hb1 : bytecode_arrays
                    (recorded (CallAttemptOnStackReplacement frame levels) s)
                    !! GetBytecodeArray frame = Some bytecode) by exact Hb.
    exec. by rewrite (set_osr_loop_nesting_level_run _ _ _ bytecode).
  - unfold load_bytecode_array, mbind, M_bind, get, value. cbn.
    by rewrite Hb.
Qed.

(** C3. [MaybeOSR] answers true exactly for a function that is marked for
    optimization, in either mode, or has optimized code available. When it
    answers true it calls [AttemptOnStackReplacement] exactly when the
    bytecode length is at most 119 + 44 * profiler ticks, and it answers
    true also when the bytecode is longer; a marked function with no ticks
    and bytecode length 120 is left as it was and the answer is true. *)
Theorem MaybeOSR_size_gate
    (kMaxLoopNestingMarker : Z) (s : Isolate) (f : nat) (frame : Frame)
    (o : JSFunction) (v : FeedbackVector) (sfi : SharedFunctionInfo)
    (bytecode : BytecodeArray) :
  functions s !! f = Some o ->
  feedback_vector o = Some v ->
  shared_function_infos s !! shared o = Some sfi ->
  bytecode_arrays s !! bytecode_array sfi = Some bytecode ->
  is_int32 (profiler_ticks v * 44) ->
  is_int32 (119 + profiler_ticks v * 44) ->
  let pending :=
    IsMarkedForOptimization o || IsMarkedForConcurrentOptimization o
    || HasAvailableOptimizedCode o in
  (pending = false ->
   MaybeOSR kMaxLoopNestingMarker f frame s = Some (false, s))
  /\ (pending = true ->
      ~ bytecode_length bytecode <= 119 + profiler_ticks v * 44 ->
      MaybeOSR kMaxLoopNestingMarker f frame s = Some (true, s))
  /\ (pending = true ->
      bytecode_length bytecode <= 119 + profiler_ticks v * 44 ->
      MaybeOSR kMaxLoopNestingMarker f frame s =
      (AttemptOnStackReplacement kMaxLoopNestingMarker frame 1;; mret true) s)
  /\ (forall answer s',
        MaybeOSR kMaxLoopNestingMarker f frame s = Some (answer, s') ->
        (answer = true <-> pending = true)
        /\ calls s' =
           calls s ++
           (if pending
               && (bytecode_length bytecode <=? 119 + profiler_ticks v * 44)
            then [CallAttemptOnStackReplacement frame 1] else []))
  /\ (pending = true -> profiler_ticks v = 0 -> bytecode_length bytecode = 120 ->
      MaybeOSR kMaxLoopNestingMarker f frame s = Some (true, s)).
Proof.
  intros Hf Hv Hsfi Hbc Hmul Hsum pending.
  assert (Hrun :
    MaybeOSR kMaxLoopNestingMarker f frame s =
    if pending then
      if bytecode_length bytecode <=? 119 + profiler_ticks v * 44
      then (AttemptOnStackReplacement kMaxLoopNestingMarker frame 1;;
            mret true) s
      else Some (true, s)
    else Some (false, s)).
  { unfold MaybeOSR. exec. rewrite Hv. exec. fold pending.
    destruct pending; [|done]. exec.
    unfold kOSRBytecodeSizeAllowanceBase, kOSRBytecodeSizeAllowancePerTick.
    rewrite (int32_id _ Hmul), (int32_id _ Hsum).
    destruct (bytecode_length bytecode <=? 119 + profiler_ticks v * 44);
      [done|]. by exec. }
  assert (Hgate_no : pending = true ->
            ~ bytecode_length bytecode <= 119 + profiler_ticks v * 44 ->
            MaybeOSR kMaxLoopNestingMarker f frame s = Some (true, s)).
  { intros Hp Hno. rewrite Hrun, Hp.
    by rewrite (proj2 (Z.leb_gt _ _)) by lia. }
  split; [|split; [|split; [|split]]].
  - intros Hp. by rewrite Hrun, Hp.
  - exact Hgate_no.
  - intros Hp Hfit. rewrite Hrun, Hp.
    by rewrite (proj2 (Z.leb_le _ _)) by lia.
  - intros answer s' Hret. rewrite Hrun in Hret.
    destruct pending.
    + destruct (Z.leb_spec (bytecode_length bytecode)
                  (119 + profiler_ticks v * 44)) as [Hfit|Hno].
      * apply bind_Some in Hret as (u & s1 & Hosr & [-> ->]%ret_Some).
        split; [done|].
        assert (Hcalls : calls s1
                         = calls s ++ [CallAttemptOnStackReplacement frame 1]).
        { revert Hosr. unfold AttemptOnStackReplacement, record.
          intros Hosr. apply bind_Some in Hosr as (? & s2 & Hrec & Hosr).
          apply modify_Some in Hrec. subst s2.
          inv_all; try done.
          match goal with
          | Hset : set_osr_loop_nesting_level _ _ _ = Some _ |- _ =>
              apply set_osr_loop_nesting_level_Some in Hset as (? & _ & ->)
          end. done. }
        by rewrite Hcalls.
      * injection Hret as <- <-. split; [done|]. cbn. by rewrite app_nil_r.
    + injection Hret as <- <-. split; [done|]. cbn. by rewrite app_nil_r.
  - intros Hp Hticks Hlen. apply Hgate_no; [done|]. lia.
Qed.

Lemma MaybeOSR_size_gate_witness :
  MaybeOSR 6 0%nat (scenario_frame 80) osr_size_gate
  = Some (true, osr_size_gate).
Proof.
  apply (MaybeOSR_size_gate 6 osr_size_gate 0%nat (scenario_frame 80)
           (scenario_function (ticked 0) false true)
           {| profiler_ticks := 0; invocation_count := 1 |}
           (scenario_shared true false kNotCached)
           (scenario_bytecode 120 0));
    by_evaluation.
Defined.

(** The loop stops at the first cached jump that brackets the current
    offset. *)
Lemma osr_cache_loop_hit b bytecode current_offset passed jump_offset rest
    jump_target operand old s :
  Forall (no_bracket bytecode current_offset) passed ->
  bytecodes bytecode !! jump_offset ≫= jump_target_offset = Some jump_target ->
  bytecodes bytecode !! jump_offset ≫= immediate_operand_1 = Some operand ->
  jump_target <= current_offset <= jump_offset ->
  bytecode_arrays s !! b = Some old ->
  osr_cache_loop b bytecode current_offset (passed ++ jump_offset :: rest) s
  = Some (Some TurbofanHotAndStable,
          with_osr_level b (uint8 (int32 (operand + 1))) old s).
Proof.
  intros Hpassed Htarget Hoperand Hin Hold.
  induction Hpassed as [|j passed (t & Hdec & Hout) _ IH]; cbn [app osr_cache_loop].
  - unfold GetJumpTargetOffset, GetImmediateOperand1.
    rewrite Htarget, Hoperand. exec.
    rewrite (proj2 (Z.geb_le _ _)), (proj2 (Z.geb_le _ _)) by lia. cbn [andb].
    exec. rewrite (bind_run _ _ _ _ _ (set_osr_loop_nesting_level_run _ _ _ _ Hold)).
    reflexivity.
  - unfold GetJumpTargetOffset at 1. rewrite Hdec. exec.
    destruct (Z.geb_spec j current_offset);
      destruct (Z.geb_spec current_offset t); cbn [andb]; try exact IH.
    exfalso. apply Hout. lia.
Qed.

(** C7. The OSR-code-cache path of [ShouldOptimize] is taken whenever the
    shared function info has cached entries, the frame is unoptimized and a
    cached jump brackets the frame's offset. It then stores the immediate
    operand 1 of that jump plus one as the nesting level, as the eight-bit
    field holds it: that is the operand plus one for an operand from 0 to
    254, and it is above the marker whenever such an operand is at least
    the marker, since the path does not clamp. The store is made whatever
    [use_osr] and [IsUserJavaScript] say; with [use_osr] off or a function
    that is not user JavaScript, [AttemptOnStackReplacement] on the same
    frame stores nothing. *)
Theorem ShouldOptimize_osr_cache_unguarded
    (kMaxLoopNestingMarker : Z) (s : Isolate) (f : nat) (kind : CodeKind)
    (frame : Frame) (o : JSFunction) (sfi : SharedFunctionInfo)
    (bytecode : BytecodeArray) (passed rest : list Z)
    (jump_offset jump_target operand : Z) :
  functions s !! f = Some o ->
  GetActiveTier o = Some kind ->
  kind <> TURBOFAN ->
  FLAG_maglev (flags s) = false ->
  shared_function_infos s !! shared o = Some sfi ->
  bytecode_arrays s !! bytecode_array sfi = Some bytecode ->
  osr_code_cache_state sfi <> kNotCached ->
  is_unoptimized frame = true ->
  osr_optimized_code_cache s !! (native_context o, shared o)
  = Some (passed ++ jump_offset :: rest) ->
  Forall (no_bracket bytecode (GetBytecodeOffset frame)) passed ->
  bytecodes bytecode !! jump_offset ≫= jump_target_offset = Some jump_target ->
  bytecodes bytecode !! jump_offset ≫= immediate_operand_1 = Some operand ->
  jump_target <= GetBytecodeOffset frame <= jump_offset ->
  function frame = f ->
  FLAG_use_osr (flags s) = false \/ IsUserJavaScript sfi = false ->
  let stored := uint8 (int32 (operand + 1)) in
  ShouldOptimize f kind frame s
  = Some (TurbofanHotAndStable,
          with_osr_level (bytecode_array sfi) stored bytecode s)
  /\ (0 <= operand < 255 -> stored = operand + 1)
  /\ (kMaxLoopNestingMarker <= operand -> 0 <= operand < 255 ->
      kMaxLoopNestingMarker < stored)
  /\ forall levels,
       AttemptOnStackReplacement kMaxLoopNestingMarker frame levels s
       = Some (tt, set_calls
                     (calls s ++ [CallAttemptOnStackReplacement frame levels]) s).
Proof.
  intros Hf Htier Hkind Hmaglev Hsfi Hbc Hcached Hframe Hcache Hpassed
    Htarget Hoperand Hin Hfn Hguard stored.
  assert (Hstored : 0 <= operand < 255 -> stored = operand + 1).
  { intros Hrange. subst stored. rewrite int32_id.
    - unfold uint8. apply Z.mod_small. lia.
    - unfold is_int32, kMinInt, kMaxInt. lia. }
  split; [|split; [exact Hstored|split]].
  - unfold ShouldOptimize. exec.
    rewrite Htier, (bool_decide_eq_true_2 (Some kind = Some kind)) by done.
    exec. unfold TiersUpToMaglev.
    rewrite Hmaglev, (bool_decide_eq_false_2 (kind = TURBOFAN)) by done.
    cbn [andb]. exec.
    rewrite (bool_decide_eq_false_2 (osr_code_cache_state sfi = kNotCached))
      by done.
    rewrite Hframe. cbn [negb andb].
    unfold GetBytecodeOffsetsFromSFI. exec. rewrite Hcache.
    unfold default, from_option, id.
    rewrite (bind_run _ _ _ _ _
               (osr_cache_loop_hit _ _ _ _ _ _ _ _ _ _
                  Hpassed Htarget Hoperand Hin Hbc)).
    reflexivity.
  - intros Hmarker Hrange. rewrite (Hstored Hrange). lia.
  - intros levels. subst f.
    rewrite (AttemptOnStackReplacement_run _ _ _ _ _ _ Hf Hsfi). cbv zeta.
    by destruct Hguard as [-> | ->]; [|rewrite orb_true_r].
Qed.

(** With OSR off and a function that is not user JavaScript: an operand
    of 9 arms the loop to level 10, above the marker 6, and an operand of
    299 leaves 44 in the eight-bit field. *)
Lemma ShouldOptimize_osr_cache_unguarded_witness :
  FLAG_use_osr (flags (cached_loop_operand false false 0 9)) = false
  /\ ShouldOptimize 0%nat INTERPRETED_FUNCTION (scenario_frame 80)
       (cached_loop_operand false false 0 9)
     = Some (TurbofanHotAndStable, cached_loop_operand false false 10 9)
  /\ ShouldOptimize 0%nat INTERPRETED_FUNCTION (scenario_frame 80)
       (cached_loop_operand false false 0 299)
     = Some (TurbofanHotAndStable, cached_loop_operand false false 44 299).
Proof.
  split; [reflexivity|]. split.
  - refine (eq_trans
              (proj1 (ShouldOptimize_osr_cache_unguarded 6
                        (cached_loop_operand false false 0 9) 0%nat
                        INTERPRETED_FUNCTION (scenario_frame 80)
                        (scenario_function (ticked 1) false false)
                        (scenario_shared false false kCached)
                        (scenario_bytecode_operand 200 0 9) [] [] 120 40 9
                        _ _ _ _ _ _ _ _ _ _ _ _ _ _ _)) _);
      by_evaluation; try done.
  - refine (eq_trans
              (proj1 (ShouldOptimize_osr_cache_unguarded 6
                        (cached_loop_operand false false 0 299) 0%nat
                        INTERPRETED_FUNCTION (scenario_frame 80)
                        (scenario_function (ticked 1) false false)
                        (scenario_shared false false kCached)
                        (scenario_bytecode_operand 200 0 299) [] [] 120 40 299
                        _ _ _ _ _ _ _ _ _ _ _ _ _ _ _)) _);
      by_evaluation; try done.
Defined.

(** *** The bookkeeping of a tick *)

Lemma same_marks_refl o : same_marks o o.
Proof. by repeat split. Qed.

Lemma same_marks_trans o1 o2 o3 :
  same_marks o1 o2 -> same_marks o2 o3 -> same_marks o1 o3.
Proof. unfold same_marks. intuition congruence. Qed.

(** The side conditions of [same_marks] on a function rebuilt field by
    field. *)
Ltac same_marks_fields :=
  unfold same_marks; cbn;
  repeat match goal with
         | |- _ /\ _ => split
         | |- _ = _ => reflexivity
         | |- is_Some _ -> is_Some _ => intros [? ?]; try discriminate
         | H : ?x = Some _ |- context [?x] => rewrite H
         | |- is_Some (Some _) => eexists; reflexivity
         | |- is_Some (match ?t with _ => _ end) => destruct t
         end; eauto.

Lemma housekeeping_refl f s : housekeeping f s s.
Proof.
  repeat split; try done. intros o Ho. exists o. split; [done|].
  apply same_marks_refl.
Qed.

Lemma housekeeping_trans f s1 s2 s3 :
  housekeeping f s1 s2 -> housekeeping f s2 s3 -> housekeeping f s1 s3.
Proof.
  intros (? & ? & ? & ? & ? & ? & ? & ? & Hg1 & Hf1)
         (? & ? & ? & ? & ? & ? & ? & ? & Hg2 & Hf2).
  repeat split; try congruence.
  - intros g Hg. by rewrite Hg2, Hg1.
  - intros o Ho. destruct (Hf1 o Ho) as (o2 & Ho2 & Hm2).
    destruct (Hf2 o2 Ho2) as (o3 & Ho3 & Hm3).
    exists o3. split; [done|]. by eapply same_marks_trans.
Qed.

(** Replacing function [f] by a function with the same marks is
    bookkeeping. *)
Lemma store_function_housekeeping f s o o' u s' :
  functions s !! f = Some o -> same_marks o o' ->
  store_function f o' s = Some (u, s') -> housekeeping f s s'.
Proof.
  intros Ho Hm Hstore. unfold store_function in Hstore.
  apply modify_Some in Hstore as ->.
  repeat split; try done.
  - intros g Hg. cbn. by rewrite lookup_insert_ne.
  - intros o0 Ho0. exists o'. cbn. rewrite lookup_insert_eq.
    split; [done|]. congruence.
Qed.

Ltac housekeeping_store :=
  match goal with
  | Hstore : store_function ?f ?o' ?s = Some _,
    Hat : functions ?s !! ?f = Some ?o |- housekeeping ?f ?s _ =>
      refine (store_function_housekeeping f s o o' _ _ Hat _ Hstore);
        same_marks_fields
  end.

Lemma SetInterruptBudget_housekeeping f s u s' :
  SetInterruptBudget f s = Some (u, s') -> housekeeping f s s'.
Proof.
  unfold SetInterruptBudget, InterruptBudgetFor. intros H.
  inv_all; housekeeping_store.
Qed.

Lemma CreateAndAttachFeedbackVector_housekeeping f s u s' :
  CreateAndAttachFeedbackVector f s = Some (u, s') -> housekeeping f s s'.
Proof.
  unfold CreateAndAttachFeedbackVector. intros H.
  apply bind_Some in H as (o & ? & [Ho ->]%load_function_Some & H).
  apply bind_Some in H as (? & s1 & Hstore & Hbudget).
  eapply housekeeping_trans; [|by eapply SetInterruptBudget_housekeeping].
  refine (store_function_housekeeping f s o _ _ _ Ho _ Hstore).
  same_marks_fields.
Qed.

Lemma set_invocation_count_housekeeping f count s u s' :
  set_invocation_count f count s = Some (u, s') -> housekeeping f s s'.
Proof.
  unfold set_invocation_count. intros H. inv_run. housekeeping_store.
Qed.

Lemma SaturatingIncrementProfilerTicks_housekeeping f s u s' :
  SaturatingIncrementProfilerTicks f s = Some (u, s') -> housekeeping f s s'.
Proof.
  unfold SaturatingIncrementProfilerTicks. intros H. inv_run.
  housekeeping_store.
Qed.

Lemma EnqueueFunction_housekeeping f s u s' :
  EnqueueFunction f s = Some (u, s') -> housekeeping f s s'.
Proof.
  unfold EnqueueFunction. intros ->%modify_Some.
  repeat split; try done. intros o Ho. exists o. split; [done|].
  apply same_marks_refl.
Qed.

Lemma CompileBaseline_housekeeping f s u s' :
  CompileBaseline f s = Some (u, s') -> housekeeping f s s'.
Proof.
  unfold CompileBaseline. intros H. inv_all.
  - housekeeping_store.
  - apply housekeeping_refl.
Qed.

(** A finished tick is bookkeeping, followed, when the function had a
    feedback vector and the optimizer is enabled, by [MaybeOptimizeFrame]
    and the reset of [any_ic_changed_]. *)
Lemma OnInterruptTick_Some kMax f frame s u s' :
  OnInterruptTick kMax f frame s = Some (u, s') ->
  exists o s1,
    functions s !! f = Some o
    /\ housekeeping f s s1
    /\ ((feedback_vector o = None \/ use_optimizer s = false) /\ s' = s1
        \/ (is_Some (feedback_vector o) /\ use_optimizer s = true
            /\ is_unoptimized frame = true
            /\ exists o1 kind s2,
                 functions s1 !! f = Some o1
                 /\ GetActiveTier o1 = Some kind
                 /\ MaybeOptimizeFrame kMax f frame kind s1 = Some (tt, s2)
                 /\ s' = set_any_ic_changed false s2)).
Proof.
  unfold OnInterruptTick. intros H.
  apply bind_Some in H as (o & s0 & [Ho ->]%load_function_Some & H).
  apply bind_Some in H as (u1 & s1 & Hseed & H).
  assert (Hk1 : housekeeping f s s1).
  { destruct (bool_decide (is_Some (feedback_vector o))).
    - by eapply SetInterruptBudget_housekeeping.
    - apply bind_Some in Hseed as (? & sa & Hcreate & Hcount).
      eapply housekeeping_trans.
      + by eapply CreateAndAttachFeedbackVector_housekeeping.
      + by eapply set_invocation_count_housekeeping. }
  apply bind_Some in H as (o1 & ? & [Ho1 ->]%load_function_Some & H).
  apply bind_Some in H as (? & ? & [_ ->]%DCHECK_Some & H).
  apply bind_Some in H as (sfi & ? & [Hsfi ->]%load_shared_Some & H).
  apply bind_Some in H as (? & ? & [_ ->]%load_bytecode_array_Some & H).
  apply bind_Some in H as (? & ? & [-> ->]%get_Some & H).
  apply bind_Some in H as (u2 & s2 & Hbaseline & H).
  assert (Hk2 : housekeeping f s s2).
  { eapply housekeeping_trans; [exact Hk1|].
    destruct (can_compile_with_baseline sfi
              && negb (bool_decide (GetActiveTier o1 = Some BASELINE))).
    - destruct (FLAG_baseline_batch_compilation (flags s1)).
      + by eapply EnqueueFunction_housekeeping.
      + by eapply CompileBaseline_housekeeping.
    - apply ret_Some in Hbaseline as [_ ->]. apply housekeeping_refl. }
  assert (Hopt : use_optimizer s2 = use_optimizer s) by apply Hk2.
  exists o. destruct (bool_decide (is_Some (feedback_vector o))) eqn:Hhad;
    cbn [negb] in H.
  - apply bool_decide_eq_true in Hhad.
    apply bind_Some in H as (? & ? & [-> ->]%get_Some & H).
    destruct (use_optimizer s2) eqn:Huse; cbn [negb] in H.
    + apply bind_Some in H as (u4 & s4 & H & ->%modify_Some).
      apply bind_Some in H as (? & s3 & Hticks & H).
      apply bind_Some in H as (? & ? & [Hframe ->]%DCHECK_Some & H).
      apply bind_Some in H as (o3 & ? & [Ho3 ->]%load_function_Some & H).
      apply bind_Some in H as (kind & ? & [Hkind ->]%value_Some & H).
      exists s3. split; [done|]. split.
      { eapply housekeeping_trans; [exact Hk2|].
        by eapply SaturatingIncrementProfilerTicks_housekeeping. }
      right. repeat split; try done.
      exists o3, kind, s4. repeat split; try done. by destruct u4.
    + apply ret_Some in H as [_ ->]. exists s2. split; [done|].
      split; [done|]. left. split; [right; congruence | done].
  - apply bool_decide_eq_false in Hhad.
    apply ret_Some in H as [_ ->]. exists s2. split; [done|].
    split; [done|]. left. split; [|done]. left.
    destruct (feedback_vector o); [|done]. exfalso. apply Hhad. eauto.
Qed.

(** *** Ticks that return *)

Lemma housekeeping_function f s s' o :
  housekeeping f s s' -> functions s !! f = Some o ->
  exists o', functions s' !! f = Some o' /\ same_marks o o'.
Proof. intros (_ & _ & _ & _ & _ & _ & _ & _ & _ & Hf). apply Hf. Qed.

Section Returns.

Variables (kMax : Z) (f : nat) (frame : Frame) (s : Isolate).
Variables (o : JSFunction) (sfi : SharedFunctionInfo) (bytecode : BytecodeArray).

Hypothesis function_at : functions s !! f = Some o.
Hypothesis shared_at : shared_function_infos s !! shared o = Some sfi.
Hypothesis bytecode_at : bytecode_arrays s !! bytecode_array sfi = Some bytecode.

Lemma SetInterruptBudget_returns :
  exists s1, SetInterruptBudget f s = Some (tt, s1).
Proof.
  unfold SetInterruptBudget, InterruptBudgetFor. exec.
  destruct (bool_decide (is_Some (feedback_vector o))); exec;
    eexists; reflexivity.
Qed.

Lemma CreateAndAttachFeedbackVector_returns :
  exists s1 o1,
    (CreateAndAttachFeedbackVector f;; set_invocation_count f 1) s = Some (tt, s1)
    /\ functions s1 !! f = Some o1 /\ is_Some (feedback_vector o1).
Proof.
  pose (o_a := with_feedback_vector o
                 (Some {| profiler_ticks := 0; invocation_count := 0 |})).
  pose (s_a := set_functions (<[f := o_a]> (functions s)) s).
  assert (Hfa : functions s_a !! f = Some o_a) by apply lookup_insert_eq.
  assert (Hbudget : exists s_c o_c v_c,
            SetInterruptBudget f s_a = Some (tt, s_c)
            /\ functions s_c !! f = Some o_c
            /\ feedback_vector o_c = Some v_c).
  { unfold SetInterruptBudget, InterruptBudgetFor, store_function. exec.
    rewrite (bool_decide_eq_true_2 (is_Some (feedback_vector o_a)))
      by (by eexists).
    exec. eexists _, _, _. split; [reflexivity|].
    split; [apply lookup_insert_eq | reflexivity]. }
  destruct Hbudget as (s_c & o_c & v_c & Hc & Hfc & Hvc).
  assert (Ha : CreateAndAttachFeedbackVector f s = Some (tt, s_c)).
  { unfold CreateAndAttachFeedbackVector, store_function. exec. exact Hc. }
  pose (o_b := with_feedback_vector o_c
                 (Some {| profiler_ticks := profiler_ticks v_c;
                          invocation_count := 1 |})).
  pose (s_b := set_functions (<[f := o_b]> (functions s_c)) s_c).
  assert (Hb : set_invocation_count f 1 s_c = Some (tt, s_b)).
  { unfold set_invocation_count. exec. rewrite Hvc. exec. reflexivity. }
  exists s_b, o_b. split; [|split].
  - by rewrite (bind_run _ _ _ _ _ Ha).
  - apply lookup_insert_eq.
  - by eexists.
Qed.

(** The first part of a tick returns and leaves the function with a
    feedback vector. *)
Lemma seed_returns :
  exists s1 o1,
    (if bool_decide (is_Some (feedback_vector o)) then SetInterruptBudget f
     else CreateAndAttachFeedbackVector f;; set_invocation_count f 1) s
    = Some (tt, s1)
    /\ housekeeping f s s1
    /\ functions s1 !! f = Some o1
    /\ same_marks o o1
    /\ is_Some (feedback_vector o1).
Proof.
  destruct (bool_decide (is_Some (feedback_vector o))) eqn:Hhad.
  - apply bool_decide_eq_true in Hhad.
    destruct SetInterruptBudget_returns as (s1 & Hrun).
    pose proof (SetInterruptBudget_housekeeping _ _ _ _ Hrun) as Hk.
    destruct (housekeeping_function _ _ _ _ Hk function_at) as (o1 & Ho1 & Hm).
    exists s1, o1. do 4 (split; [done|]). by apply Hm.
  - destruct CreateAndAttachFeedbackVector_returns as (s1 & o1 & Hrun & Ho1 & Hv1).
    assert (Hk : housekeeping f s s1).
    { apply bind_Some in Hrun as (? & sa & Hcreate & Hcount).
      eapply housekeeping_trans.
      - by eapply CreateAndAttachFeedbackVector_housekeeping.
      - by eapply set_invocation_count_housekeeping. }
    destruct (housekeeping_function _ _ _ _ Hk function_at) as (o' & Ho' & Hm).
    assert (o' = o1) as -> by congruence.
    exists s1, o1. by do 4 (split; [done|]).
Qed.

(** A tick returns when it returns early, or when its frame is
    unoptimized, its function has an active tier and
    [MaybeOptimizeFrame] returns. *)
Lemma OnInterruptTick_returns :
  feedback_vector o = None \/ use_optimizer s = false
  \/ (is_unoptimized frame = true /\ is_Some (GetActiveTier o)
      /\ forall s1 o1 kind,
           housekeeping f s s1 -> functions s1 !! f = Some o1 ->
           same_marks o o1 ->
           exists s2, MaybeOptimizeFrame kMax f frame kind s1 = Some (tt, s2)) ->
  exists s', OnInterruptTick kMax f frame s = Some (tt, s').
Proof.
  intros Hcase. unfold OnInterruptTick. exec.
  destruct seed_returns as (s1 & o1 & Hseed & Hk1 & Ho1 & Hm1 & Hv1).
  rewrite (bind_run _ _ _ _ _ Hseed). cbv beta.
  pose proof Hk1 as (Hflags & Hopt & Hsfis & Harrays & _).
  pose proof Hm1 as (Hshared & _).
  assert (Hsfi1 : shared_function_infos s1 !! shared o1 = Some sfi)
    by (by rewrite Hsfis, Hshared).
  assert (Hbc1 : bytecode_arrays s1 !! bytecode_array sfi = Some bytecode)
    by (by rewrite Harrays).
  exec. rewrite (bool_decide_eq_true_2 _ Hv1). exec.
  assert (Hbaseline : exists s2 o2,
    (if can_compile_with_baseline sfi
        && negb (bool_decide (GetActiveTier o1 = Some BASELINE))
     then
       if FLAG_baseline_batch_compilation (flags s1)
       then EnqueueFunction f
       else CompileBaseline f
     else mret tt) s1 = Some (tt, s2)
    /\ housekeeping f s1 s2
    /\ functions s2 !! f = Some o2 /\ same_marks o1 o2).
  { assert (Hret : exists s2,
      (if can_compile_with_baseline sfi
          && negb (bool_decide (GetActiveTier o1 = Some BASELINE))
       then
         if FLAG_baseline_batch_compilation (flags s1)
         then EnqueueFunction f
         else CompileBaseline f
       else mret tt) s1 = Some (tt, s2)
      /\ housekeeping f s1 s2).
    { destruct (can_compile_with_baseline sfi && _).
      - destruct (FLAG_baseline_batch_compilation (flags s1)).
        + eexists. split; [reflexivity|].
          by eapply EnqueueFunction_housekeeping.
        + assert (Hc : exists s2, CompileBaseline f s1 = Some (tt, s2)).
          { unfold CompileBaseline. exec.
            destruct (baseline_compile_succeeds sfi); eexists; reflexivity. }
          destruct Hc as (s2 & Hc). exists s2. split; [done|].
          by eapply CompileBaseline_housekeeping.
      - eexists. split; [reflexivity | apply housekeeping_refl]. }
    destruct Hret as (s2 & Hret & Hk2). exists s2.
    destruct (housekeeping_function _ _ _ _ Hk2 Ho1) as (o2 & Ho2 & Hm2).
    eauto 6. }
  destruct Hbaseline as (s2 & o2 & Hbaseline & Hk2 & Ho2 & Hm2).
  rewrite (bind_run _ _ _ _ _ Hbaseline). cbv beta.
  destruct (bool_decide (is_Some (feedback_vector o))) eqn:Hhad; cbn [negb];
    [|eexists; reflexivity].
  exec. pose proof Hk2 as (_ & Hopt2 & _).
  destruct (use_optimizer s2) eqn:Huse; cbn [negb]; [|eexists; reflexivity].
  apply bool_decide_eq_true in Hhad.
  destruct Hcase as [Hnone | [Hoff | (Hframe & Htier & Hframe_run)]].
  - destruct Hhad as [v Hv]. congruence.
  - congruence.
  - assert (Hv2 : is_Some (feedback_vector o2)) by (by apply Hm2).
    destruct Hv2 as [v2 Hv2].
    assert (Hticks : exists s3, SaturatingIncrementProfilerTicks f s2 = Some (tt, s3)).
    { unfold SaturatingIncrementProfilerTicks. exec. rewrite Hv2. exec.
      eexists. reflexivity. }
    destruct Hticks as (s3 & Hticks).
    pose proof (SaturatingIncrementProfilerTicks_housekeeping _ _ _ _ Hticks)
      as Hk3.
    destruct (housekeeping_function _ _ _ _ Hk3 Ho2) as (o3 & Ho3 & Hm3).
    rewrite bind_assoc, (bind_run _ _ _ _ _ Hticks). cbv beta.
    rewrite Hframe. exec.
    assert (Hm : same_marks o o3)
      by (eapply same_marks_trans; [|exact Hm3];
          eapply same_marks_trans; [exact Hm1 | exact Hm2]).
    assert (Htier3 : is_Some (GetActiveTier o3)) by (by apply Hm).
    destruct Htier3 as [kind Hkind]. rewrite Hkind. exec.
    destruct (Hframe_run s3 o3 kind) as (s4 & Hrun); [|done|done|].
    + eapply housekeeping_trans; [exact Hk1|].
      eapply housekeeping_trans; [exact Hk2 | exact Hk3].
    + rewrite (bind_run _ _ _ _ _ Hrun). eexists. reflexivity.
Qed.

End Returns.

(** *** Functions in the queue and functions that must not be optimized *)

Lemma MaybeOptimizeFrame_queued kMax f frame kind s o :
  functions s !! f = Some o -> IsInOptimizationQueue o = true ->
  MaybeOptimizeFrame kMax f frame kind s = Some (tt, s).
Proof. intros Ho Hq. unfold MaybeOptimizeFrame. exec. by rewrite Hq. Qed.

Lemma MaybeOptimizeFrame_disabled kMax f frame kind s o sfi :
  functions s !! f = Some o ->
  shared_function_infos s !! shared o = Some sfi ->
  optimization_disabled sfi = true ->
  MaybeOptimizeFrame kMax f frame kind s = Some (tt, s).
Proof.
  intros Ho Hsfi Hd. unfold MaybeOptimizeFrame. exec.
  destruct (IsInOptimizationQueue o); [done|]. exec.
  unfold IsHeuristicOptimizationAllowed. exec.
  destruct (FLAG_testing_d8_test_runner (flags s) && _); [done|]. exec.
  by rewrite Hd.
Qed.

(** What a tick leaves alone when [MaybeOptimizeFrame] returns at once. *)
Lemma OnInterruptTick_idle kMax f frame s o u s' :
  functions s !! f = Some o ->
  (forall s1 o1 kind,
     housekeeping f s s1 -> functions s1 !! f = Some o1 -> same_marks o o1 ->
     MaybeOptimizeFrame kMax f frame kind s1 = Some (tt, s1)) ->
  OnInterruptTick kMax f frame s = Some (u, s') ->
  calls s' = calls s
  /\ bytecode_arrays s' = bytecode_arrays s
  /\ exists o', functions s' !! f = Some o' /\ same_marks o o'.
Proof.
  intros Ho Hidle Htick.
  apply OnInterruptTick_Some in Htick
    as (o0 & s1 & Ho0 & Hk & [[_ ->] | (_ & _ & _ & o1 & kind & s2 & Ho1 & _ & Hrun & ->)]).
  - destruct Hk as (_ & _ & _ & ? & _ & _ & _ & ? & _ & Hf). auto.
  - pose proof Hk as (_ & _ & _ & ? & _ & _ & _ & ? & _ & Hf).
    destruct (Hf o Ho) as (o' & Ho' & Hm).
    assert (o' = o1) as -> by congruence.
    rewrite (Hidle s1 o1 kind Hk Ho1 Hm) in Hrun. injection Hrun as <-.
    cbn. eauto.
Qed.

(** C5. For a function in the optimization queue, [MaybeOptimizeFrame]
    returns at once with the isolate as it was; a tick on the function
    returns, makes no call at all, so none to [MarkForOptimization], and
    leaves the function's marks as they were; [Optimize], in contrast,
    makes exactly one call to [MarkForOptimization]. *)
Theorem no_double_enqueue
    (kMaxLoopNestingMarker : Z) (s : Isolate) (f : nat) (frame : Frame)
    (o : JSFunction) :
  functions s !! f = Some o ->
  IsInOptimizationQueue o = true ->
  (forall kind,
     MaybeOptimizeFrame kMaxLoopNestingMarker f frame kind s = Some (tt, s))
  /\ (forall sfi bytecode,
        shared_function_infos s !! shared o = Some sfi ->
        bytecode_arrays s !! bytecode_array sfi = Some bytecode ->
        is_unoptimized frame = true -> is_Some (GetActiveTier o) ->
        exists s', OnInterruptTick kMaxLoopNestingMarker f frame s = Some (tt, s'))
  /\ (forall u s',
        OnInterruptTick kMaxLoopNestingMarker f frame s = Some (u, s') ->
        calls s' = calls s
        /\ (forall kind mode, CallMarkForOptimization f kind mode ∈ calls s' ->
              CallMarkForOptimization f kind mode ∈ calls s)
        /\ exists o', functions s' !! f = Some o' /\ same_marks o o')
  /\ (forall kind d u s',
        Optimize f kind d s = Some (u, s') ->
        calls s' =
        calls s ++ [CallMarkForOptimization f (code_kind d) (concurrency_mode d)]).
Proof.
  intros Ho Hq.
  assert (Hidle : forall s1 o1 kind,
            housekeeping f s s1 -> functions s1 !! f = Some o1 ->
            same_marks o o1 ->
            MaybeOptimizeFrame kMaxLoopNestingMarker f frame kind s1
            = Some (tt, s1)).
  { intros s1 o1 kind _ Ho1 (_ & _ & Hq1 & _).
    eapply MaybeOptimizeFrame_queued; [exact Ho1 | congruence]. }
  split; [|split; [|split]].
  - intros kind. by eapply MaybeOptimizeFrame_queued.
  - intros sfi bytecode Hsfi Hbc Hframe Htier.
    eapply OnInterruptTick_returns; [exact Ho | exact Hsfi | exact Hbc |].
    right. right. repeat split; [done..|]. eauto.
  - intros u s' Htick.
    destruct (OnInterruptTick_idle _ _ _ _ _ _ _ Ho Hidle Htick)
      as (Hcalls & _ & Hmarks).
    split; [done|]. split; [|done]. intros kind mode. by rewrite Hcalls.
  - intros kind d u s'. unfold Optimize, MarkForOptimization, record.
    intros H. apply bind_Some in H as (? & ? & [_ ->]%DCHECK_Some & H).
    apply bind_Some in H as (? & ? & ->%modify_Some & H).
    apply bind_Some in H as (? & ? & [_ ->]%load_function_Some & H).
    unfold store_function in H. by apply modify_Some in H as ->.
Qed.

Lemma no_double_enqueue_witness :
  exists s',
    OnInterruptTick 6 0%nat (scenario_frame 10) (warm_function true false)
    = Some (tt, s')
    /\ calls s' = [].
Proof.
  pose proof (no_double_enqueue 6 (warm_function true false) 0%nat
                (scenario_frame 10) (scenario_function (ticked 3) true false)
                eq_refl eq_refl) as (_ & Hreturns & Hquiet & _).
  destruct (Hreturns (scenario_shared true false kNotCached)
              (scenario_bytecode 40 0) eq_refl eq_refl eq_refl
              ltac:(by eexists)) as (s' & Htick).
  exists s'. split; [exact Htick|]. apply (Hquiet tt s' Htick).
Defined.

(** C6. For a function whose shared function info has
    [optimization_disabled] set, [MaybeOptimizeFrame] returns with the
    isolate as it was, [AttemptOnStackReplacement] on a frame of the
    function returns without storing a nesting level, and a tick on the
    function returns, leaves its marks and every nesting level as they
    were and makes no call. *)
Theorem optimization_disabled_honored
    (kMaxLoopNestingMarker : Z) (s : Isolate) (f : nat) (frame : Frame)
    (o : JSFunction) (sfi : SharedFunctionInfo) :
  functions s !! f = Some o ->
  shared_function_infos s !! shared o = Some sfi ->
  optimization_disabled sfi = true ->
  (forall kind,
     MaybeOptimizeFrame kMaxLoopNestingMarker f frame kind s = Some (tt, s))
  /\ (forall frame' levels,
        function frame' = f ->
        exists s',
          AttemptOnStackReplacement kMaxLoopNestingMarker frame' levels s
          = Some (tt, s')
          /\ bytecode_arrays s' = bytecode_arrays s
          /\ functions s' = functions s)
  /\ (forall bytecode,
        bytecode_arrays s !! bytecode_array sfi = Some bytecode ->
        is_unoptimized frame = true -> is_Some (GetActiveTier o) ->
        exists s', OnInterruptTick kMaxLoopNestingMarker f frame s = Some (tt, s'))
  /\ (forall u s',
        OnInterruptTick kMaxLoopNestingMarker f frame s = Some (u, s') ->
        calls s' = calls s
        /\ bytecode_arrays s' = bytecode_arrays s
        /\ exists o', functions s' !! f = Some o' /\ same_marks o o').
Proof.
  intros Ho Hsfi Hd.
  assert (Hidle : forall s1 o1 kind,
            housekeeping f s s1 -> functions s1 !! f = Some o1 ->
            same_marks o o1 ->
            MaybeOptimizeFrame kMaxLoopNestingMarker f frame kind s1
            = Some (tt, s1)).
  { intros s1 o1 kind (_ & _ & Hsfis & _) Ho1 (Hshared & _).
    eapply MaybeOptimizeFrame_disabled; [exact Ho1 | | exact Hd].
    by rewrite Hsfis, Hshared. }
  split; [|split; [|split]].
  - intros kind. by eapply MaybeOptimizeFrame_disabled.
  - intros frame' levels <-. eexists. split.
    + rewrite (AttemptOnStackReplacement_run _ _ _ _ _ _ Ho Hsfi). cbv zeta.
      rewrite Hd. by destruct (negb _ || negb _).
    + done.
  - intros bytecode Hbc Hframe Htier.
    eapply OnInterruptTick_returns; [exact Ho | exact Hsfi | exact Hbc |].
    right. right. repeat split; [done..|]. eauto.
  - intros u s' Htick. exact (OnInterruptTick_idle _ _ _ _ _ _ _ Ho Hidle Htick).
Qed.

Lemma optimization_disabled_honored_witness :
  exists s',
    OnInterruptTick 6 0%nat (scenario_frame 10) (warm_function false true)
    = Some (tt, s')
    /\ calls s' = []
    /\ bytecode_arrays s' = bytecode_arrays (warm_function false true).
Proof.
  pose proof (optimization_disabled_honored 6 (warm_function false true) 0%nat
                (scenario_frame 10) (scenario_function (ticked 3) false false)
                (scenario_shared true true kNotCached)
                eq_refl eq_refl eq_refl) as (_ & _ & Hreturns & Hquiet).
  destruct (Hreturns (scenario_bytecode 40 0) eq_refl eq_refl
              ltac:(by eexists)) as (s' & Htick).
  exists s'. split; [exact Htick|].
  destruct (Hquiet tt s' Htick) as (Hcalls & Harrays & _).
  split; [exact Hcalls | exact Harrays].
Defined.

(** C10. A tick resets [any_ic_changed_] only inside
    [OnInterruptTickScope]: when the function had a feedback vector as the
    tick began and the optimizer is enabled, the flag is false afterwards;
    a first tick, and a tick with the optimizer disabled, returns early and
    the flag is as it was. *)
Theorem any_ic_changed_reset_in_scope
    (kMaxLoopNestingMarker : Z) (s : Isolate) (f : nat) (frame : Frame)
    (o : JSFunction) :
  functions s !! f = Some o ->
  (forall sfi bytecode,
     shared_function_infos s !! shared o = Some sfi ->
     bytecode_arrays s !! bytecode_array sfi = Some bytecode ->
     feedback_vector o = None \/ use_optimizer s = false ->
     exists s',
       OnInterruptTick kMaxLoopNestingMarker f frame s = Some (tt, s')
       /\ any_ic_changed_ s' = any_ic_changed_ s)
  /\ (forall u s',
        OnInterruptTick kMaxLoopNestingMarker f frame s = Some (u, s') ->
        (feedback_vector o = None \/ use_optimizer s = false ->
         any_ic_changed_ s' = any_ic_changed_ s)
        /\ (is_Some (feedback_vector o) -> use_optimizer s = true ->
            any_ic_changed_ s' = false)).
Proof.
  intros Ho.
  assert (Hfinished : forall u s',
    OnInterruptTick kMaxLoopNestingMarker f frame s = Some (u, s') ->
    (feedback_vector o = None \/ use_optimizer s = false ->
     any_ic_changed_ s' = any_ic_changed_ s)
    /\ (is_Some (feedback_vector o) -> use_optimizer s = true ->
        any_ic_changed_ s' = false)).
  { intros u s' Htick.
    apply OnInterruptTick_Some in Htick
      as (o0 & s1 & Ho0 & Hk
          & [[Hearly ->] | (Hhad & Huse & _ & o1 & kind & s2 & _ & _ & _ & ->)]).
    - assert (o0 = o) as -> by congruence. split.
      + intros _. apply Hk.
      + intros [v Hv] Huse. destruct Hearly; congruence.
    - assert (o0 = o) as -> by congruence. split.
      + intros [Hnone | Hoff]; [|congruence].
        destruct Hhad as [v Hv]. congruence.
      + done. }
  split; [|exact Hfinished].
  intros sfi bytecode Hsfi Hbc Hearly.
  destruct (OnInterruptTick_returns kMaxLoopNestingMarker f frame s o sfi
              bytecode Ho Hsfi Hbc) as (s' & Htick).
  { destruct Hearly; auto. }
  exists s'. split; [done|]. by apply (Hfinished tt s' Htick).
Qed.

Lemma any_ic_changed_reset_in_scope_witness :
  (exists s',
     OnInterruptTick 6 0%nat (scenario_frame 10) first_tick = Some (tt, s')
     /\ any_ic_changed_ s' = true)
  /\ (exists s',
        OnInterruptTick 6 0%nat (scenario_frame 80) (cold_or_hot 1)
        = Some (tt, s')
        /\ any_ic_changed_ s' = false).
Proof.
  split.
  - apply (proj1 (any_ic_changed_reset_in_scope 6 first_tick 0%nat
                    (scenario_frame 10) (scenario_function None false false)
                    eq_refl)
             (scenario_shared true false kNotCached) (scenario_bytecode 40 0)
             eq_refl eq_refl).
    by left.
  - eexists. split; [vm_compute; reflexivity|].
    apply (proj2 (any_ic_changed_reset_in_scope 6 (cold_or_hot 1) 0%nat
                    (scenario_frame 80)
                    (scenario_function (ticked 1) false false) eq_refl)
             tt _ eq_refl); [by eexists | reflexivity].
Defined.

(** *** The nesting level over sequences of operations *)

Section Levels.

Variable kMaxLoopNestingMarker : Z.

(** The marker fits the eight-bit field of the nesting level. *)
Hypothesis marker_range : 0 <= kMaxLoopNestingMarker <= 255.

Local Abbreviation advance := (advance kMaxLoopNestingMarker).
Local Abbreviation bounded := (osr_levels_bounded kMaxLoopNestingMarker).

Lemma osr_levels_le_refl s : osr_levels_le s s.
Proof. intros b bytecode Hb. exists bytecode. split; [done | lia]. Qed.

Lemma advance_refl s : advance s s.
Proof. split; [done|]. intros Hb. split; [done | apply osr_levels_le_refl]. Qed.

Lemma advance_trans s1 s2 s3 : advance s1 s2 -> advance s2 s3 -> advance s1 s3.
Proof.
  intros [Hs12 H12] [Hs23 H23]. split; [congruence|].
  intros Hb1. destruct (H12 Hb1) as [Hb2 Hle12].
  destruct (H23 Hb2) as [Hb3 Hle23]. split; [done|].
  intros b bytecode Hb. destruct (Hle12 b bytecode Hb) as (bc2 & Hbc2 & ?).
  destruct (Hle23 b bc2 Hbc2) as (bc3 & Hbc3 & ?).
  exists bc3. split; [done | lia].
Qed.

(** Whatever leaves the bytecode arrays and the shared function infos
    alone advances. *)
Lemma advance_same s s' :
  shared_function_infos s' = shared_function_infos s ->
  bytecode_arrays s' = bytecode_arrays s -> advance s s'.
Proof.
  intros Hsfi Harrays. split; [done|]. unfold osr_levels_bounded, osr_levels_le.
  rewrite Harrays. split; [done|]. intros b bytecode Hb.
  exists bytecode. split; [done | lia].
Qed.

Lemma housekeeping_advance f s s' : housekeeping f s s' -> advance s s'.
Proof. intros (_ & _ & ? & ? & _). by apply advance_same. Qed.

(** Raising one level, within the marker, advances. *)
Lemma with_osr_level_advance b depth old s :
  bytecode_arrays s !! b = Some old ->
  osr_loop_nesting_level old <= depth ->
  0 <= depth <= kMaxLoopNestingMarker ->
  advance s (with_osr_level b depth old s).
Proof.
  intros Hold Hle Hdepth. split; [done|]. intros Hb. split.
  - intros b' bytecode'. cbn. destruct (decide (b' = b)) as [->|Hne].
    + rewrite lookup_insert_eq. by intros [= <-].
    + rewrite lookup_insert_ne by done. apply Hb.
  - intros b' bytecode' Hb'. cbn. destruct (decide (b' = b)) as [->|Hne].
    + rewrite lookup_insert_eq. eexists. split; [done|]. cbn. congruence.
    + rewrite lookup_insert_ne by done. exists bytecode'. split; [done | lia].
Qed.

Lemma AttemptOnStackReplacement_advance frame levels s u s' :
  0 <= levels <= kMaxInt - kMaxLoopNestingMarker ->
  AttemptOnStackReplacement kMaxLoopNestingMarker frame levels s = Some (u, s') ->
  advance s s'.
Proof.
  intros Hlevels. unfold AttemptOnStackReplacement, record. intros H.
  apply bind_Some in H as (? & s1 & ->%modify_Some & H).
  eapply (advance_trans _ (set_calls _ s)); [by apply advance_same|].
  inv_all; try apply advance_refl.
  match goal with
  | Hset : set_osr_loop_nesting_level _ _ _ = Some _ |- _ =>
      apply set_osr_loop_nesting_level_Some in Hset as (old & Hold & ->)
  end.
  inv_run. split; [done|]. intros Hb.
  assert (Hrange : 0 <= osr_loop_nesting_level old <= kMaxLoopNestingMarker)
    by (eapply Hb; eauto).
  assert (Hsum : int32 (osr_loop_nesting_level old + levels)
                 = osr_loop_nesting_level old + levels).
  { apply int32_id. unfold is_int32, kMinInt, kMaxInt in *. lia. }
  assert (Hfits :
    uint8 (Z.min (int32 (osr_loop_nesting_level old + levels))
             kMaxLoopNestingMarker)
    = Z.min (osr_loop_nesting_level old + levels) kMaxLoopNestingMarker).
  { rewrite Hsum. unfold uint8. apply Z.mod_small. lia. }
  rewrite Hfits. eapply with_osr_level_advance; [done | lia | lia | done].
Qed.

Lemma MaybeOSR_advance f frame s answer s' :
  MaybeOSR kMaxLoopNestingMarker f frame s = Some (answer, s') -> advance s s'.
Proof.
  unfold MaybeOSR. intros H. inv_all; try apply advance_refl.
  eapply AttemptOnStackReplacement_advance; [|eassumption].
  unfold kMaxInt. lia.
Qed.

Lemma Optimize_advance f kind d s u s' :
  Optimize f kind d s = Some (u, s') -> advance s s'.
Proof.
  unfold Optimize, MarkForOptimization, record, store_function. intros H.
  inv_run. by apply advance_same.
Qed.

End Levels.

Lemma run_all_steps marker ops s s' :
  run_all marker ops s = Some s' -> steps marker s ops s'.
Proof.
  revert s. induction ops as [|op ops IH]; intros s; cbn [run_all].
  - intros [= <-]. apply steps_nil.
  - destruct (run marker op s) as [[[] s1]|] eqn:Hrun; [|discriminate].
    intros Hrest. eapply steps_cons; [exact Hrun | by apply IH].
Qed.


End TieringFacts.

(** ** The rest of the registry *)

Module RegistryFacts.
Import Builtins.

Lemma int16_range (z : Z) : - 2 ^ 15 <= int16 z < 2 ^ 15.
Proof.
  unfold int16.
  pose proof (Z.mod_pos_bound (z + 2 ^ 15) (2 ^ 16) ltac:(lia)). lia.
Qed.

Lemma int16_id (z : Z) : - 2 ^ 15 <= z < 2 ^ 15 -> int16 z = z.
Proof. intros Hz. unfold int16. rewrite Z.mod_small; lia. Qed.

Section Registry.

Variable builtin_metadata : list BuiltinMetadata.
Variable kSystemPointerSize : Z.
Variable HasHeapObjectTag : Z -> bool.

Hypothesis builtin_count_fits : kBuiltinCount builtin_metadata <= kMaxInt + 1.
Hypothesis pointer_size_positive : 0 < kSystemPointerSize.

Local Abbreviation IsBuiltinId := (IsBuiltinId builtin_metadata).
Local Abbreviation KindOf := (KindOf builtin_metadata).
Local Abbreviation metadata_of := (metadata_of builtin_metadata).
Local Abbreviation kBuiltinCount := (kBuiltinCount builtin_metadata).
Local Abbreviation set_code := (set_code builtin_metadata HasHeapObjectTag).
Local Abbreviation code_handle := (code_handle kSystemPointerSize).
Local Abbreviation IsBuiltinHandle :=
  (IsBuiltinHandle builtin_metadata kSystemPointerSize).
Local Abbreviation table_sized := (table_sized builtin_metadata).

Lemma IsBuiltinId_bounds (id : Z) :
  IsBuiltinId id = true <-> 0 <= id < kBuiltinCount.
Proof. unfold Builtins.IsBuiltinId. rewrite andb_true_iff. lia. Qed.

(** A handle that [IsBuiltinHandle] accepts lies in the table, at a
    distance of fewer than [kBuiltinCount] slots from its start. *)
Lemma IsBuiltinHandle_true (iso : Isolate) (h : Handle) (b0 b : Builtin) :
  IsBuiltinHandle h b0 iso = (true, b) ->
  builtin_table iso <= location h
    < builtin_table iso + kBuiltinCount * kSystemPointerSize
  /\ b = (location h - builtin_table iso) `quot` kSystemPointerSize
  /\ 0 <= b < kBuiltinCount.
Proof.
  unfold Builtins.IsBuiltinHandle, FromInt.
  destruct (Z.ltb_spec (location h) (builtin_table iso)); [discriminate|].
  destruct (Z.geb_spec (location h)
              (builtin_table iso + kBuiltinCount * kSystemPointerSize));
    [discriminate|].
  intros [= <-].
  assert (Hq : 0 <= (location h - builtin_table iso) `quot` kSystemPointerSize
               < kBuiltinCount).
  { split.
    - apply Z.quot_pos; lia.
    - apply Z.quot_lt_upper_bound; lia. }
  rewrite int32_id by (unfold is_int32, kMinInt, kMaxInt in *; lia).
  repeat split; lia.
Qed.

(** X1. Whatever handle [IsBuiltinHandle] accepts, the builtin it stores is
    a builtin id; if the handle is the address of a slot, [code_handle] of
    that builtin is the handle again; and [code_handle] gives different
    builtins different handles. *)
Theorem IsBuiltinHandle_inverse :
  (forall (iso : Isolate) (h : Handle) (b0 b : Builtin),
     IsBuiltinHandle h b0 iso = (true, b) ->
     IsBuiltinId b = true
     /\ ((location h - builtin_table iso) `rem` kSystemPointerSize = 0 ->
         code_handle b iso = h))
  /\ (forall (iso : Isolate) (b1 b2 : Builtin),
        code_handle b1 iso = code_handle b2 iso -> b1 = b2).
Proof.
  split.
  - intros iso h b0 b (Hin & Hb & Hrange)%IsBuiltinHandle_true. split.
    + by apply IsBuiltinId_bounds.
    + intros Haligned. destruct h as [loc]. cbn in *.
      unfold Builtins.code_handle, ToInt. f_equal.
      pose proof (Z.quot_rem' (loc - builtin_table iso) kSystemPointerSize).
      rewrite Haligned in H. subst b. lia.
  - intros iso b1 b2. unfold Builtins.code_handle, ToInt. intros [= H]. nia.
Qed.

Lemma code_lookup (b : Builtin) (iso : Isolate) :
  0 <= b ->
  code b iso = builtin_table_slots iso !! Z.to_nat b ≫= (code_objects iso !!.).
Proof. intros Hb. unfold code, ToInt. by destruct (Z.leb_spec 0 b); [|lia]. Qed.

(** X2. After [set_code(builtin, code)], [code(builtin)] is the installed
    object, whose [builtin_id] is [builtin]; the code of every other
    builtin, the code objects and every handle are as before. *)
Theorem set_code_then_code
    (b : Builtin) (ptr : Z) (iso iso' : Isolate) :
  table_sized iso ->
  set_code b ptr iso = Some iso' ->
  (exists c, code b iso' = Some c /\ code_objects iso !! ptr = Some c
             /\ builtin_id c = b)
  /\ (forall b', b' <> b -> code b' iso' = code b' iso)
  /\ code_objects iso' = code_objects iso
  /\ (forall b', code_handle b' iso' = code_handle b' iso)
  /\ table_sized iso'.
Proof.
  intros Hsz Hset.
  pose proof (BuiltinsFacts.set_code_sized _ _ _ _ _ _ Hset Hsz) as Hsz'.
  apply BuiltinsFacts.set_code_Some in Hset as (c & Hc & Hb & Hid & ->).
  apply IsBuiltinId_bounds in Hid.
  split; [|split; [|split; [|split]]]; try done.
  - exists c. split; [|done]. rewrite code_lookup by lia. cbn.
    rewrite list_lookup_insert_eq by (unfold Builtins.table_sized in Hsz; lia).
    exact Hc.
  - intros b' Hne. unfold code, ToInt. cbn.
    destruct (Z.leb_spec 0 b'); [|done].
    by rewrite list_lookup_insert_ne by lia.
Qed.

Lemma metadata_of_kind (b : Builtin) :
  KindOf b = kind <$> metadata_of b.
Proof.
  unfold Builtins.KindOf, Builtins.metadata_of. by destruct (IsBuiltinId b).
Qed.

Lemma metadata_of_declared (b : Builtin) (m : BuiltinMetadata) :
  Forall declared builtin_metadata -> metadata_of b = Some m -> declared m.
Proof.
  intros Hall. unfold Builtins.metadata_of.
  destruct (IsBuiltinId b); [|discriminate].
  intros Hm. eapply Forall_lookup_1; eauto.
Qed.

(** X3. In a table built with the [DECL_] macros,
    [GetStackParameterCount] is defined exactly on the TFJ builtins and
    [CppEntryOf] exactly on the CPP builtins; the parameter count is the
    declared count cast to 16 bits, which is the declared count when that
    fits. *)
Theorem kind_specific_data
    (b : Builtin) :
  Forall declared builtin_metadata ->
  (is_Some (GetStackParameterCount builtin_metadata b) <-> KindOf b = Some TFJ)
  /\ (forall Name Count,
        metadata_of b = Some (DECL_TFJ Name Count) ->
        GetStackParameterCount builtin_metadata b = Some (int16 Count)
        /\ (- 2 ^ 15 <= Count < 2 ^ 15 ->
            GetStackParameterCount builtin_metadata b = Some Count))
  /\ (forall count,
        GetStackParameterCount builtin_metadata b = Some count ->
        - 2 ^ 15 <= count < 2 ^ 15)
  /\ (is_Some (CppEntryOf builtin_metadata b) <-> KindOf b = Some CPP)
  /\ (forall Name entry,
        metadata_of b = Some (DECL_CPP Name entry) ->
        CppEntryOf builtin_metadata b = Some entry).
Proof.
  intros Hall. unfold GetStackParameterCount, CppEntryOf, IsCpp.
  rewrite metadata_of_kind.
  destruct (metadata_of b) as [m|] eqn:Hm; cbn.
  - pose proof (metadata_of_declared b m Hall Hm) as Hd.
    unfold DECL_TFJ, DECL_CPP.
    destruct Hd; cbn; (split; [|split; [|split; [|split]]]).
    all: try (split; [by intros [? [=]] | discriminate]).
    all: try (split; [done | by eexists]).
    all: try (intros ? ? [=]; subst).
    all: try (intros ? [=]; subst).
    all: try done.
    all: try apply int16_range.
    match goal with Heq : int16 _ = int16 _ |- _ => rewrite Heq end.
    split; [done|]. intros Hfits. by rewrite int16_id.
  - split; [|split; [|split; [|split]]]; try done.
    all: split; [by intros [? [=]] | discriminate].
Qed.

(** X4. A TFJ or CPP builtin has JS linkage, and its callable pairs its
    code handle with the JS trampoline descriptor; so does every builtin
    with a stack parameter count or a C++ entry. A bytecode handler has no
    call interface descriptor. *)
Theorem JS_linkage
    (InterfaceDescriptor_key : Builtin -> Z) (JSTrampolineDescriptor : Z)
    (b : Builtin) :
  (KindOf b = Some TFJ \/ KindOf b = Some CPP ->
   HasJSLinkage builtin_metadata InterfaceDescriptor_key
     JSTrampolineDescriptor b = Some true
   /\ forall iso,
        CallableFor builtin_metadata kSystemPointerSize
          InterfaceDescriptor_key JSTrampolineDescriptor iso b
        = Some (code_handle b iso, JSTrampolineDescriptor))
  /\ (is_Some (GetStackParameterCount builtin_metadata b)
      \/ is_Some (CppEntryOf builtin_metadata b) ->
      HasJSLinkage builtin_metadata InterfaceDescriptor_key
        JSTrampolineDescriptor b = Some true)
  /\ (KindOf b = Some BCH ->
      CallInterfaceDescriptorFor builtin_metadata InterfaceDescriptor_key
        JSTrampolineDescriptor b = None
      /\ HasJSLinkage builtin_metadata InterfaceDescriptor_key
           JSTrampolineDescriptor b = None).
Proof.
  assert (Hjs : KindOf b = Some TFJ \/ KindOf b = Some CPP ->
    HasJSLinkage builtin_metadata InterfaceDescriptor_key
      JSTrampolineDescriptor b = Some true
    /\ forall iso,
         CallableFor builtin_metadata kSystemPointerSize
           InterfaceDescriptor_key JSTrampolineDescriptor iso b
         = Some (code_handle b iso, JSTrampolineDescriptor)).
  { unfold HasJSLinkage, CallableFor, CallInterfaceDescriptorFor.
    intros [-> | ->]; cbn; by rewrite Z.eqb_refl. }
  split; [exact Hjs|]. split.
  - intros Hdata. apply Hjs.
    unfold GetStackParameterCount, CppEntryOf, IsCpp in Hdata.
    destruct (KindOf b) as [[]|]; cbn in Hdata;
      destruct Hdata as [[? Hd] | [? Hd]]; try discriminate; auto.
  - unfold HasJSLinkage, CallInterfaceDescriptorFor. by intros ->.
Qed.

(** *** Lookup by program counter *)

Section Lookup.

Variable TryLookupCode : Z -> Builtin.
Variable contains : Code -> Z -> bool.

Local Abbreviation Lookup := (Lookup builtin_metadata TryLookupCode contains).
Local Abbreviation Lookup_loop := (Lookup_loop builtin_metadata contains).
Local Abbreviation builtin_name := (builtin_name builtin_metadata).

(** The loop passes the builtins whose code does not contain [pc]. *)
Lemma Lookup_loop_app (iso : Isolate) (pc : Z) (passed rest : list Builtin) :
  Forall (fun b => exists c, code b iso = Some c /\ contains c pc = false)
    passed ->
  Lookup_loop iso pc (passed ++ rest) = Lookup_loop iso pc rest.
Proof.
  induction 1 as [|b passed (c & Hc & Hout) _ IH]; [done|].
  cbn. by rewrite Hc, Hout.
Qed.

(** X5. When the embedded blob does not know [pc]: a torn-down registry
    answers [nullptr]; an initialized one answers the name of the first
    builtin, in the order of their ids, whose code contains [pc], and
    [nullptr] when the code of no builtin contains it. *)
Theorem Lookup_first_match (this : BuiltinsObject) (pc : Z) :
  IsBuiltinId (TryLookupCode pc) = false ->
  Lookup (TearDown this) pc = Some None
  /\ (initialized_ this = true ->
      forall b c,
        IsBuiltinId b = true ->
        code b (isolate_ this) = Some c -> contains c pc = true ->
        (forall b', 0 <= b' < b ->
           exists c', code b' (isolate_ this) = Some c'
                      /\ contains c' pc = false) ->
        exists n, builtin_name b = Some n /\ Lookup this pc = Some (Some n))
  /\ (initialized_ this = true ->
      (forall b, IsBuiltinId b = true ->
         exists c, code b (isolate_ this) = Some c /\ contains c pc = false) ->
      Lookup this pc = Some None).
Proof.
  intros Hmiss. unfold Builtins.Lookup. rewrite Hmiss.
  split; [done|]. split.
  - intros -> b c Hb Hc Hin Hbefore. cbn [negb].
    apply IsBuiltinId_bounds in Hb.
    assert (Hn : exists n, builtin_name b = Some n).
    { unfold Builtins.builtin_name, Builtins.metadata_of.
      rewrite (proj2 (IsBuiltinId_bounds b)) by done.
      destruct (lookup_lt_is_Some_2 builtin_metadata (Z.to_nat b)) as [m Hm].
      - unfold Builtins.kBuiltinCount in Hb. lia.
      - unfold ToInt. rewrite Hm. by eexists. }
    destruct Hn as [n Hn]. exists n. split; [done|].
    unfold kFirst.
    replace (kBuiltinCount) with (b + (kBuiltinCount - b)) by lia.
    rewrite seqZ_app by lia. rewrite Lookup_loop_app.
    + rewrite Z.add_0_l, seqZ_cons by lia. cbn. by rewrite Hc, Hin, Hn.
    + apply Forall_seqZ. intros b' Hb'. apply Hbefore. lia.
  - intros -> Hnone. cbn [negb].
    rewrite <- (app_nil_r (seqZ kFirst kBuiltinCount)).
    rewrite Lookup_loop_app; [done|].
    apply Forall_seqZ. intros b Hb. apply Hnone, IsBuiltinId_bounds.
    unfold kFirst in Hb. lia.
Qed.

End Lookup.

(** *** The entry tables *)

Section Tables.

Variable InstructionStartOf : Builtin -> Z.
Variable kLastTier0 : Builtin.
Variable has_instruction_stream : Code -> bool.

Local Abbreviation fill_entry_table :=
  (fill_entry_table builtin_metadata InstructionStartOf has_instruction_stream).
Local Abbreviation InitializeIsolateDataTables :=
  (InitializeIsolateDataTables builtin_metadata InstructionStartOf kLastTier0
     has_instruction_stream).

Lemma store_Some (i v : Z) (table table' : list Z) :
  store i v table = Some table' ->
  0 <= i < Z.of_nat (length table) /\ table' = <[Z.to_nat i := v]> table.
Proof.
  unfold store. destruct (Z.leb_spec 0 i); destruct (Z.ltb_spec i (Z.of_nat (length table)));
    cbn; intros [= <-]. split; [lia | done].
Qed.

(** After the first loop over [ids], the entries of [ids] hold the
    instruction starts, the other entries are as before. *)
Lemma fill_entry_table_Some (iso : Isolate) (ids : list Builtin) :
  forall table table',
    fill_entry_table iso ids table = Some table' ->
    length table' = length table
    /\ (forall i, i ∈ ids ->
          0 <= i
          /\ table' !! Z.to_nat i = Some (InstructionStartOf i)
          /\ exists c, code i iso = Some c
                       /\ IsBuiltinId (builtin_id c) = true
                       /\ has_instruction_stream c = false)
    /\ (forall n, (forall i, i ∈ ids -> Z.to_nat i <> n) ->
          table' !! n = table !! n).
Proof.
  induction ids as [|i ids IH]; intros table table'; cbn.
  - intros [= <-]. split; [done|]. split; [|done].
    intros i Hi. by apply elem_of_nil in Hi.
  - destruct (code i iso) as [c|] eqn:Hc; [|discriminate].
    destruct (IsBuiltinId (builtin_id c) && negb (has_instruction_stream c))
      eqn:Hchecks; [|discriminate].
    apply andb_true_iff in Hchecks as [Hid Hstream%negb_true_iff].
    destruct (store (ToInt i) (InstructionStartOf i) table) as [table1|] eqn:Hst;
      [|discriminate].
    cbn. intros Hrest. apply store_Some in Hst as [Hi ->]. unfold ToInt in *.
    destruct (IH _ _ Hrest) as (Hlen & Hin & Hout).
    rewrite length_insert in Hlen. split; [done|]. split.
    + intros j [-> | Hj]%elem_of_cons; [|by apply Hin].
      split; [lia|]. split; [|eauto].
      destruct (decide (i ∈ ids)) as [Hi'|Hi']; [by apply Hin|].
      rewrite Hout.
      * apply list_lookup_insert_eq. lia.
      * intros j Hj Heq. apply Hi'.
        destruct (Hin j Hj) as [Hj0 _].
        assert (j = i) as -> by lia. done.
    + intros n Hn. rewrite Hout.
      * apply list_lookup_insert_ne. apply Hn, elem_of_cons. by left.
      * intros j Hj. apply Hn, elem_of_cons. by right.
Qed.

(** After the second loop over [ids], the tier-0 tables mirror the entry
    table and the builtin table at the indices of [ids]; their other
    entries, the entry table and the isolate are as before. *)
Lemma mirror_tier0_Some (ids : list Builtin) :
  forall d d',
    mirror_tier0 ids d = Some d' ->
    isolate d' = isolate d
    /\ builtin_entry_table d' = builtin_entry_table d
    /\ length (builtin_tier0_entry_table d')
       = length (builtin_tier0_entry_table d)
    /\ length (builtin_tier0_table d') = length (builtin_tier0_table d)
    /\ (forall i, i ∈ ids ->
          0 <= i
          /\ is_Some (builtin_tier0_entry_table d' !! Z.to_nat i)
          /\ builtin_tier0_entry_table d' !! Z.to_nat i
             = builtin_entry_table d !! Z.to_nat i
          /\ is_Some (builtin_tier0_table d' !! Z.to_nat i)
          /\ builtin_tier0_table d' !! Z.to_nat i
             = builtin_table_slots (isolate d) !! Z.to_nat i)
    /\ (forall n, (forall i, i ∈ ids -> Z.to_nat i <> n) ->
          builtin_tier0_entry_table d' !! n = builtin_tier0_entry_table d !! n
          /\ builtin_tier0_table d' !! n = builtin_tier0_table d !! n).
Proof.
  induction ids as [|i ids IH]; intros d d'; cbn.
  - intros [= <-]. do 4 (split; [done|]).
    split; [by intros ? ?%elem_of_nil | by intros].
  - unfold ToInt. destruct (Z.leb_spec 0 i) as [Hi|]; [|discriminate].
    destruct (builtin_entry_table d !! Z.to_nat i) as [entry|] eqn:He;
      [|discriminate]. cbn.
    destruct (store i entry (builtin_tier0_entry_table d)) as [t0e|] eqn:Hs1;
      [|discriminate]. cbn.
    destruct (builtin_table_slots (isolate d) !! Z.to_nat i) as [slot|] eqn:Hsl;
      [|discriminate]. cbn.
    destruct (store i slot (builtin_tier0_table d)) as [t0|] eqn:Hs2;
      [|discriminate]. cbn.
    apply store_Some in Hs1 as [Hr1 ->]. apply store_Some in Hs2 as [Hr2 ->].
    intros Hrest.
    destruct (IH _ _ Hrest) as (Hiso & Hentry & Hl1 & Hl2 & Hin & Hout).
    cbn in *. rewrite length_insert in Hl1, Hl2.
    do 4 (split; [done|]). split.
    + intros j [-> | Hj]%elem_of_cons; [|by apply Hin].
      split; [done|].
      destruct (decide (i ∈ ids)) as [Hi'|Hi']; [by apply Hin|].
      destruct (Hout (Z.to_nat i)) as [Ho1 Ho2].
      { intros j Hj Heq. apply Hi'. destruct (Hin j Hj) as [Hj0 _].
        assert (j = i) as -> by lia. done. }
      rewrite Ho1, Ho2, He, Hsl.
      rewrite !list_lookup_insert_eq by lia. eauto.
    + intros n Hn. destruct (Hout n) as [Ho1 Ho2].
      { intros j Hj. apply Hn, elem_of_cons. by right. }
      rewrite Ho1, Ho2.
      assert (Z.to_nat i <> n) by (apply Hn, elem_of_cons; by left).
      by rewrite !list_lookup_insert_ne by done.
Qed.

Lemma fill_entry_table_returns (iso : Isolate) (ids : list Builtin) :
  forall table,
    Forall (fun i =>
      0 <= i < Z.of_nat (length table)
      /\ exists c, code i iso = Some c
                   /\ IsBuiltinId (builtin_id c) = true
                   /\ has_instruction_stream c = false) ids ->
    is_Some (fill_entry_table iso ids table).
Proof.
  induction ids as [|i ids IH]; intros table Hall; cbn; [by eexists|].
  apply Forall_cons in Hall as [(Hi & c & Hc & Hid & Hstream) Hall].
  rewrite Hc, Hid, Hstream. cbn. unfold store, ToInt.
  rewrite (proj2 (Z.leb_le _ _)), (proj2 (Z.ltb_lt _ _)) by lia. cbn.
  apply IH. eapply Forall_impl; [exact Hall|].
  intros j. by rewrite length_insert.
Qed.

Lemma mirror_tier0_returns (ids : list Builtin) :
  forall d,
    Forall (fun i =>
      0 <= i < Z.of_nat (length (builtin_entry_table d))
      /\ i < Z.of_nat (length (builtin_tier0_entry_table d))
      /\ i < Z.of_nat (length (builtin_table_slots (isolate d)))
      /\ i < Z.of_nat (length (builtin_tier0_table d))) ids ->
    is_Some (mirror_tier0 ids d).
Proof.
  induction ids as [|i ids IH]; intros d Hall; cbn; [by eexists|].
  apply Forall_cons in Hall as [(Hi & H1 & H2 & H3) Hall]. unfold ToInt.
  rewrite (proj2 (Z.leb_le _ _)) by lia.
  destruct (lookup_lt_is_Some_2 (builtin_entry_table d) (Z.to_nat i))
    as [entry ->]; [lia|].
  destruct (lookup_lt_is_Some_2 (builtin_table_slots (isolate d)) (Z.to_nat i))
    as [slot ->]; [lia|].
  cbn. unfold store.
  rewrite (proj2 (Z.leb_le _ _)), !(proj2 (Z.ltb_lt _ _)) by lia. cbn.
  apply IH. cbn. eapply Forall_impl; [exact Hall|].
  intros j. by rewrite !length_insert.
Qed.

(** X6. When [InitializeIsolateDataTables] returns, the entry of every
    builtin in the entry table is its instruction start, every code object
    was a builtin without an instruction stream, and for every index up to
    [kLastTier0] the tier-0 entry table mirrors the entry table and the
    tier-0 table mirrors the builtin table; the builtin table itself and
    the entries of the tier-0 tables beyond [kLastTier0] are as they were.
    It returns whenever the tables are large enough and the code objects
    pass its checks. *)
Theorem InitializeIsolateDataTables_mirror (d : IsolateData) :
  (forall d',
     InitializeIsolateDataTables d = Some d' ->
     isolate d' = isolate d
     /\ (forall i, IsBuiltinId i = true ->
           builtin_entry_table d' !! Z.to_nat i = Some (InstructionStartOf i)
           /\ exists c, code i (isolate d) = Some c
                        /\ IsBuiltinId (builtin_id c) = true
                        /\ has_instruction_stream c = false)
     /\ (forall i, 0 <= i <= kLastTier0 ->
           is_Some (builtin_tier0_entry_table d' !! Z.to_nat i)
           /\ builtin_tier0_entry_table d' !! Z.to_nat i
              = builtin_entry_table d' !! Z.to_nat i
           /\ builtin_tier0_table d' !! Z.to_nat i
              = builtin_table_slots (isolate d) !! Z.to_nat i)
     /\ (forall n, kLastTier0 < Z.of_nat n ->
           builtin_tier0_entry_table d' !! n = builtin_tier0_entry_table d !! n
           /\ builtin_tier0_table d' !! n = builtin_tier0_table d !! n))
  /\ (kBuiltinCount <= Z.of_nat (length (builtin_entry_table d)) ->
      kLastTier0 < kBuiltinCount ->
      kLastTier0 < Z.of_nat (length (builtin_tier0_entry_table d)) ->
      kLastTier0 < Z.of_nat (length (builtin_tier0_table d)) ->
      kLastTier0 < Z.of_nat (length (builtin_table_slots (isolate d))) ->
      (forall i, IsBuiltinId i = true ->
         exists c, code i (isolate d) = Some c
                   /\ IsBuiltinId (builtin_id c) = true
                   /\ has_instruction_stream c = false) ->
      is_Some (InitializeIsolateDataTables d)).
Proof.
  unfold Builtins.InitializeIsolateDataTables, kFirst. split.
  - intros d'.
    destruct (fill_entry_table (isolate d) (seqZ 0 kBuiltinCount)
                (builtin_entry_table d)) as [entry|] eqn:Hfill; [|discriminate].
    cbn. intros Hmirror.
    apply fill_entry_table_Some in Hfill as (_ & Hin & _).
    apply mirror_tier0_Some in Hmirror
      as (Hiso & Hentry & _ & _ & Hmin & Hmout). cbn in *.
    split; [done|]. split; [|split].
    + intros i Hi%IsBuiltinId_bounds. rewrite Hentry.
      apply Hin, elem_of_seqZ. lia.
    + intros i Hi.
      destruct (Hmin i) as (_ & Hsome & He & _ & Ht);
        [apply elem_of_seqZ; lia|].
      by rewrite Hentry.
    + intros n Hn. apply Hmout. intros i Hi%elem_of_seqZ. lia.
  - intros Hlen Hlast Hl1 Hl2 Hl3 Hcodes.
    destruct (fill_entry_table_returns (isolate d) (seqZ 0 kBuiltinCount)
                (builtin_entry_table d)) as [entry Hfill].
    { apply Forall_seqZ. intros i Hi. split; [lia|].
      apply Hcodes, IsBuiltinId_bounds. lia. }
    rewrite Hfill. cbn.
    apply fill_entry_table_Some in Hfill as (Hlen' & _).
    apply mirror_tier0_returns. cbn. apply Forall_seqZ. intros i Hi.
    rewrite Hlen'. lia.
Qed.

End Tables.

(** *** Code-creation events *)

Section Events.

Variable kFirstBytecodeHandler : Builtin.
Variable Bytecodes_ToString : Z -> Z -> string.

Local Abbreviation builtin_name := (builtin_name builtin_metadata).
Local Abbreviation emit_builtins :=
  (emit_builtins builtin_metadata kSystemPointerSize).
Local Abbreviation emit_bytecode_handlers :=
  (emit_bytecode_handlers builtin_metadata kSystemPointerSize
     Bytecodes_ToString).
Local Abbreviation EmitCodeCreateEvents :=
  (EmitCodeCreateEvents builtin_metadata kSystemPointerSize
     kFirstBytecodeHandler Bytecodes_ToString).

Lemma emit_builtins_Some (iso : Isolate) (ids : list Z) :
  forall events,
    emit_builtins iso ids = Some events ->
    length events = length ids
    /\ forall k i, ids !! k = Some i ->
         IsBuiltinId i = true
         /\ exists n, builtin_name i = Some n
                      /\ events !! k
                         = Some {| event_tag := kBuiltin;
                                   event_code := code_handle i iso;
                                   event_name := n |}.
Proof.
  induction ids as [|i ids IH]; intros events; cbn.
  - intros [= <-]. split; [done|]. intros k i. by rewrite lookup_nil.
  - unfold FromInt. destruct (builtin_name i) as [n|] eqn:Hn; [|discriminate].
    cbn. destruct (emit_builtins iso ids) as [rest|] eqn:Hrest; [|discriminate].
    cbn. intros [= <-]. destruct (IH _ eq_refl) as (Hlen & Hall).
    split; [cbn; congruence|].
    intros [|k] j; cbn.
    + intros [= <-]. split; [|eauto].
      unfold Builtins.builtin_name, Builtins.metadata_of in Hn.
      by destruct (IsBuiltinId i).
    + apply Hall.
Qed.

Lemma emit_bytecode_handlers_Some (iso : Isolate) (ids : list Z) :
  forall events,
    emit_bytecode_handlers iso ids = Some events ->
    length events = length ids
    /\ forall k i, ids !! k = Some i ->
         exists m bytecode scale,
           metadata_of i = Some m
           /\ data m = bytecode_and_scale bytecode scale
           /\ events !! k
              = Some {| event_tag := kBytecodeHandler;
                        event_code := code_handle i iso;
                        event_name := Bytecodes_ToString bytecode scale |}.
Proof.
  induction ids as [|i ids IH]; intros events; cbn.
  - intros [= <-]. split; [done|]. intros k i. by rewrite lookup_nil.
  - destruct (metadata_of i) as [m|] eqn:Hm; [|discriminate]. cbn.
    destruct (data m) as [| |bytecode scale] eqn:Hd; try discriminate.
    destruct (emit_bytecode_handlers iso ids) as [rest|] eqn:Hrest;
      [|discriminate].
    cbn. intros [= <-]. destruct (IH _ eq_refl) as (Hlen & Hall).
    split; [cbn; congruence|].
    intros [|k] j; cbn.
    + intros [= <-]. eauto 6.
    + apply Hall.
Qed.

(** X7. [EmitCodeCreateEvents] emits nothing when code creation is not
    logged. Otherwise, when it returns, it has emitted exactly one event
    per builtin, in the order of the builtin ids, each with the handle of
    the builtin's slot: a builtin event with the builtin's name below
    [kFirstBytecodeHandler], a bytecode-handler event named after the
    entry's bytecode and scale from there on. *)
Theorem EmitCodeCreateEvents_one_per_builtin
    (logging : bool) (iso : Isolate) (events : list CodeCreateEvent) :
  EmitCodeCreateEvents logging iso = Some events ->
  (logging = false -> events = [])
  /\ (logging = true ->
      Z.of_nat (length events) = kBuiltinCount
      /\ kFirstBytecodeHandler <= kBuiltinCount
      /\ forall i, IsBuiltinId i = true ->
           exists e,
             events !! Z.to_nat i = Some e
             /\ event_code e = code_handle i iso
             /\ (i < kFirstBytecodeHandler ->
                 event_tag e = kBuiltin
                 /\ builtin_name i = Some (event_name e))
             /\ (kFirstBytecodeHandler <= i ->
                 event_tag e = kBytecodeHandler
                 /\ exists m bytecode scale,
                      metadata_of i = Some m
                      /\ data m = bytecode_and_scale bytecode scale
                      /\ event_name e = Bytecodes_ToString bytecode scale)).
Proof.
  unfold Builtins.EmitCodeCreateEvents, ToInt.
  destruct logging; cbn [negb]; [|intros [= <-]; by split].
  set (first := Z.max 0 kFirstBytecodeHandler).
  destruct (emit_builtins iso (seqZ 0 first)) as [builtins|] eqn:Hb;
    [|discriminate]. cbn.
  destruct (emit_bytecode_handlers iso (seqZ first (kBuiltinCount - first)))
    as [handlers|] eqn:Hh; [|discriminate]. cbn.
  intros [= <-]. split; [discriminate|]. intros _.
  apply emit_builtins_Some in Hb as (Hlb & Hb).
  apply emit_bytecode_handlers_Some in Hh as (Hlh & Hh).
  rewrite length_seqZ in Hlb, Hlh.
  assert (Hfirst : first <= kBuiltinCount).
  { destruct (Z.le_gt_cases first kBuiltinCount) as [|Hgt]; [done|].
    assert (Hk : 0 <= kBuiltinCount)
      by (unfold Builtins.kBuiltinCount; lia).
    destruct (Hb (Z.to_nat kBuiltinCount) kBuiltinCount) as [Hid _].
    - apply lookup_seqZ. lia.
    - apply IsBuiltinId_bounds in Hid. lia. }
  split; [rewrite length_app; lia|]. split; [lia|].
  intros i Hi%IsBuiltinId_bounds.
  destruct (Z.lt_ge_cases i first) as [Hlt|Hge].
  - destruct (Hb (Z.to_nat i) i) as (_ & n & Hn & He); [apply lookup_seqZ; lia|].
    exists {| event_tag := kBuiltin; event_code := code_handle i iso;
              event_name := n |}.
    split; [|split; [done|split]].
    + rewrite lookup_app_l by lia. exact He.
    + intros _. by split.
    + lia.
  - destruct (Hh (Z.to_nat (i - first)) i)
      as (m & bytecode & scale & Hm & Hd & He); [apply lookup_seqZ; lia|].
    exists {| event_tag := kBytecodeHandler; event_code := code_handle i iso;
              event_name := Bytecodes_ToString bytecode scale |}.
    split; [|split; [done|split]].
    + rewrite lookup_app_r by lia.
      replace (Z.to_nat i - length builtins)%nat with (Z.to_nat (i - first))
        by lia.
      exact He.
    + lia.
    + intros _. split; [done|]. eauto 6.
Qed.

End Events.

(** *** The names of the kinds *)

(** X21. [KindNameOf] names the kind: two builtins with the same kind name
    have the same kind, and [IsCpp] holds of a builtin exactly when its
    kind name is CPP, which is exactly when its kind is CPP. The three
    return for the builtins and for nothing else. *)
Theorem KindNameOf_names_the_kind :
  (forall b1 b2 n,
     KindNameOf builtin_metadata b1 = Some n ->
     KindNameOf builtin_metadata b2 = Some n ->
     KindOf b1 = KindOf b2)
  /\ (forall b,
        (IsCpp builtin_metadata b = Some true
         <-> KindNameOf builtin_metadata b = Some "CPP"%string)
        /\ (IsCpp builtin_metadata b = Some true <-> KindOf b = Some CPP)
        /\ (is_Some (KindNameOf builtin_metadata b) <-> IsBuiltinId b = true)
        /\ (is_Some (IsCpp builtin_metadata b) <-> IsBuiltinId b = true)).
Proof.
  split.
  - intros b1 b2 n. unfold KindNameOf.
    destruct (KindOf b1) as [k1|], (KindOf b2) as [k2|]; cbn; try done.
    intros [= <-]. by destruct k1, k2.
  - intros b. unfold KindNameOf, IsCpp.
    assert (Hid : is_Some (KindOf b) <-> IsBuiltinId b = true).
    { unfold Builtins.KindOf. destruct (IsBuiltinId b) eqn:Hb.
      - split; [done|]. intros _.
        apply IsBuiltinId_bounds in Hb.
        destruct (lookup_lt_is_Some_2 builtin_metadata (Z.to_nat (ToInt b)))
          as [m Hm]; [unfold Builtins.kBuiltinCount, ToInt in *; lia|].
        rewrite Hm. by eexists.
      - split; [by intros [? ?] | done]. }
    destruct (KindOf b) as [k|]; cbn.
    + split; [|split; [|split]].
      * destruct k; cbn; split; intros [=]; done.
      * destruct k; cbn; split; intros [=]; done.
      * rewrite <- Hid. split; by eexists.
      * rewrite <- Hid. split; by eexists.
    + split; [done|]. split; [done|].
      split; (rewrite <- Hid; split; by intros [? ?]).
Qed.

End Registry.

(** *** The statements on the example registry *)

Lemma example_count_fits : kBuiltinCount example_metadata <= kMaxInt + 1.
Proof. vm_compute. discriminate. Qed.

Lemma example_declared : Forall declared example_metadata.
Proof.
  repeat apply Forall_cons_2; [| | | | |apply Forall_nil_2].
  - exact (declared_TFC "RecordWrite").
  - exact (declared_TFJ "ArrayPrototypeJoin" 1).
  - exact (declared_CPP "HandleApiCall" 65536).
  - exact (declared_TFS "StringIndexOf").
  - exact (declared_BCH "LdarHandler" 1 11).
Qed.

Lemma KindNameOf_names_the_kind_witness :
  IsCpp example_metadata 2 = Some true.
Proof.
  apply (proj1 (proj2 (KindNameOf_names_the_kind example_metadata) 2)).
  reflexivity.
Defined.

Lemma IsBuiltinHandle_inverse_witness :
  IsBuiltinId example_metadata 2 = true
  /\ code_handle 8 2 example_isolate = {| location := 4112 |}.
Proof.
  destruct (proj1 (IsBuiltinHandle_inverse example_metadata 8
                     example_count_fits ltac:(lia))
              example_isolate {| location := 4112 |} 0 2 eq_refl)
    as [Hid Hhandle].
  split; [exact Hid | apply Hhandle; reflexivity].
Defined.

Lemma set_code_then_code_witness :
  exists iso' c,
    set_code example_metadata example_HasHeapObjectTag 2 49 example_isolate
    = Some iso'
    /\ code 2 iso' = Some c /\ builtin_id c = 2.
Proof.
  destruct (set_code example_metadata example_HasHeapObjectTag 2 49
              example_isolate) as [iso'|] eqn:Hset;
    [|vm_compute in Hset; discriminate].
  destruct (set_code_then_code example_metadata 8 example_HasHeapObjectTag
              2 49 example_isolate iso' eq_refl Hset)
    as ((c & Hc & _ & Hid) & _).
  exists iso', c. split; [reflexivity|]. split; [exact Hc | exact Hid].
Defined.

Lemma kind_specific_data_witness :
  GetStackParameterCount example_metadata 1 = Some 1
  /\ CppEntryOf example_metadata 2 = Some 65536.
Proof.
  split.
  - apply (proj1 (proj2 (kind_specific_data example_metadata 1
                           example_declared))
             "ArrayPrototypeJoin" 1 eq_refl).
    vm_compute. split; [discriminate | reflexivity].
  - apply (proj2 (proj2 (proj2 (proj2 (kind_specific_data example_metadata 2
                                         example_declared))))
             "HandleApiCall" 65536 eq_refl).
Defined.

Lemma JS_linkage_witness :
  HasJSLinkage example_metadata (fun b => 100 + b) 7 1 = Some true
  /\ HasJSLinkage example_metadata (fun b => 100 + b) 7 4 = None.
Proof.
  split.
  - apply (proj1 (JS_linkage example_metadata 8 (fun b => 100 + b) 7 1)).
    by left.
  - apply (proj2 (proj2 (JS_linkage example_metadata 8 (fun b => 100 + b) 7 4))).
    reflexivity.
Defined.

Lemma Lookup_first_match_witness :
  Lookup example_metadata example_TryLookupCode example_contains
    example_builtins 250 = Some (Some "HandleApiCall")
  /\ Lookup example_metadata example_TryLookupCode example_contains
       (TearDown example_builtins) 250 = Some None.
Proof.
  destruct (Lookup_first_match example_metadata example_TryLookupCode
              example_contains example_builtins 250 eq_refl)
    as (Htorn & Hfirst & _).
  split; [|exact Htorn].
  assert (Hbefore : forall b', 0 <= b' < 2 ->
            exists c', code b' (isolate_ example_builtins) = Some c'
                       /\ example_contains c' 250 = false).
  { intros b' Hb'. assert (Hcases : b' = 0 \/ b' = 1) by lia.
    destruct Hcases as [-> | ->]; eexists; (split; [reflexivity|reflexivity]). }
  destruct (Hfirst eq_refl 2 {| builtin_id := 2 |} eq_refl eq_refl eq_refl
              Hbefore) as (n & Hn & Hlookup).
  injection Hn as <-. exact Hlookup.
Defined.

Lemma InitializeIsolateDataTables_mirror_witness :
  exists d',
    InitializeIsolateDataTables example_metadata example_InstructionStartOf 1
      example_has_instruction_stream example_data = Some d'
    /\ builtin_entry_table d' !! 4%nat = Some 1400
    /\ builtin_tier0_table d' !! 1%nat = Some 33.
Proof.
  destruct (InitializeIsolateDataTables example_metadata
              example_InstructionStartOf 1 example_has_instruction_stream
              example_data) as [d'|] eqn:Hinit;
    [|vm_compute in Hinit; discriminate].
  destruct (proj1 (InitializeIsolateDataTables_mirror example_metadata
                     example_InstructionStartOf 1
                     example_has_instruction_stream example_data) d' Hinit)
    as (_ & Hentry & Htier0 & _).
  exists d'. split; [reflexivity|]. split.
  - apply (Hentry 4 eq_refl).
  - destruct (Htier0 1 ltac:(lia)) as (_ & _ & Hslot). exact Hslot.
Defined.

Lemma EmitCodeCreateEvents_one_per_builtin_witness :
  exists events,
    EmitCodeCreateEvents example_metadata 8 4 example_Bytecodes_ToString
      true example_installed = Some events
    /\ Z.of_nat (length events) = 5.
Proof.
  destruct (EmitCodeCreateEvents example_metadata 8 4
              example_Bytecodes_ToString true example_installed)
    as [events|] eqn:Hemit; [|vm_compute in Hemit; discriminate].
  exists events. split; [reflexivity|].
  apply (proj2 (EmitCodeCreateEvents_one_per_builtin example_metadata 8 4
                  example_Bytecodes_ToString true example_installed events
                  Hemit) eq_refl).
Defined.

End RegistryFacts.

(** ** The tiering manager: decisions, arming and ticks *)

Module ControllerFacts.
Import TieringManager TieringFacts.

(** *** The tier a decision asks for *)

(** X8. [ShouldOptimize] only ever tiers up. With the Maglev flag on and an
    unoptimized active tier it answers Maglev, and for a function in the top
    tier it answers DoNotOptimize, in both cases before it looks at the
    shared function info, the OSR-code cache or the profiler ticks and
    without writing anything. Every answer that asks for optimization asks
    for a tier other than the active one: for the mid tier, not concurrent,
    exactly when the Maglev flag is on and the active tier is unoptimized,
    and otherwise for the top tier, concurrently, from below the top
    tier. *)
Theorem ShouldOptimize_tiers_up
    (s : Isolate) (f : nat) (kind : CodeKind) (frame : Frame) (o : JSFunction) :
  functions s !! f = Some o ->
  GetActiveTier o = Some kind ->
  (TiersUpToMaglev (flags s) kind = true ->
   ShouldOptimize f kind frame s = Some (Maglev, s))
  /\ (kind = TURBOFAN ->
      ShouldOptimize f kind frame s = Some (DoNotOptimize, s))
  /\ (forall d s',
        ShouldOptimize f kind frame s = Some (d, s') ->
        should_optimize d = true ->
        code_kind d <> kind
        /\ (TiersUpToMaglev (flags s) kind = true ->
            code_kind d = MAGLEV /\ concurrency_mode d = kNotConcurrent)
        /\ (TiersUpToMaglev (flags s) kind = false ->
            code_kind d = TURBOFAN /\ concurrency_mode d = kConcurrent
            /\ kind <> TURBOFAN)).
Proof.
  intros Ho Htier.
  assert (Hstart :
    ShouldOptimize f kind frame s =
    if TiersUpToMaglev (flags s) kind then Some (Maglev, s)
    else if bool_decide (kind = TURBOFAN) then Some (DoNotOptimize, s)
    else ShouldOptimize f kind frame s).
  { unfold ShouldOptimize at 1. exec.
    rewrite Htier, (bool_decide_eq_true_2 (Some kind = Some kind)) by done.
    exec. destruct (TiersUpToMaglev (flags s) kind) eqn:Hmaglev; [done|].
    destruct (bool_decide (kind = TURBOFAN)) eqn:Htop; [done|].
    unfold ShouldOptimize. exec.
    rewrite Htier, (bool_decide_eq_true_2 (Some kind = Some kind)) by done.
    exec. by rewrite Hmaglev, Htop. }
  split; [|split].
  - intros Hmaglev. by rewrite Hstart, Hmaglev.
  - intros ->. rewrite Hstart. unfold TiersUpToMaglev.
    cbn [CodeKindIsUnoptimizedJSFunction]. by rewrite andb_false_r.
  - intros d s' Hrun Hshould. rewrite Hstart in Hrun.
    destruct (TiersUpToMaglev (flags s) kind) eqn:Hmaglev.
    + injection Hrun as <- <-. split; [|split]; [|done|done].
      unfold TiersUpToMaglev in Hmaglev.
      apply andb_true_iff in Hmaglev as [_ Hkind]. by destruct kind.
    + destruct (bool_decide (kind = TURBOFAN)) eqn:Htop.
      { injection Hrun as <- <-. discriminate Hshould. }
      apply bool_decide_eq_false in Htop.
      assert (Hd : d = TurbofanHotAndStable \/ d = TurbofanSmallFunction).
      { revert Hrun. unfold ShouldOptimize, GetBytecodeOffsetsFromSFI.
        intros Hrun. inv_run. rewrite Hmaglev in *.
        rewrite (bool_decide_eq_false_2 (kind = TURBOFAN)) in * by done.
        inv_run.
        match goal with
        | Hc : (if ?c then _ else _) _ = Some _ |- _ => destruct c
        end.
        - inv_run.
          match goal with
          | Hl : osr_cache_loop _ _ _ _ _ = Some _ |- _ =>
              apply osr_cache_loop_Some in Hl as [(-> & -> & _) | (-> & _)]
          end.
          + inv_all; auto. discriminate Hshould.
          + inv_run. auto.
        - inv_all; auto. discriminate Hshould. }
      split; [|split]; [|done|].
      * destruct Hd as [-> | ->]; cbn; congruence.
      * intros _. by destruct Hd as [-> | ->].
Qed.

Lemma ShouldOptimize_tiers_up_witness :
  ShouldOptimize 0%nat INTERPRETED_FUNCTION (scenario_frame 10) maglev_function
  = Some (Maglev, maglev_function).
Proof.
  apply (proj1 (ShouldOptimize_tiers_up maglev_function 0%nat
                  INTERPRETED_FUNCTION (scenario_frame 10)
                  (scenario_function None false false) eq_refl eq_refl)).
  reflexivity.
Defined.

(** *** Arming the back edges *)

(** X9. When on-stack replacement is in use, the function is user
    JavaScript and optimization is not disabled,
    [AttemptOnStackReplacement] on an unoptimized frame returns and stores
    what the eight-bit field keeps of the old level plus the requested
    levels, clamped to the marker. When the marker fits the field and that
    sum is an [int] and not negative, the new level is exactly the smaller
    of the sum and the marker, so it lies between 0 and the marker; a
    request that is not negative then never lowers a level below the
    marker and leaves a level at the marker there. Only the nesting level
    of the frame's bytecode array is written, and the call is logged. On
    an optimized frame the same call fails its check. *)
Theorem AttemptOnStackReplacement_arms
    (kMaxLoopNestingMarker : Z) (s : Isolate) (frame : Frame) (levels : Z)
    (o : JSFunction) (sfi : SharedFunctionInfo) (bytecode : BytecodeArray) :
  functions s !! function frame = Some o ->
  shared_function_infos s !! shared o = Some sfi ->
  bytecode_arrays s !! GetBytecodeArray frame = Some bytecode ->
  FLAG_use_osr (flags s) = true ->
  IsUserJavaScript sfi = true ->
  optimization_disabled sfi = false ->
  let level := osr_loop_nesting_level bytecode in
  (is_unoptimized frame = false ->
   AttemptOnStackReplacement kMaxLoopNestingMarker frame levels s = None)
  /\ (is_unoptimized frame = true ->
      exists s' bytecode',
        AttemptOnStackReplacement kMaxLoopNestingMarker frame levels s
        = Some (tt, s')
        /\ bytecode_arrays s' !! GetBytecodeArray frame = Some bytecode'
        /\ osr_loop_nesting_level bytecode'
           = uint8 (Z.min (int32 (level + levels)) kMaxLoopNestingMarker)
        /\ 0 <= osr_loop_nesting_level bytecode' <= 255
        /\ (0 <= kMaxLoopNestingMarker <= 255 ->
            is_int32 (level + levels) -> 0 <= level + levels ->
            osr_loop_nesting_level bytecode'
            = Z.min (level + levels) kMaxLoopNestingMarker
            /\ 0 <= osr_loop_nesting_level bytecode' <= kMaxLoopNestingMarker
            /\ (0 <= levels ->
                Z.min level kMaxLoopNestingMarker
                <= osr_loop_nesting_level bytecode')
            /\ (0 <= levels -> level = kMaxLoopNestingMarker ->
                osr_loop_nesting_level bytecode' = kMaxLoopNestingMarker))
        /\ bytecode_length bytecode' = bytecode_length bytecode
        /\ bytecodes bytecode' = bytecodes bytecode
        /\ (forall b, b <> GetBytecodeArray frame ->
              bytecode_arrays s' !! b = bytecode_arrays s !! b)
        /\ functions s' = functions s
        /\ shared_function_infos s' = shared_function_infos s
        /\ calls s'
           = calls s ++ [CallAttemptOnStackReplacement frame levels]).
Proof.
  intros Ho Hsfi Hbc Hosr Huser Hdisabled level.
  rewrite (AttemptOnStackReplacement_run _ _ _ _ _ _ Ho Hsfi). cbv zeta.
  rewrite Hosr, Huser, Hdisabled, Hbc. cbn [negb orb].
  split; [by intros ->|]. intros ->.
  eexists _, _. split; [reflexivity|].
  split; [apply lookup_insert_eq|]. subst level.
  cbn [osr_loop_nesting_level bytecode_length bytecodes bytecode_arrays
       functions shared_function_infos calls with_osr_level
       set_bytecode_arrays set_calls].
  split; [done|]. split; [|split].
  - unfold uint8. pose proof (Z.mod_pos_bound
      (Z.min (int32 (osr_loop_nesting_level bytecode + levels))
         kMaxLoopNestingMarker) (2 ^ 8)). lia.
  - intros Hmarker Hsum Hnonneg. rewrite (int32_id _ Hsum).
    assert (uint8 (Z.min (osr_loop_nesting_level bytecode + levels)
                     kMaxLoopNestingMarker)
            = Z.min (osr_loop_nesting_level bytecode + levels)
                kMaxLoopNestingMarker) as ->
      by (unfold uint8; apply Z.mod_small; lia).
    split; [done|]. split; [lia|]. split; lia.
  - do 2 (split; [done|]). split; [|done].
    intros b Hb. by apply lookup_insert_ne.
Qed.

Lemma AttemptOnStackReplacement_arms_witness :
  exists s' bytecode',
    AttemptOnStackReplacement 6 (scenario_frame 80) 4 (cached_loop true true 5)
    = Some (tt, s')
    /\ bytecode_arrays s' !! 0%nat = Some bytecode'
    /\ osr_loop_nesting_level bytecode' = 6.
Proof.
  destruct (proj2 (AttemptOnStackReplacement_arms 6 (cached_loop true true 5)
                     (scenario_frame 80) 4
                     (scenario_function (ticked 1) false false)
                     (scenario_shared true false kCached)
                     (scenario_bytecode 200 5)
                     eq_refl eq_refl eq_refl eq_refl eq_refl eq_refl) eq_refl)
    as (s' & bytecode' & Hrun & Hat & _ & _ & Hlevel & _).
  exists s', bytecode'. split; [exact Hrun|]. split; [exact Hat|].
  destruct Hlevel as [Hlevel _]; [lia | | |].
  - vm_compute. split; discriminate.
  - vm_compute. discriminate.
  - rewrite Hlevel. reflexivity.
Defined.

(** *** What a decision may write *)

Lemma marks_added_refl o : marks_added o o.
Proof. by repeat split. Qed.

Lemma marks_added_trans o1 o2 o3 :
  marks_added o1 o2 -> marks_added o2 o3 -> marks_added o1 o3.
Proof.
  intros (? & ? & ? & ? & ? & ? & ? & ? & ?) (? & ? & ? & ? & ? & ? & ? & ? & ?).
  unfold marks_added. do 7 (split; [congruence|]). split; auto.
Qed.

Lemma marks_added_marked mode o : marks_added o (marked mode o).
Proof.
  unfold marks_added, marked. cbn. do 7 (split; [done|]).
  split; intros H; by destruct mode.
Qed.

Lemma level_changed_refl bytecode : level_changed bytecode bytecode.
Proof. by split. Qed.

Lemma decision_effect_refl f s : decision_effect f s s.
Proof.
  unfold decision_effect. do 8 (split; [done|]). split; [done|].
  split; [|split; [|done]].
  - intros o Ho. exists o. split; [done | apply marks_added_refl].
  - intros b bytecode Hb. exists bytecode. split; [done | apply level_changed_refl].
Qed.

Lemma decision_effect_trans f s1 s2 s3 :
  decision_effect f s1 s2 -> decision_effect f s2 s3 -> decision_effect f s1 s3.
Proof.
  intros (? & ? & ? & ? & ? & ? & ? & Hc1 & Hg1 & Hf1 & Hb1 & Hn1)
         (? & ? & ? & ? & ? & ? & ? & Hc2 & Hg2 & Hf2 & Hb2 & Hn2).
  unfold decision_effect. do 7 (split; [congruence|]).
  split; [by etrans|]. split; [|split; [|split]].
  - intros g Hg. by rewrite Hg2, Hg1.
  - intros o Ho. destruct (Hf1 o Ho) as (o2 & Ho2 & Hm2).
    destruct (Hf2 o2 Ho2) as (o3 & Ho3 & Hm3).
    exists o3. split; [done | by eapply marks_added_trans].
  - intros b bytecode Hb. destruct (Hb1 b bytecode Hb) as (b2 & Hb2' & [? ?]).
    destruct (Hb2 b b2 Hb2') as (b3 & Hb3 & [? ?]).
    exists b3. split; [done|]. split; congruence.
  - intros b Hb. auto.
Qed.

Lemma decision_effect_recorded f c s :
  decision_effect f s (set_calls (calls s ++ [c]) s).
Proof.
  unfold decision_effect. cbn. do 7 (split; [done|]).
  split; [by apply prefix_app_r|]. split; [done|].
  split; [|split; [|done]].
  - intros o Ho. exists o. split; [done | apply marks_added_refl].
  - intros b bytecode Hb. exists bytecode. split; [done | apply level_changed_refl].
Qed.

Lemma decision_effect_level f b depth old s :
  bytecode_arrays s !! b = Some old ->
  decision_effect f s (with_osr_level b depth old s).
Proof.
  intros Hold. unfold decision_effect. cbn. do 8 (split; [done|]).
  split; [done|]. split; [|split].
  - intros o Ho. exists o. split; [done | apply marks_added_refl].
  - intros b' bytecode Hb'. destruct (decide (b' = b)) as [-> | Hne].
    + rewrite lookup_insert_eq. eexists. split; [done|].
      assert (bytecode = old) as -> by congruence. by split.
    + rewrite lookup_insert_ne by done. exists bytecode.
      split; [done | apply level_changed_refl].
  - intros b' Hb'. destruct (decide (b' = b)) as [-> | Hne]; [congruence|].
    by rewrite lookup_insert_ne.
Qed.

Lemma decision_effect_marked f mode o s :
  functions s !! f = Some o ->
  decision_effect f s (set_functions (<[f := marked mode o]> (functions s)) s).
Proof.
  intros Ho. unfold decision_effect. cbn. do 8 (split; [done|]).
  split; [|split; [|split; [|done]]].
  - intros g Hg. by rewrite lookup_insert_ne.
  - intros o0 Ho0. assert (o0 = o) as -> by congruence.
    exists (marked mode o). split; [apply lookup_insert_eq|].
    apply marks_added_marked.
  - intros b bytecode Hb. exists bytecode. split; [done | apply level_changed_refl].
Qed.

(** A finished [AttemptOnStackReplacement] has logged the call and has
    written at most the nesting level of the frame's bytecode array. *)
Lemma AttemptOnStackReplacement_effect kMax f frame levels s u s' :
  AttemptOnStackReplacement kMax frame levels s = Some (u, s') ->
  decision_effect f s s'
  /\ functions s' = functions s
  /\ calls s' = calls s ++ [CallAttemptOnStackReplacement frame levels].
Proof.
  unfold AttemptOnStackReplacement, record. intros H.
  apply bind_Some in H as (? & s1 & ->%modify_Some & H).
  pose proof (decision_effect_recorded f
                (CallAttemptOnStackReplacement frame levels) s) as Hrec.
  apply bind_Some in H as (o & ? & [Ho ->]%load_function_Some & H).
  apply bind_Some in H as (sfi & ? & [Hsfi ->]%load_shared_Some & H).
  apply bind_Some in H as (? & ? & [-> ->]%get_Some & H).
  destruct (negb _ || negb _); [by apply ret_Some in H as [_ ->]|].
  destruct (optimization_disabled sfi); [by apply ret_Some in H as [_ ->]|].
  apply bind_Some in H as (? & ? & [_ ->]%DCHECK_Some & H).
  apply bind_Some in H as (bytecode & ? & [Hb ->]%load_bytecode_array_Some & H).
  apply set_osr_loop_nesting_level_Some in H as (old & Hold & ->).
  split; [|done]. eapply decision_effect_trans; [exact Hrec|].
  by apply decision_effect_level.
Qed.

(** A finished [MaybeOSR] answers whether the function is pending and has
    either written nothing or made its one call. *)
Lemma MaybeOSR_effect kMax f frame s o answer s' :
  functions s !! f = Some o ->
  MaybeOSR kMax f frame s = Some (answer, s') ->
  answer = pending o
  /\ (s' = s
      \/ answer = true
         /\ AttemptOnStackReplacement kMax frame 1 s = Some (tt, s')).
Proof.
  intros Ho. unfold MaybeOSR. intros H.
  apply bind_Some in H as (o0 & ? & [Ho0 ->]%load_function_Some & H).
  assert (o0 = o) as -> by congruence.
  apply bind_Some in H as (v & ? & [Hv ->]%value_Some & H).
  fold (pending o) in H. destruct (pending o).
  - apply bind_Some in H as (sfi & ? & [Hsfi ->]%load_shared_Some & H).
    apply bind_Some in H as (bytecode & ? & [Hb ->]%load_bytecode_array_Some & H).
    apply bind_Some in H as (u & s1 & H & [-> ->]%ret_Some).
    split; [done|]. destruct (_ <=? _).
    + right. split; [done|]. by destruct u.
    + left. by apply ret_Some in H as [_ ->].
  - apply ret_Some in H as [-> ->]. split; [done | by left].
Qed.

(** A finished [ShouldOptimize] has given one of the four decisions and
    has written at most a nesting level. *)
Lemma ShouldOptimize_effect f kind frame s d s' :
  ShouldOptimize f kind frame s = Some (d, s') ->
  decision_effect f s s'
  /\ functions s' = functions s
  /\ calls s' = calls s
  /\ (d = Maglev \/ d = TurbofanHotAndStable \/ d = TurbofanSmallFunction
      \/ d = DoNotOptimize).
Proof.
  intros H.
  assert (Hd : d = Maglev \/ d = TurbofanHotAndStable
               \/ d = TurbofanSmallFunction \/ d = DoNotOptimize).
  { revert H. unfold ShouldOptimize, GetBytecodeOffsetsFromSFI. intros H.
    inv_run. inv_case; [inv_run; auto|]. inv_case; [inv_run; auto|].
    inv_run.
    match goal with
    | Hc : (if ?c then _ else _) _ = Some _ |- _ => destruct c
    end.
    - inv_run.
      match goal with
      | Hl : osr_cache_loop _ _ _ _ _ = Some _ |- _ =>
          apply osr_cache_loop_Some in Hl as [(-> & -> & _) | (-> & _)]
      end; inv_all; auto.
    - inv_all; auto. }
  apply ShouldOptimize_Some in H
    as [[-> _] | (-> & o & sfi & operand & old & _ & _ & _ & _ & Hold & ->)].
  - split; [apply decision_effect_refl | done].
  - split; [by apply decision_effect_level | done].
Qed.

(** A finished [Optimize] has made its one call and has marked the
    function. *)
Lemma Optimize_effect f kind d s o u s' :
  functions s !! f = Some o ->
  Optimize f kind d s = Some (u, s') ->
  should_optimize d = true
  /\ decision_effect f s s'
  /\ functions s' = <[f := marked (concurrency_mode d) o]> (functions s)
  /\ calls s'
     = calls s ++ [CallMarkForOptimization f (code_kind d) (concurrency_mode d)].
Proof.
  intros Ho. unfold Optimize, MarkForOptimization, record, store_function.
  intros H.
  apply bind_Some in H as (? & ? & [Hd ->]%DCHECK_Some & H).
  apply bind_Some in H as (? & ? & ->%modify_Some & H).
  apply bind_Some in H as (o0 & ? & [Ho0 ->]%load_function_Some & H).
  assert (o0 = o) as -> by (cbn in Ho0; congruence).
  apply modify_Some in H as ->. split; [done|]. split; [|split].
  - eapply decision_effect_trans; [apply decision_effect_recorded|].
    by apply (decision_effect_marked f (concurrency_mode d) o).
  - done.
  - done.
Qed.

(** *** One frame, at most one mark *)

(** A finished [MaybeOptimizeFrame] has written nothing but nesting levels
    and marks of its function, and has made at most one call to
    [AttemptOnStackReplacement] followed by at most one call to
    [MarkForOptimization]. *)
Lemma MaybeOptimizeFrame_Some
    (kMaxLoopNestingMarker : Z) (s : Isolate) (f : nat) (frame : Frame)
    (kind : CodeKind) (o : JSFunction) (u : unit) (s' : Isolate) :
  functions s !! f = Some o ->
  MaybeOptimizeFrame kMaxLoopNestingMarker f frame kind s = Some (u, s') ->
  decision_effect f s s'
  /\ exists osr mark,
       calls s' = calls s ++ osr ++ mark
       /\ (osr = []
           \/ is_unoptimized frame = true
              /\ osr = [CallAttemptOnStackReplacement frame
                          (if FLAG_always_osr (flags s)
                           then kMaxLoopNestingMarker else 1)])
       /\ (mark = [] /\ functions s' = functions s
           \/ exists d,
                (d = Maglev \/ d = TurbofanHotAndStable
                 \/ d = TurbofanSmallFunction)
                /\ mark = [CallMarkForOptimization f (code_kind d)
                             (concurrency_mode d)]
                /\ functions s'
                   = <[f := marked (concurrency_mode d) o]> (functions s)
                /\ IsInOptimizationQueue o = false
                /\ (exists sfi,
                      shared_function_infos s !! shared o = Some sfi
                      /\ optimization_disabled sfi = false)
                /\ (FLAG_testing_d8_test_runner (flags s) = true ->
                    shared o ∈ pending_optimization_allowed s))
       /\ (is_unoptimized frame = true ->
           FLAG_always_osr (flags s) = false ->
           pending o = true -> mark = []).
Proof.
  intros Ho. unfold MaybeOptimizeFrame, IsHeuristicOptimizationAllowed.
  intros H.
  assert (Hnothing : s' = s ->
    decision_effect f s s'
    /\ exists osr mark,
         calls s' = calls s ++ osr ++ mark
         /\ (osr = []
             \/ is_unoptimized frame = true
                /\ osr = [CallAttemptOnStackReplacement frame
                            (if FLAG_always_osr (flags s)
                             then kMaxLoopNestingMarker else 1)])
         /\ (mark = [] /\ functions s' = functions s
             \/ exists d,
                  (d = Maglev \/ d = TurbofanHotAndStable
                   \/ d = TurbofanSmallFunction)
                  /\ mark = [CallMarkForOptimization f (code_kind d)
                               (concurrency_mode d)]
                  /\ functions s'
                     = <[f := marked (concurrency_mode d) o]> (functions s)
                  /\ IsInOptimizationQueue o = false
                  /\ (exists sfi,
                        shared_function_infos s !! shared o = Some sfi
                        /\ optimization_disabled sfi = false)
                  /\ (FLAG_testing_d8_test_runner (flags s) = true ->
                      shared o ∈ pending_optimization_allowed s))
         /\ (is_unoptimized frame = true ->
             FLAG_always_osr (flags s) = false ->
             pending o = true -> mark = [])).
  { intros ->. split; [apply decision_effect_refl|]. exists [], [].
    split; [by rewrite !app_nil_r|]. split; [by left|].
    split; [by left | done]. }
  apply bind_Some in H as (o0 & ? & [Ho0 ->]%load_function_Some & H).
  assert (o0 = o) as -> by congruence.
  destruct (IsInOptimizationQueue o) eqn:Hqueue;
    [apply ret_Some in H as [_ ->]; by apply Hnothing|].
  apply bind_Some in H as (? & ? & [-> ->]%get_Some & H).
  apply bind_Some in H as (allowed & s0 & Hallowed & H).
  apply bind_Some in Hallowed as (o0 & ? & [Ho0' ->]%load_function_Some & Hallowed).
  assert (o0 = o) as -> by congruence.
  apply bind_Some in Hallowed as (? & ? & [-> ->]%get_Some & Hallowed).
  apply ret_Some in Hallowed as [-> ->].
  destruct (FLAG_testing_d8_test_runner (flags s)
            && negb (bool_decide (shared o ∈ pending_optimization_allowed s)))
    eqn:Hgate; [apply ret_Some in H as [_ ->]; by apply Hnothing|].
  assert (Hallowed : FLAG_testing_d8_test_runner (flags s) = true ->
                     shared o ∈ pending_optimization_allowed s).
  { intros Hrunner. rewrite Hrunner in Hgate. cbn in Hgate.
    by apply negb_false_iff, bool_decide_eq_true in Hgate. }
  apply bind_Some in H as (sfi & ? & [Hsfi ->]%load_shared_Some & H).
  destruct (optimization_disabled sfi) eqn:Hdisabled;
    [apply ret_Some in H as [_ ->]; by apply Hnothing|].
  apply bind_Some in H as (done & s1 & Hosr & H).
  (* the part for on-stack replacement *)
  assert (Hfirst :
    decision_effect f s s1 /\ functions s1 = functions s
    /\ (exists osr,
          calls s1 = calls s ++ osr
          /\ (osr = []
              \/ is_unoptimized frame = true
                 /\ osr = [CallAttemptOnStackReplacement frame
                             (if FLAG_always_osr (flags s)
                              then kMaxLoopNestingMarker else 1)]))
    /\ (is_unoptimized frame = true -> FLAG_always_osr (flags s) = false ->
        done = pending o)).
  { destruct (is_unoptimized frame) eqn:Hframe.
    - destruct (FLAG_always_osr (flags s)) eqn:Halways.
      + apply bind_Some in Hosr as (? & ? & Hosr & [-> ->]%ret_Some).
        apply (AttemptOnStackReplacement_effect _ f) in Hosr
          as (Heffect & Hfns & Hcalls).
        split; [done|]. split; [done|]. split; [|done].
        eexists. split; [exact Hcalls|]. by right.
      + apply (MaybeOSR_effect _ _ _ _ _ _ _ Ho) in Hosr
          as [-> [-> | [_ Hosr]]].
        * split; [apply decision_effect_refl|]. split; [done|].
          split; [|done]. exists []. split; [by rewrite app_nil_r | by left].
        * apply (AttemptOnStackReplacement_effect _ f) in Hosr
            as (Heffect & Hfns & Hcalls).
          split; [done|]. split; [done|]. split; [|done].
          eexists. split; [exact Hcalls|]. by right.
    - apply ret_Some in Hosr as [-> ->].
      split; [apply decision_effect_refl|]. split; [done|].
      split; [|done]. exists []. split; [by rewrite app_nil_r | by left]. }
  destruct Hfirst as (Heffect1 & Hfns1 & (osr & Hcalls1 & Hosr_shape) & Hdone).
  destruct done.
  { apply ret_Some in H as [_ ->]. split; [done|]. exists osr, [].
    split; [by rewrite app_nil_r|]. split; [done|]. split; [by left | done]. }
  apply bind_Some in H as (d & s2 & Hdecide & H).
  apply ShouldOptimize_effect in Hdecide as (Heffect2 & Hfns2 & Hcalls2 & Hd).
  assert (Heffect12 : decision_effect f s s2)
    by (by eapply decision_effect_trans).
  destruct (should_optimize d) eqn:Hshould.
  - assert (Ho2 : functions s2 !! f = Some o) by (by rewrite Hfns2, Hfns1).
    apply (Optimize_effect _ _ _ _ _ _ _ Ho2) in H
      as (_ & Heffect3 & Hfns3 & Hcalls3).
    split; [by eapply decision_effect_trans|].
    exists osr, [CallMarkForOptimization f (code_kind d) (concurrency_mode d)].
    split; [by rewrite Hcalls3, Hcalls2, Hcalls1, <- app_assoc|].
    split; [done|]. split.
    + right. exists d. split.
      { destruct Hd as [-> | [-> | [-> | ->]]]; auto. discriminate Hshould. }
      split; [done|]. split; [by rewrite Hfns3, Hfns2, Hfns1|].
      split; [done|]. split; [by exists sfi | done].
    + intros Hframe Halways Hpending.
      specialize (Hdone Hframe Halways). congruence.
  - apply ret_Some in H as [_ ->]. split; [done|]. exists osr, [].
    split; [by rewrite Hcalls2, Hcalls1, app_nil_r|]. split; [done|].
    split; [left; split; [done | by rewrite Hfns2, Hfns1] | done].
Qed.

Lemma pending_marked mode o : pending (marked mode o) = true.
Proof.
  unfold pending, marked. cbn. destruct mode; [done|].
  by rewrite orb_true_r.
Qed.

Lemma marks_added_pending o o' :
  marks_added o o' -> pending o = true -> pending o' = true.
Proof.
  intros (_ & _ & _ & _ & _ & Hcode & _ & Hmark & Hconcurrent). unfold pending.
  rewrite Hcode. intros [[H | H]%orb_true_iff | H]%orb_true_iff.
  - by rewrite (Hmark H).
  - by rewrite (Hconcurrent H), orb_true_r.
  - by rewrite H, orb_true_r.
Qed.

Lemma count_marks_app f l1 l2 :
  count_marks f (l1 ++ l2) = (count_marks f l1 + count_marks f l2)%nat.
Proof. induction l1 as [|c l1 IH]; cbn; [done | rewrite IH; lia]. Qed.

(** X10. What [MaybeOptimizeFrame] may write and whom it may mark. A
    finished run has written nothing but nesting levels and marks of its
    own function. Every call to [MarkForOptimization] it has made is for
    that function, asks for the mid tier not concurrently or for the top
    tier concurrently, and leaves the function carrying that mark; there is
    at most one such call, and none for a function that is in the
    optimization queue, whose optimization is disabled, or that the test
    runner does not allow. Every call to [AttemptOnStackReplacement] it has
    made is for its own, unoptimized, frame: for one level, or for the
    marker under [always_osr]. If it has marked nothing, no function has
    changed. *)
Theorem MaybeOptimizeFrame_marks_only_its_function
    (kMaxLoopNestingMarker : Z) (s : Isolate) (f : nat) (frame : Frame)
    (kind : CodeKind) (o : JSFunction) (u : unit) (s' : Isolate) :
  functions s !! f = Some o ->
  MaybeOptimizeFrame kMaxLoopNestingMarker f frame kind s = Some (u, s') ->
  decision_effect f s s'
  /\ exists added,
       calls s' = calls s ++ added
       /\ (forall g, (count_marks g added <= 1)%nat)
       /\ (forall g k m,
             CallMarkForOptimization g k m ∈ added ->
             g = f
             /\ (k = MAGLEV /\ m = kNotConcurrent
                 \/ k = TURBOFAN /\ m = kConcurrent)
             /\ IsInOptimizationQueue o = false
             /\ (exists sfi,
                   shared_function_infos s !! shared o = Some sfi
                   /\ optimization_disabled sfi = false)
             /\ (FLAG_testing_d8_test_runner (flags s) = true ->
                 shared o ∈ pending_optimization_allowed s)
             /\ exists o',
                  functions s' !! f = Some o'
                  /\ (m = kNotConcurrent -> IsMarkedForOptimization o' = true)
                  /\ (m = kConcurrent ->
                      IsMarkedForConcurrentOptimization o' = true))
       /\ (forall frame' levels,
             CallAttemptOnStackReplacement frame' levels ∈ added ->
             frame' = frame /\ is_unoptimized frame = true
             /\ levels = if FLAG_always_osr (flags s)
                         then kMaxLoopNestingMarker else 1)
       /\ (count_marks f added = 0%nat -> functions s' = functions s).
Proof.
  intros Ho Hrun.
  destruct (MaybeOptimizeFrame_Some _ _ _ _ _ _ _ _ Ho Hrun)
    as (Heffect & osr & mark & Hcalls & Hosr & Hmark & _).
  split; [done|]. exists (osr ++ mark). split; [done|].
  assert (Hosr_marks : forall g, count_marks g osr = 0%nat).
  { intros g. by destruct Hosr as [-> | [_ ->]]. }
  split; [|split; [|split]].
  - intros g. rewrite count_marks_app, Hosr_marks.
    destruct Hmark as [[-> _] | (d & _ & -> & _)]; cbn; [lia|].
    destruct (bool_decide (f = g)); lia.
  - intros g k m [Hin | Hin]%elem_of_app.
    { destruct Hosr as [-> | [_ ->]];
        [by apply elem_of_nil in Hin|].
      by apply list_elem_of_singleton in Hin. }
    destruct Hmark as [[-> _] | (d & Hd & -> & Hfns & Hqueue & Hsfi & Hallowed)];
      [by apply elem_of_nil in Hin|].
    apply list_elem_of_singleton in Hin. injection Hin as -> -> ->.
    split; [done|]. split; [by destruct Hd as [-> | [-> | ->]]; auto|].
    do 3 (split; [done|]). exists (marked (concurrency_mode d) o).
    split; [rewrite Hfns; apply lookup_insert_eq|].
    split; cbn; by intros ->.
  - intros frame' levels [Hin | Hin]%elem_of_app.
    + destruct Hosr as [-> | [Hframe ->]]; [by apply elem_of_nil in Hin|].
      apply list_elem_of_singleton in Hin. by injection Hin as -> ->.
    + destruct Hmark as [[-> _] | (d & _ & -> & _)];
        [by apply elem_of_nil in Hin|].
      by apply list_elem_of_singleton in Hin.
  - rewrite count_marks_app, Hosr_marks.
    destruct Hmark as [[-> ?] | (d & _ & -> & _)]; [done|]. cbn.
    by rewrite (bool_decide_eq_true_2 (f = f)).
Qed.

(** *** No function is marked twice *)

Lemma same_marks_pending o o' : same_marks o o' -> pending o' = pending o.
Proof.
  intros (_ & _ & _ & Hmark & Hconcurrent & Hcode & _). unfold pending.
  by rewrite Hmark, Hconcurrent, Hcode.
Qed.

Lemma marked_once_unmarked s s' added :
  functions s' = functions s ->
  calls s' = calls s ++ added ->
  (forall f, count_marks f added = 0%nat) ->
  marked_once s s' added.
Proof.
  intros Hfns Hcalls Hnone. split; [done|]. intros f. rewrite Hnone, Hfns.
  split; [lia|]. split; [done|]. intros o Ho. exists o.
  split; [done|]. split; [done | discriminate].
Qed.

Lemma marked_once_trans s1 s2 s3 added1 added2 :
  marked_once s1 s2 added1 -> marked_once s2 s3 added2 ->
  marked_once s1 s3 (added1 ++ added2).
Proof.
  intros [Hcalls1 H1] [Hcalls2 H2].
  split; [by rewrite Hcalls2, Hcalls1, <- app_assoc|].
  intros f. rewrite count_marks_app.
  destruct (H1 f) as (Hle1 & Hnone1 & Hsome1).
  destruct (H2 f) as (Hle2 & Hnone2 & Hsome2).
  destruct (functions s1 !! f) as [o|] eqn:Ho.
  - destruct (Hsome1 o eq_refl) as (o2 & Ho2 & Hpending1 & Hmarked1).
    destruct (Hsome2 o2 Ho2) as (o3 & Ho3 & Hpending2 & Hmarked2).
    assert (Hcases :
      (count_marks f added1 = 1%nat -> count_marks f added2 = 0%nat)).
    { intros Hc. by apply Hpending2, Hmarked1. }
    split; [lia|]. split; [done|]. intros ? [= <-]. exists o3.
    split; [done|]. split.
    + intros Hp. destruct (Hpending1 Hp) as [Hp2 ->].
      destruct (Hpending2 Hp2) as [Hp3 ->]. done.
    + intros Hsum.
      destruct (decide (count_marks f added1 = 1%nat)) as [Hc | Hc].
      * by apply Hpending2, Hmarked1.
      * apply Hmarked2. lia.
  - destruct (Hnone1 eq_refl) as [Ho2 ->].
    destruct (Hnone2 Ho2) as [Ho3 ->].
    split; [lia|]. split; [done | discriminate].
Qed.

Lemma housekeeping_marked_once g s s' o :
  functions s !! g = Some o -> housekeeping g s s' -> marked_once s s' [].
Proof.
  intros Hat (_ & _ & _ & _ & _ & _ & _ & Hcalls & Hothers & Hg).
  split; [by rewrite app_nil_r|]. intros f. cbn. split; [lia|].
  destruct (decide (f = g)) as [-> | Hne].
  - split; [congruence|].
    intros o0 Ho. destruct (Hg o0 Ho) as (o' & Ho' & Hmarks).
    exists o'. split; [done|]. rewrite (same_marks_pending _ _ Hmarks).
    split; [done | discriminate].
  - rewrite (Hothers f Hne). split; [done|]. intros o0 Ho. exists o0.
    split; [done|]. split; [done | discriminate].
Qed.

(** [MaybeOptimizeFrame] on an unoptimized frame, without [always_osr]. *)
Lemma MaybeOptimizeFrame_marked_once kMax g frame kind s u s' :
  is_unoptimized frame = true ->
  FLAG_always_osr (flags s) = false ->
  MaybeOptimizeFrame kMax g frame kind s = Some (u, s') ->
  exists added, marked_once s s' added.
Proof.
  intros Hframe Halways Hrun.
  assert (Hat : exists o, functions s !! g = Some o).
  { revert Hrun. unfold MaybeOptimizeFrame. intros Hrun.
    apply bind_Some in Hrun as (o & ? & [Ho _]%load_function_Some & _). eauto. }
  destruct Hat as [o Ho].
  destruct (MaybeOptimizeFrame_Some _ _ _ _ _ _ _ _ Ho Hrun)
    as (Heffect & osr & mark & Hcalls & Hosr & Hmark & Hpending).
  specialize (Hpending Hframe Halways).
  destruct Heffect as (_ & _ & _ & _ & _ & _ & _ & _ & Hothers & Hg & _).
  exists (osr ++ mark). split; [done|]. intros f.
  rewrite count_marks_app.
  assert (count_marks f osr = 0%nat) as -> by (by destruct Hosr as [-> | [_ ->]]).
  destruct (decide (f = g)) as [-> | Hne].
  - destruct Hmark as [[-> Hfns] | (d & _ & -> & Hfns & _)]; cbn.
    + rewrite Hfns. split; [lia|]. split; [congruence|].
      intros o0 Ho0. exists o0. split; [done|]. split; [done | discriminate].
    + rewrite (bool_decide_eq_true_2 (g = g)) by done. split; [lia|].
      split; [congruence|]. intros o0 Ho0. assert (o0 = o) as -> by congruence.
      exists (marked (concurrency_mode d) o).
      split; [rewrite Hfns; apply lookup_insert_eq|]. split.
      * intros Hp. by specialize (Hpending Hp).
      * intros _. apply pending_marked.
  - rewrite (Hothers f Hne).
    assert (count_marks f mark = 0%nat) as ->.
    { destruct Hmark as [[-> _] | (d & _ & -> & _)]; [done|]. cbn.
      by rewrite (bool_decide_eq_false_2 (g = f)) by congruence. }
    split; [lia|]. split; [done|]. intros o0 Ho0. exists o0.
    split; [done|]. split; [done | discriminate].
Qed.

(** Any one operation. *)
Lemma run_marked_once kMax op s u s' :
  on_unoptimized_frame op ->
  FLAG_always_osr (flags s) = false ->
  run kMax op s = Some (u, s') ->
  flags s' = flags s /\ exists added, marked_once s s' added.
Proof.
  intros Hframe Halways. destruct op as [g frame|g frame kind|g kind frame|frame n];
    cbn [run on_unoptimized_frame] in *.
  - intros Htick.
    apply OnInterruptTick_Some in Htick
      as (o & s1 & Ho & Hk
          & [[_ ->] | (_ & _ & Hunopt & o1 & kind & s2 & Ho1 & _ & Hrun & ->)]).
    + split; [apply Hk|]. exists []. by eapply housekeeping_marked_once.
    + assert (Hflags : flags s1 = flags s) by apply Hk.
      assert (Hflags2 : flags s2 = flags s1).
      { by destruct (MaybeOptimizeFrame_Some _ _ _ _ _ _ _ _ Ho1 Hrun)
          as ((? & _) & _). }
      split; [cbn; congruence|].
      assert (Halways1 : FLAG_always_osr (flags s1) = false) by congruence.
      destruct (MaybeOptimizeFrame_marked_once _ _ _ _ _ _ _ Hunopt
                  Halways1 Hrun) as (added & Hadded).
      exists ([] ++ added ++ []).
      eapply marked_once_trans; [by eapply housekeeping_marked_once|].
      eapply marked_once_trans; [exact Hadded|].
      apply marked_once_unmarked; [done | by rewrite app_nil_r | done].
  - intros Hrun.
    assert (Hat : exists o, functions s !! g = Some o).
    { revert Hrun. unfold MaybeOptimizeFrame. intros Hrun.
      apply bind_Some in Hrun as (o & ? & [Ho _]%load_function_Some & _). eauto. }
    destruct Hat as [o Ho]. destruct u. split.
    + by destruct (MaybeOptimizeFrame_Some _ _ _ _ _ _ _ _ Ho Hrun)
        as ((? & _) & _).
    + by eapply MaybeOptimizeFrame_marked_once.
  - intros Hrun. apply bind_Some in Hrun as (d & s1 & Hrun & [_ ->]%ret_Some).
    apply ShouldOptimize_effect in Hrun as ((? & _) & Hfns & Hcalls & _).
    split; [done|]. exists [].
    apply marked_once_unmarked; [done | by rewrite app_nil_r | done].
  - intros Hrun.
    apply (AttemptOnStackReplacement_effect _ 0%nat) in Hrun
      as ((? & _) & Hfns & Hcalls).
    split; [done|]. eexists.
    apply marked_once_unmarked; [done | exact Hcalls | done].
Qed.

(** X16. No function is marked twice. Over any sequence of ticks, calls of
    [MaybeOptimizeFrame] on unoptimized frames, [ShouldOptimize] and
    [AttemptOnStackReplacement] that runs to its end without [always_osr],
    every function is the subject of at most one call to
    [MarkForOptimization]; a function that is marked for optimization or
    has optimized code at the start is the subject of none, and a function
    that has been the subject of one is marked afterwards. Calls are only
    added to the log, and no function goes away. *)
Theorem every_function_marked_at_most_once
    (kMaxLoopNestingMarker : Z) (s : Isolate) (ops : list Operation)
    (s' : Isolate) :
  steps kMaxLoopNestingMarker s ops s' ->
  Forall on_unoptimized_frame ops ->
  FLAG_always_osr (flags s) = false ->
  exists added,
    calls s' = calls s ++ added
    /\ forall f,
         (count_marks f added <= 1)%nat
         /\ (functions s !! f = None ->
             functions s' !! f = None /\ count_marks f added = 0%nat)
         /\ (forall o,
               functions s !! f = Some o ->
               exists o',
                 functions s' !! f = Some o'
                 /\ (pending o = true ->
                     pending o' = true /\ count_marks f added = 0%nat)
                 /\ (count_marks f added = 1%nat -> pending o' = true)).
Proof.
  intros Hsteps. induction Hsteps as [s | s op s1 ops s2 Hrun Hsteps IH].
  - intros _ _. exists [].
    apply (marked_once_unmarked s s []); [done | by rewrite app_nil_r | done].
  - intros [Hop Hops]%Forall_cons Halways.
    destruct (run_marked_once _ _ _ _ _ Hop Halways Hrun)
      as (Hflags & added1 & H1).
    destruct (IH Hops ltac:(congruence)) as (added2 & H2).
    exists (added1 ++ added2).
    exact (marked_once_trans _ _ _ _ _ H1 H2).
Qed.

Lemma MaybeOptimizeFrame_marks_only_its_function_witness :
  exists s',
    MaybeOptimizeFrame 6 0%nat (scenario_frame 10) INTERPRETED_FUNCTION
      (cold_or_hot 9) = Some (tt, s')
    /\ decision_effect 0%nat (cold_or_hot 9) s'.
Proof.
  destruct (MaybeOptimizeFrame 6 0%nat (scenario_frame 10)
              INTERPRETED_FUNCTION (cold_or_hot 9)) as [[[] s']|] eqn:Hrun;
    [|vm_compute in Hrun; discriminate].
  exists s'. split; [reflexivity|].
  apply (MaybeOptimizeFrame_marks_only_its_function 6 (cold_or_hot 9) 0%nat
           (scenario_frame 10) INTERPRETED_FUNCTION
           (scenario_function (ticked 9) false false) tt s' eq_refl Hrun).
Defined.

Lemma every_function_marked_at_most_once_witness :
  exists s' added,
    run_all 6 [OpOnInterruptTick 0%nat (scenario_frame 10);
               OpOnInterruptTick 0%nat (scenario_frame 10)]
      (cold_or_hot 8) = Some s'
    /\ calls s' = calls (cold_or_hot 8) ++ added
    /\ (count_marks 0%nat added <= 1)%nat.
Proof.
  destruct (run_all 6 [OpOnInterruptTick 0%nat (scenario_frame 10);
                       OpOnInterruptTick 0%nat (scenario_frame 10)]
              (cold_or_hot 8)) as [s'|] eqn:Hrun;
    [|vm_compute in Hrun; discriminate].
  destruct (every_function_marked_at_most_once 6 (cold_or_hot 8) _ s'
              (run_all_steps _ _ _ _ Hrun)) as (added & Hcalls & Hmarks).
  - repeat constructor.
  - reflexivity.
  - exists s', added. split; [reflexivity|]. split; [exact Hcalls|].
    apply (Hmarks 0%nat).
Defined.

(** *** The bookkeeping of a tick *)

Lemma updated_same f o s :
  functions s !! f = Some o -> updated f o (baseline_batch_compiler s) s s.
Proof.
  intros Ho. unfold updated. do 9 (split; [done|]). by rewrite insert_id.
Qed.

Lemma updated_trans f o1 q1 o2 q2 s s1 s2 :
  updated f o1 q1 s s1 -> updated f o2 q2 s1 s2 -> updated f o2 q2 s s2.
Proof.
  intros (? & ? & ? & ? & ? & ? & ? & ? & ? & Hf1)
         (? & ? & ? & ? & ? & ? & ? & ? & ? & Hf2).
  unfold updated. do 8 (split; [congruence|]). split; [done|].
  by rewrite Hf2, Hf1, insert_insert_eq.
Qed.

Lemma updated_function f o' q s s' :
  updated f o' q s s' -> functions s' !! f = Some o'.
Proof.
  intros (_ & _ & _ & _ & _ & _ & _ & _ & _ & ->). apply lookup_insert_eq.
Qed.

Lemma updated_stored f o' s :
  updated f o' (baseline_batch_compiler s) s
    (set_functions (<[f := o']> (functions s)) s).
Proof. by unfold updated. Qed.

Lemma seeded_fields fl o :
  shared (seeded fl o) = shared o
  /\ native_context (seeded fl o) = native_context o
  /\ GetActiveTier (seeded fl o) = GetActiveTier o
  /\ IsInOptimizationQueue (seeded fl o) = IsInOptimizationQueue o
  /\ IsMarkedForOptimization (seeded fl o) = IsMarkedForOptimization o
  /\ IsMarkedForConcurrentOptimization (seeded fl o)
     = IsMarkedForConcurrentOptimization o
  /\ HasAvailableOptimizedCode (seeded fl o) = HasAvailableOptimizedCode o.
Proof. unfold seeded. by destruct (bool_decide _). Qed.

Lemma after_baseline_fields fl sfi o :
  shared (after_baseline fl sfi o) = shared o
  /\ native_context (after_baseline fl sfi o) = native_context o
  /\ feedback_vector (after_baseline fl sfi o) = feedback_vector o
  /\ interrupt_budget (after_baseline fl sfi o) = interrupt_budget o
  /\ IsInOptimizationQueue (after_baseline fl sfi o) = IsInOptimizationQueue o
  /\ IsMarkedForOptimization (after_baseline fl sfi o)
     = IsMarkedForOptimization o
  /\ IsMarkedForConcurrentOptimization (after_baseline fl sfi o)
     = IsMarkedForConcurrentOptimization o
  /\ HasAvailableOptimizedCode (after_baseline fl sfi o)
     = HasAvailableOptimizedCode o.
Proof. unfold after_baseline. by destruct (_ && _ && _). Qed.

(** The first part of a tick. *)
Lemma seed_exact f s o u s' :
  functions s !! f = Some o ->
  (if bool_decide (is_Some (feedback_vector o)) then SetInterruptBudget f
   else CreateAndAttachFeedbackVector f;; set_invocation_count f 1) s
  = Some (u, s') ->
  updated f (seeded (flags s) o) (baseline_batch_compiler s) s s'.
Proof.
  intros Ho. unfold seeded.
  destruct (bool_decide (is_Some (feedback_vector o))) eqn:Hhad.
  - unfold SetInterruptBudget, InterruptBudgetFor, store_function. intros H.
    apply bind_Some in H as (budget & s1 & Hbudget & H).
    apply bind_Some in Hbudget
      as (o0 & ? & [Ho0 ->]%load_function_Some & Hbudget).
    assert (o0 = o) as -> by congruence.
    apply bind_Some in Hbudget as (? & ? & [-> ->]%get_Some & Hbudget).
    rewrite Hhad in Hbudget. apply ret_Some in Hbudget as [-> ->].
    apply bind_Some in H as (o0 & ? & [Ho0' ->]%load_function_Some & H).
    assert (o0 = o) as -> by congruence.
    apply modify_Some in H as ->. apply updated_stored.
  - unfold CreateAndAttachFeedbackVector, SetInterruptBudget,
      InterruptBudgetFor, set_invocation_count, store_function.
    intros H. apply bind_Some in H as (? & s1 & Hcreate & H).
    apply bind_Some in Hcreate
      as (o0 & ? & [Ho0 ->]%load_function_Some & Hcreate).
    assert (o0 = o) as -> by congruence.
    apply bind_Some in Hcreate as (? & ? & ->%modify_Some & Hcreate).
    apply bind_Some in Hcreate as (budget & ? & Hbudget & Hcreate).
    apply bind_Some in Hbudget
      as (o1 & ? & [Ho1 ->]%load_function_Some & Hbudget).
    cbn in Ho1. rewrite lookup_insert_eq in Ho1. injection Ho1 as <-.
    apply bind_Some in Hbudget as (? & ? & [-> ->]%get_Some & Hbudget).
    cbn [feedback_vector with_feedback_vector] in Hbudget.
    rewrite (bool_decide_eq_true_2 (is_Some (Some _))) in Hbudget
      by (by eexists).
    apply ret_Some in Hbudget as [-> ->].
    apply bind_Some in Hcreate
      as (o2 & ? & [Ho2 ->]%load_function_Some & ->%modify_Some).
    cbn in Ho2. rewrite lookup_insert_eq in Ho2. injection Ho2 as <-.
    apply bind_Some in H as (o3 & ? & [Ho3 ->]%load_function_Some & H).
    cbn in Ho3. rewrite lookup_insert_eq in Ho3. injection Ho3 as <-.
    apply bind_Some in H as (v & ? & [Hv ->]%value_Some & ->%modify_Some).
    cbn in Hv. injection Hv as <-.
    unfold updated. cbn. do 9 (split; [done|]).
    by rewrite !insert_insert_eq.
Qed.

(** The baseline part of a tick. *)
Lemma baseline_exact f s o sfi u s' :
  functions s !! f = Some o ->
  shared_function_infos s !! shared o = Some sfi ->
  (if wants_baseline sfi o
   then if FLAG_baseline_batch_compilation (flags s)
        then EnqueueFunction f else CompileBaseline f
   else mret tt) s = Some (u, s') ->
  updated f (after_baseline (flags s) sfi o)
    (queue_after_baseline (flags s) sfi o f (baseline_batch_compiler s)) s s'.
Proof.
  intros Ho Hsfi. unfold after_baseline, queue_after_baseline.
  destruct (wants_baseline sfi o); cbn [andb].
  - destruct (FLAG_baseline_batch_compilation (flags s)); cbn [negb andb].
    + unfold EnqueueFunction. intros ->%modify_Some.
      unfold updated. cbn. do 9 (split; [done|]). by rewrite insert_id.
    + unfold CompileBaseline, store_function. intros H.
      apply bind_Some in H as (o0 & ? & [Ho0 ->]%load_function_Some & H).
      assert (o0 = o) as -> by congruence.
      apply bind_Some in H as (sfi0 & ? & [Hsfi0 ->]%load_shared_Some & H).
      assert (sfi0 = sfi) as -> by congruence.
      destruct (baseline_compile_succeeds sfi).
      * apply modify_Some in H as ->. unfold updated. cbn.
        do 9 (split; [done|]). f_equal.
        unfold with_active_tier, baseline_tier.
        by destruct (GetActiveTier o) as [[]|].
      * apply ret_Some in H as [_ ->]. by apply updated_same.
  - intros [_ ->]%ret_Some. by apply updated_same.
Qed.

(** [SaturatingIncrementProfilerTicks]. *)
Lemma SaturatingIncrementProfilerTicks_exact f s o u s' :
  functions s !! f = Some o ->
  SaturatingIncrementProfilerTicks f s = Some (u, s') ->
  is_Some (feedback_vector o)
  /\ updated f (counted o) (baseline_batch_compiler s) s s'.
Proof.
  intros Ho. unfold SaturatingIncrementProfilerTicks, store_function.
  intros H.
  apply bind_Some in H as (o0 & ? & [Ho0 ->]%load_function_Some & H).
  assert (o0 = o) as -> by congruence.
  apply bind_Some in H as (v & ? & [Hv ->]%value_Some & ->%modify_Some).
  split; [by exists v|]. unfold counted, saturating_increment. rewrite Hv.
  apply updated_stored.
Qed.

Lemma wants_baseline_seeded fl sfi o :
  wants_baseline sfi (seeded fl o) = wants_baseline sfi o.
Proof.
  unfold wants_baseline.
  by rewrite (proj1 (proj2 (proj2 (seeded_fields fl o)))).
Qed.

(** A finished tick has seeded the function and handed it to the baseline
    compiler; if the function had a feedback vector and the optimizer is
    enabled it has then counted the tick, run [MaybeOptimizeFrame] and
    reset [any_ic_changed_]. *)
Lemma OnInterruptTick_exact kMax f frame s o sfi u s' :
  functions s !! f = Some o ->
  shared_function_infos s !! shared o = Some sfi ->
  OnInterruptTick kMax f frame s = Some (u, s') ->
  let o2 := after_baseline (flags s) sfi (seeded (flags s) o) in
  let q2 :=
    queue_after_baseline (flags s) sfi o f (baseline_batch_compiler s) in
  (feedback_vector o = None \/ use_optimizer s = false)
  /\ updated f o2 q2 s s'
  \/ is_Some (feedback_vector o) /\ use_optimizer s = true
     /\ is_unoptimized frame = true
     /\ exists kind s3 s4,
          GetActiveTier o2 = Some kind
          /\ updated f (counted o2) q2 s s3
          /\ MaybeOptimizeFrame kMax f frame kind s3 = Some (tt, s4)
          /\ s' = set_any_ic_changed false s4.
Proof.
  intros Ho Hsfi H o2 q2. unfold OnInterruptTick in H.
  apply bind_Some in H as (o0 & ? & [Ho0 ->]%load_function_Some & H).
  assert (o0 = o) as -> by congruence.
  apply bind_Some in H as (u1 & s1 & Hseed & H).
  apply (seed_exact _ _ _ _ _ Ho) in Hseed.
  pose proof (updated_function _ _ _ _ _ Hseed) as Ho1.
  pose proof Hseed as (Hflags1 & Huse1 & Hsfis1 & _ & _ & _ & _ & _ & Hq1 & _).
  destruct (seeded_fields (flags s) o) as (Hshared1 & _).
  apply bind_Some in H as (o1 & ? & [Ho1' ->]%load_function_Some & H).
  assert (o1 = seeded (flags s) o) as -> by congruence.
  apply bind_Some in H as (? & ? & [_ ->]%DCHECK_Some & H).
  apply bind_Some in H as (sfi1 & ? & [Hsfi1 ->]%load_shared_Some & H).
  assert (sfi1 = sfi) as -> by (rewrite Hsfis1, Hshared1 in Hsfi1; congruence).
  apply bind_Some in H as (? & ? & [_ ->]%load_bytecode_array_Some & H).
  apply bind_Some in H as (? & ? & [-> ->]%get_Some & H).
  apply bind_Some in H as (u2 & s2 & Hbaseline & H).
  fold (wants_baseline sfi (seeded (flags s) o)) in Hbaseline.
  apply (baseline_exact _ _ _ _ _ _ Ho1) in Hbaseline;
    [|by rewrite Hsfis1, Hshared1].
  unfold queue_after_baseline in Hbaseline.
  rewrite wants_baseline_seeded, Hflags1, Hq1 in Hbaseline.
  fold (queue_after_baseline (flags s) sfi o f (baseline_batch_compiler s))
    in Hbaseline.
  fold q2 in Hbaseline. fold o2 in Hbaseline.
  pose proof (updated_trans _ _ _ _ _ _ _ _ Hseed Hbaseline) as Hu2.
  pose proof (updated_function _ _ _ _ _ Hu2) as Ho2.
  pose proof Hu2 as (_ & Huse2 & _ & _ & _ & _ & _ & _ & Hq2 & _).
  destruct (bool_decide (is_Some (feedback_vector o))) eqn:Hhad;
    cbn [negb] in H.
  - apply bool_decide_eq_true in Hhad.
    apply bind_Some in H as (? & ? & [-> ->]%get_Some & H).
    rewrite Huse2 in H. destruct (use_optimizer s) eqn:Huse; cbn [negb] in H.
    + right. do 2 (split; [done|]).
      apply bind_Some in H as (u4 & s4 & H & ->%modify_Some).
      apply bind_Some in H as (? & s3 & Hcount & H).
      apply (SaturatingIncrementProfilerTicks_exact _ _ _ _ _ Ho2) in Hcount
        as [_ Hcount].
      rewrite Hq2 in Hcount.
      pose proof (updated_trans _ _ _ _ _ _ _ _ Hu2 Hcount) as Hu3.
      pose proof (updated_function _ _ _ _ _ Hu3) as Ho3.
      apply bind_Some in H as (? & ? & [Hframe ->]%DCHECK_Some & H).
      apply bind_Some in H as (o3 & ? & [Ho3' ->]%load_function_Some & H).
      assert (o3 = counted o2) as -> by congruence.
      apply bind_Some in H as (kind & ? & [Hkind ->]%value_Some & H).
      destruct u4. split; [done|]. by exists kind, s3, s4.
    + left. apply ret_Some in H as [_ ->]. split; [by right | done].
  - left. apply bool_decide_eq_false in Hhad.
    apply ret_Some in H as [_ ->]. split; [|done]. left.
    destruct (feedback_vector o); [|done]. exfalso. apply Hhad. eauto.
Qed.

(** The function and the queue after a finished tick. *)
Lemma OnInterruptTick_function kMax f frame s o sfi u s' :
  functions s !! f = Some o ->
  shared_function_infos s !! shared o = Some sfi ->
  OnInterruptTick kMax f frame s = Some (u, s') ->
  let o2 := after_baseline (flags s) sfi (seeded (flags s) o) in
  exists o',
    functions s' !! f = Some o'
    /\ marks_added
         (if bool_decide (is_Some (feedback_vector o)) && use_optimizer s
          then counted o2 else o2) o'
    /\ baseline_batch_compiler s'
       = queue_after_baseline (flags s) sfi o f (baseline_batch_compiler s)
    /\ (forall g, g <> f -> functions s' !! g = functions s !! g)
    /\ (feedback_vector o = None \/ use_optimizer s = false ->
        o' = o2 /\ calls s' = calls s
        /\ bytecode_arrays s' = bytecode_arrays s).
Proof.
  intros Ho Hsfi Htick o2.
  destruct (OnInterruptTick_exact _ _ _ _ _ _ _ _ Ho Hsfi Htick)
    as [[Hearly Hu]
       | (Hhad & Huse & _ & kind & s3 & s4 & _ & Hu & Hrun & ->)];
    fold o2 in Hu.
  - exists o2. split; [by eapply updated_function|].
    assert (bool_decide (is_Some (feedback_vector o)) && use_optimizer s
            = false) as ->.
    { destruct Hearly as [-> | ->]; [|by rewrite andb_false_r].
      by rewrite (bool_decide_eq_false_2 (is_Some None))
        by (by intros [? ?]). }
    split; [apply marks_added_refl|].
    destruct Hu as (_ & _ & _ & Hb & _ & _ & _ & Hcalls & Hq & Hfns).
    split; [done|]. split; [|done].
    intros g Hg. by rewrite Hfns, lookup_insert_ne.
  - pose proof (updated_function _ _ _ _ _ Hu) as Ho3.
    destruct (MaybeOptimizeFrame_Some _ _ _ _ _ _ _ _ Ho3 Hrun)
      as ((_ & _ & _ & _ & _ & Hq4 & _ & _ & Hothers & Hf & _) & _).
    destruct (Hf _ Ho3) as (o4 & Ho4 & Hmarks).
    exists o4. split; [done|].
    rewrite (bool_decide_eq_true_2 _ Hhad), Huse. split; [done|].
    destruct Hu as (_ & _ & _ & _ & _ & _ & _ & _ & Hq & Hfns).
    split; [cbn; congruence|]. split.
    + intros g Hg. cbn. by rewrite (Hothers g Hg), Hfns, lookup_insert_ne.
    + intros [Hnone | Hoff]; [|congruence].
      destruct Hhad as [v Hv]. congruence.
Qed.

(** X13. The first tick of a function only allocates its feedback. When
    a function without a feedback vector is ticked and the tick returns,
    the function has a feedback vector with no profiler ticks and
    invocation count 1; its marks, its optimized code and its place in the
    optimization queue are as they were; no call to [MarkForOptimization]
    or [AttemptOnStackReplacement] has been made and no nesting level has
    changed, whatever the flags and however small or hot the function is.
    With a shared function info and a bytecode array in place the tick
    does return. *)
Theorem OnInterruptTick_first_tick
    (kMaxLoopNestingMarker : Z) (s : Isolate) (f : nat) (frame : Frame)
    (o : JSFunction) (sfi : SharedFunctionInfo) :
  functions s !! f = Some o ->
  shared_function_infos s !! shared o = Some sfi ->
  feedback_vector o = None ->
  (forall bytecode,
     bytecode_arrays s !! bytecode_array sfi = Some bytecode ->
     exists s', OnInterruptTick kMaxLoopNestingMarker f frame s = Some (tt, s'))
  /\ (forall u s',
        OnInterruptTick kMaxLoopNestingMarker f frame s = Some (u, s') ->
        calls s' = calls s
        /\ bytecode_arrays s' = bytecode_arrays s
        /\ (forall g, g <> f -> functions s' !! g = functions s !! g)
        /\ exists o',
             functions s' !! f = Some o'
             /\ feedback_vector o'
                = Some {| profiler_ticks := 0; invocation_count := 1 |}
             /\ shared o' = shared o
             /\ native_context o' = native_context o
             /\ IsInOptimizationQueue o' = IsInOptimizationQueue o
             /\ IsMarkedForOptimization o' = IsMarkedForOptimization o
             /\ IsMarkedForConcurrentOptimization o'
                = IsMarkedForConcurrentOptimization o
             /\ HasAvailableOptimizedCode o' = HasAvailableOptimizedCode o).
Proof.
  intros Ho Hsfi Hnone. split.
  - intros bytecode Hbc.
    apply (OnInterruptTick_returns kMaxLoopNestingMarker f frame s o sfi
             bytecode Ho Hsfi Hbc). by left.
  - intros u s' Htick.
    destruct (OnInterruptTick_function _ _ _ _ _ _ _ _ Ho Hsfi Htick)
      as (o' & Ho' & _ & _ & Hothers & Hearly).
    destruct (Hearly (or_introl Hnone)) as (-> & Hcalls & Hbc).
    do 3 (split; [done|]). eexists. split; [exact Ho'|].
    destruct (after_baseline_fields (flags s) sfi (seeded (flags s) o))
      as (-> & -> & -> & _ & -> & -> & -> & ->).
    destruct (seeded_fields (flags s) o) as (-> & -> & _ & -> & -> & -> & ->).
    unfold seeded. rewrite Hnone.
    by rewrite (bool_decide_eq_false_2 (is_Some None)) by (by intros [? ?]).
Qed.

Lemma OnInterruptTick_first_tick_witness :
  exists s' o',
    OnInterruptTick 6 0%nat (scenario_frame 10) first_tick = Some (tt, s')
    /\ functions s' !! 0%nat = Some o'
    /\ feedback_vector o'
       = Some {| profiler_ticks := 0; invocation_count := 1 |}.
Proof.
  destruct (OnInterruptTick_first_tick 6 first_tick 0%nat (scenario_frame 10)
              (scenario_function None false false)
              (scenario_shared true false kNotCached)
              eq_refl eq_refl eq_refl) as [Hreturns Hfinished].
  destruct (Hreturns (scenario_bytecode 40 0) eq_refl) as (s' & Htick).
  destruct (Hfinished tt s' Htick) as (_ & _ & _ & o' & Ho' & Hv & _).
  by exists s', o'.
Defined.

(** X14. A later tick seeds the budget and counts itself once. When a
    function with a feedback vector is ticked and the tick returns, its
    interrupt budget is [interrupt_budget_for_maglev] if the Maglev flag is
    on and its active tier was unoptimized, and [interrupt_budget]
    otherwise; its invocation count is as it was; and its profiler ticks
    have gone up by exactly one, stopping at the largest [int], if the
    optimizer is enabled, and are as they were if it is not. *)
Theorem OnInterruptTick_counts_the_tick
    (kMaxLoopNestingMarker : Z) (s : Isolate) (f : nat) (frame : Frame)
    (o : JSFunction) (sfi : SharedFunctionInfo) (v : FeedbackVector)
    (u : unit) (s' : Isolate) :
  functions s !! f = Some o ->
  shared_function_infos s !! shared o = Some sfi ->
  feedback_vector o = Some v ->
  OnInterruptTick kMaxLoopNestingMarker f frame s = Some (u, s') ->
  exists o' v',
    functions s' !! f = Some o'
    /\ feedback_vector o' = Some v'
    /\ invocation_count v' = invocation_count v
    /\ profiler_ticks v'
       = (if use_optimizer s
          then if profiler_ticks v <? kMaxInt then profiler_ticks v + 1
               else profiler_ticks v
          else profiler_ticks v)
    /\ (profiler_ticks v <= kMaxInt ->
        profiler_ticks v <= profiler_ticks v' <= kMaxInt)
    /\ interrupt_budget o'
       = (if FLAG_maglev (flags s)
             && match GetActiveTier o with
                | Some kind => CodeKindIsUnoptimizedJSFunction kind
                | None => false
                end
          then FLAG_interrupt_budget_for_maglev (flags s)
          else FLAG_interrupt_budget (flags s)).
Proof.
  intros Ho Hsfi Hv Htick.
  destruct (OnInterruptTick_function _ _ _ _ _ _ _ _ Ho Hsfi Htick)
    as (o' & Ho' & Hmarks & _).
  rewrite Hv, (bool_decide_eq_true_2 (is_Some (Some v))) in Hmarks
    by (by exists v).
  cbn [andb] in Hmarks.
  assert (Hseeded : seeded (flags s) o
                    = with_interrupt_budget o
                        (if TiersUpToMaglev_opt (flags s) (GetActiveTier o)
                         then FLAG_interrupt_budget_for_maglev (flags s)
                         else FLAG_interrupt_budget (flags s))).
  { unfold seeded.
    by rewrite Hv, (bool_decide_eq_true_2 (is_Some (Some v))) by (by exists v). }
  assert (Hbudget :
    (if TiersUpToMaglev_opt (flags s) (GetActiveTier o)
     then FLAG_interrupt_budget_for_maglev (flags s)
     else FLAG_interrupt_budget (flags s))
    = (if FLAG_maglev (flags s)
          && match GetActiveTier o with
             | Some kind => CodeKindIsUnoptimizedJSFunction kind
             | None => false
             end
       then FLAG_interrupt_budget_for_maglev (flags s)
       else FLAG_interrupt_budget (flags s))).
  { unfold TiersUpToMaglev_opt, TiersUpToMaglev.
    destruct (GetActiveTier o); [done|]. by rewrite andb_false_r. }
  destruct (after_baseline_fields (flags s) sfi (seeded (flags s) o))
    as (_ & _ & Hvector2 & Hbudget2 & _).
  assert (Hvector1 : feedback_vector (seeded (flags s) o) = Some v)
    by (by rewrite Hseeded).
  assert (Hbudget1 :
    interrupt_budget (seeded (flags s) o)
    = (if TiersUpToMaglev_opt (flags s) (GetActiveTier o)
       then FLAG_interrupt_budget_for_maglev (flags s)
       else FLAG_interrupt_budget (flags s))) by (by rewrite Hseeded).
  rewrite Hvector1 in Hvector2. rewrite Hbudget1 in Hbudget2.
  destruct Hmarks as (_ & _ & Hvector' & _ & _ & _ & Hbudget' & _).
  destruct (use_optimizer s).
  - unfold counted in Hvector', Hbudget'.
    cbn [feedback_vector interrupt_budget with_feedback_vector]
      in Hvector', Hbudget'.
    rewrite Hvector2 in Hvector'. eexists o', _. split; [done|].
    split; [exact Hvector'|]. cbn. split; [done|]. split; [done|].
    split; [|by rewrite Hbudget', Hbudget2].
    unfold saturating_increment. destruct (Z.ltb_spec (profiler_ticks v) kMaxInt); lia.
  - exists o', v. split; [done|]. split; [congruence|].
    do 2 (split; [done|]). split; [lia|]. by rewrite Hbudget', Hbudget2.
Qed.

Lemma OnInterruptTick_counts_the_tick_witness :
  exists s' o',
    OnInterruptTick 6 0%nat (scenario_frame 10) (cold_or_hot 3) = Some (tt, s')
    /\ functions s' !! 0%nat = Some o'
    /\ feedback_vector o' = ticked 4
    /\ interrupt_budget o' = 135168.
Proof.
  destruct (OnInterruptTick 6 0%nat (scenario_frame 10) (cold_or_hot 3))
    as [[[] s']|] eqn:Htick; [|vm_compute in Htick; discriminate].
  destruct (OnInterruptTick_counts_the_tick 6 (cold_or_hot 3) 0%nat
              (scenario_frame 10) (scenario_function (ticked 3) false false)
              (scenario_shared true false kNotCached)
              {| profiler_ticks := 3; invocation_count := 1 |} tt s'
              eq_refl eq_refl eq_refl Htick)
    as (o' & [ticks count] & Ho' & Hv' & Hcount & Hticks & _ & Hbudget).
  exists s', o'. split; [reflexivity|]. split; [exact Ho'|].
  cbn in Hcount, Hticks. subst ticks count.
  split; [exact Hv' | exact Hbudget].
Defined.

(** X15. What a tick hands to the baseline compiler. A finished tick has
    put its function at the end of the queue of the baseline batch
    compiler, once, exactly when the function can be compiled with
    baseline, its active tier was not baseline and batch compilation is
    on; otherwise the queue is as it was. The function's active tier has
    changed only if it was handed to the baseline compiler directly, and
    no function whose active tier was baseline is queued or compiled
    again. This holds also on the first tick and with the optimizer
    disabled. *)
Theorem OnInterruptTick_baseline
    (kMaxLoopNestingMarker : Z) (s : Isolate) (f : nat) (frame : Frame)
    (o : JSFunction) (sfi : SharedFunctionInfo) (u : unit) (s' : Isolate) :
  functions s !! f = Some o ->
  shared_function_infos s !! shared o = Some sfi ->
  OnInterruptTick kMaxLoopNestingMarker f frame s = Some (u, s') ->
  let handed :=
    can_compile_with_baseline sfi
    && negb (bool_decide (GetActiveTier o = Some BASELINE)) in
  baseline_batch_compiler s'
  = (if handed && FLAG_baseline_batch_compilation (flags s)
     then baseline_batch_compiler s ++ [f]
     else baseline_batch_compiler s)
  /\ exists o',
       functions s' !! f = Some o'
       /\ (handed && negb (FLAG_baseline_batch_compilation (flags s)) = false ->
           GetActiveTier o' = GetActiveTier o)
       /\ (GetActiveTier o = Some BASELINE ->
           GetActiveTier o' = Some BASELINE
           /\ baseline_batch_compiler s' = baseline_batch_compiler s)
       /\ (is_Some (GetActiveTier o) -> is_Some (GetActiveTier o')).
Proof.
  intros Ho Hsfi Htick handed.
  destruct (OnInterruptTick_function _ _ _ _ _ _ _ _ Ho Hsfi Htick)
    as (o' & Ho' & Hmarks & Hqueue & _).
  split; [exact Hqueue|]. exists o'. split; [done|].
  assert (Htier : GetActiveTier o'
                  = GetActiveTier
                      (after_baseline (flags s) sfi (seeded (flags s) o))).
  { destruct Hmarks as (_ & _ & _ & -> & _).
    by destruct (_ && use_optimizer s). }
  rewrite Htier. unfold after_baseline. rewrite wants_baseline_seeded.
  rewrite Hqueue. unfold queue_after_baseline, wants_baseline. subst handed.
  destruct (seeded_fields (flags s) o) as (_ & _ & Hseeded & _).
  split; [|split].
  - intros Hcond. by rewrite Hcond.
  - intros Hbaseline.
    rewrite (bool_decide_eq_true_2 _ Hbaseline), andb_false_r.
    cbn [andb negb]. by rewrite Hseeded.
  - intros [kind Hkind].
    destruct (_ && _ && _); cbn [GetActiveTier with_active_tier];
      rewrite Hseeded, Hkind; [|done].
    by destruct kind.
Qed.

Lemma OnInterruptTick_baseline_witness :
  exists s',
    OnInterruptTick 6 0%nat (scenario_frame 10) baseline_candidate
    = Some (tt, s')
    /\ baseline_batch_compiler s' = [7%nat; 0%nat].
Proof.
  destruct (OnInterruptTick 6 0%nat (scenario_frame 10) baseline_candidate)
    as [[[] s']|] eqn:Htick; [|vm_compute in Htick; discriminate].
  exists s'. split; [reflexivity|].
  apply (OnInterruptTick_baseline 6 baseline_candidate 0%nat
           (scenario_frame 10) (scenario_function None false false)
           {| bytecode_array := 0%nat; IsUserJavaScript := true;
              optimization_disabled := false;
              osr_code_cache_state := kNotCached;
              can_compile_with_baseline := true;
              baseline_compile_succeeds := true |} tt s'
           eq_refl eq_refl Htick).
Defined.

(** *** From a tick to a mark *)

(** A tick on a function with a feedback vector, with the optimizer
    enabled and an unoptimized frame, runs up to [MaybeOptimizeFrame]. *)
Lemma OnInterruptTick_runs kMax f frame s o sfi bytecode kind :
  functions s !! f = Some o ->
  shared_function_infos s !! shared o = Some sfi ->
  bytecode_arrays s !! bytecode_array sfi = Some bytecode ->
  is_Some (feedback_vector o) ->
  use_optimizer s = true ->
  is_unoptimized frame = true ->
  let o2 := after_baseline (flags s) sfi (seeded (flags s) o) in
  let q2 :=
    queue_after_baseline (flags s) sfi o f (baseline_batch_compiler s) in
  GetActiveTier o2 = Some kind ->
  exists s3,
    updated f (counted o2) q2 s s3
    /\ OnInterruptTick kMax f frame s
       = (MaybeOptimizeFrame kMax f frame kind;;
          modify (set_any_ic_changed false)) s3.
Proof.
  intros Ho Hsfi Hbc Hhad Huse Hframe o2 q2 Hkind.
  unfold OnInterruptTick. exec.
  destruct (seed_returns f s o sfi bytecode Ho Hsfi Hbc)
    as (s1 & o1 & Hseed & _).
  pose proof (seed_exact _ _ _ _ _ Ho Hseed) as Hu1.
  rewrite (bind_run _ _ _ _ _ Hseed). cbv beta.
  pose proof (updated_function _ _ _ _ _ Hu1) as Ho1.
  pose proof Hu1 as (Hflags1 & Huse1 & Hsfis1 & Hbcs1 & _ & _ & _ & _ & Hq1 & _).
  destruct (seeded_fields (flags s) o) as (Hshared1 & _).
  assert (Hsfi1 : shared_function_infos s1 !! shared (seeded (flags s) o)
                  = Some sfi) by (by rewrite Hsfis1, Hshared1).
  assert (Hbc1 : bytecode_arrays s1 !! bytecode_array sfi = Some bytecode)
    by (by rewrite Hbcs1).
  exec.
  assert (Hv1 : is_Some (feedback_vector (seeded (flags s) o))).
  { unfold seeded. rewrite (bool_decide_eq_true_2 _ Hhad). exact Hhad. }
  rewrite (bool_decide_eq_true_2 _ Hv1). exec.
  fold (wants_baseline sfi (seeded (flags s) o)).
  assert (Hreturns : exists s2,
    (if wants_baseline sfi (seeded (flags s) o)
     then if FLAG_baseline_batch_compilation (flags s1)
          then EnqueueFunction f else CompileBaseline f
     else mret tt) s1 = Some (tt, s2)).
  { destruct (wants_baseline sfi _); [|eexists; reflexivity].
    destruct (FLAG_baseline_batch_compilation (flags s1));
      [eexists; reflexivity|].
    unfold CompileBaseline. exec.
    destruct (baseline_compile_succeeds sfi); eexists; reflexivity. }
  destruct Hreturns as (s2 & Hbaseline).
  rewrite (bind_run _ _ _ _ _ Hbaseline). cbv beta.
  apply (baseline_exact _ _ _ _ _ _ Ho1 Hsfi1) in Hbaseline.
  unfold queue_after_baseline in Hbaseline.
  rewrite wants_baseline_seeded, Hflags1, Hq1 in Hbaseline.
  fold (queue_after_baseline (flags s) sfi o f (baseline_batch_compiler s))
    in Hbaseline.
  fold q2 in Hbaseline. fold o2 in Hbaseline.
  pose proof (updated_trans _ _ _ _ _ _ _ _ Hu1 Hbaseline) as Hu2.
  pose proof (updated_function _ _ _ _ _ Hu2) as Ho2.
  pose proof Hu2 as (_ & Huse2 & _ & _ & _ & _ & _ & _ & Hq2 & _).
  rewrite (bool_decide_eq_true_2 _ Hhad). cbn [negb]. exec.
  rewrite Huse2, Huse. cbn [negb].
  assert (Hv2 : is_Some (feedback_vector o2)).
  { subst o2.
    by rewrite (proj1 (proj2 (proj2 (after_baseline_fields _ _ _)))). }
  destruct Hv2 as [v2 Hv2].
  assert (Hcount : exists s3,
            SaturatingIncrementProfilerTicks f s2 = Some (tt, s3)).
  { unfold SaturatingIncrementProfilerTicks. exec. rewrite Hv2. exec.
    eexists. reflexivity. }
  destruct Hcount as (s3 & Hcount). exists s3.
  rewrite !bind_assoc, (bind_run _ _ _ _ _ Hcount). cbv beta.
  apply (SaturatingIncrementProfilerTicks_exact _ _ _ _ _ Ho2) in Hcount
    as [_ Hcount].
  rewrite Hq2 in Hcount.
  pose proof (updated_trans _ _ _ _ _ _ _ _ Hu2 Hcount) as Hu3.
  pose proof (updated_function _ _ _ _ _ Hu3) as Ho3.
  split; [done|]. rewrite Hframe. exec.
  assert (GetActiveTier (counted o2) = Some kind) as -> by exact Hkind.
  by exec.
Qed.

(** Outside the early returns and past [MaybeOSR], [MaybeOptimizeFrame]
    is [ShouldOptimize] followed, if it says so, by [Optimize]. *)
Lemma MaybeOptimizeFrame_decides kMax f frame kind s o sfi :
  functions s !! f = Some o ->
  shared_function_infos s !! shared o = Some sfi ->
  IsInOptimizationQueue o = false ->
  FLAG_testing_d8_test_runner (flags s) = false
  \/ shared o ∈ pending_optimization_allowed s ->
  optimization_disabled sfi = false ->
  is_unoptimized frame = false
  \/ FLAG_always_osr (flags s) = false /\ pending o = false
     /\ is_Some (feedback_vector o) ->
  MaybeOptimizeFrame kMax f frame kind s
  = (d ← ShouldOptimize f kind frame;
     if should_optimize d then Optimize f kind d else mret tt) s.
Proof.
  intros Ho Hsfi Hqueue Hgate Hdisabled Hosr. unfold MaybeOptimizeFrame. exec.
  rewrite Hqueue. exec. unfold IsHeuristicOptimizationAllowed. exec.
  assert (FLAG_testing_d8_test_runner (flags s)
          && negb (bool_decide (shared o ∈ pending_optimization_allowed s))
          = false) as ->.
  { destruct Hgate as [-> | Hin]; [done|].
    by rewrite (bool_decide_eq_true_2 _ Hin), andb_false_r. }
  exec. rewrite Hdisabled.
  destruct Hosr as [-> | (Halways & Hpending & [v Hv])]; [by exec|].
  destruct (is_unoptimized frame); [|by exec].
  rewrite Halways. cbv beta iota. unfold MaybeOSR. exec. rewrite Hv. exec.
  fold (pending o). rewrite Hpending. by exec.
Qed.

Lemma Optimize_run f kind d s o :
  functions s !! f = Some o ->
  should_optimize d = true ->
  Optimize f kind d s
  = Some (tt,
          set_functions (<[f := marked (concurrency_mode d) o]> (functions s))
            (set_calls
               (calls s ++ [CallMarkForOptimization f (code_kind d)
                              (concurrency_mode d)]) s)).
Proof.
  intros Ho Hd. unfold Optimize, MarkForOptimization, record, store_function.
  rewrite Hd. exec.
  assert (Ho1 : functions
                  (set_calls
                     (calls s ++ [CallMarkForOptimization f (code_kind d)
                                    (concurrency_mode d)]) s) !! f = Some o)
    by exact Ho.
  by exec.
Qed.

Lemma ticked_fields fl sfi o :
  let o3 := counted (after_baseline fl sfi (seeded fl o)) in
  shared o3 = shared o
  /\ native_context o3 = native_context o
  /\ IsInOptimizationQueue o3 = IsInOptimizationQueue o
  /\ IsMarkedForOptimization o3 = IsMarkedForOptimization o
  /\ IsMarkedForConcurrentOptimization o3 = IsMarkedForConcurrentOptimization o
  /\ HasAvailableOptimizedCode o3 = HasAvailableOptimizedCode o
  /\ GetActiveTier o3 = GetActiveTier (after_baseline fl sfi (seeded fl o)).
Proof.
  cbn.
  destruct (after_baseline_fields fl sfi (seeded fl o))
    as (-> & -> & _ & _ & -> & -> & -> & ->).
  by destruct (seeded_fields fl o) as (-> & -> & _ & -> & -> & -> & ->).
Qed.

(** X17. From a tick to a mark. Take a function below the top tier, with
    its shared function info and bytecode array in place, that has a
    feedback vector, is not in the optimization queue, is neither marked
    nor has optimized code, may be optimized and has nothing in the
    OSR-code cache, with the optimizer enabled, the Maglev flag and
    [always_osr] off and an unoptimized frame. Let the heuristics be
    allowed to optimize it: [testing_d8_test_runner] is off, or the
    function is in the table of pending optimizations that allow them.
    Let the bytecode length be a non-negative [int],
    [bytecode_size_allowance_per_tick] not zero and the tick threshold
    [ticks_before_optimization + length / bytecode_size_allowance_per_tick]
    an [int]. A tick on the function returns. It first counts itself, and
    then marks the function for concurrent top-tier optimization, by one
    call to [MarkForOptimization], exactly when the profiler ticks so
    counted reach the threshold or no IC has changed and the bytecode is
    shorter than [max_bytecode_size_for_early_opt]; otherwise it makes no
    call. Either way [any_ic_changed_] is false afterwards and no nesting
    level has changed. *)
Theorem tick_marks_for_optimization
    (kMaxLoopNestingMarker : Z) (s : Isolate) (f : nat) (frame : Frame)
    (o : JSFunction) (sfi : SharedFunctionInfo) (bytecode : BytecodeArray)
    (v : FeedbackVector) (kind : CodeKind) :
  functions s !! f = Some o ->
  shared_function_infos s !! shared o = Some sfi ->
  bytecode_arrays s !! bytecode_array sfi = Some bytecode ->
  feedback_vector o = Some v ->
  GetActiveTier o = Some kind ->
  kind <> TURBOFAN ->
  use_optimizer s = true ->
  is_unoptimized frame = true ->
  FLAG_maglev (flags s) = false ->
  FLAG_always_osr (flags s) = false ->
  FLAG_testing_d8_test_runner (flags s) = false
  \/ shared o ∈ pending_optimization_allowed s ->
  IsInOptimizationQueue o = false ->
  pending o = false ->
  optimization_disabled sfi = false ->
  osr_code_cache_state sfi = kNotCached ->
  0 <= bytecode_length bytecode <= kMaxInt ->
  FLAG_bytecode_size_allowance_per_tick (flags s) <> 0 ->
  is_int32 (FLAG_ticks_before_optimization (flags s)
            + bytecode_length bytecode
              `quot` FLAG_bytecode_size_allowance_per_tick (flags s)) ->
  let ticks :=
    if profiler_ticks v <? kMaxInt then profiler_ticks v + 1
    else profiler_ticks v in
  let marks :=
    (ticks >=? FLAG_ticks_before_optimization (flags s)
               + bytecode_length bytecode
                 `quot` FLAG_bytecode_size_allowance_per_tick (flags s))
    || ShouldOptimizeAsSmallFunction (flags s) (bytecode_length bytecode)
         (any_ic_changed_ s) in
  exists s' o',
    OnInterruptTick kMaxLoopNestingMarker f frame s = Some (tt, s')
    /\ calls s'
       = calls s ++ (if marks
                     then [CallMarkForOptimization f TURBOFAN kConcurrent]
                     else [])
    /\ functions s' !! f = Some o'
    /\ IsMarkedForConcurrentOptimization o' = marks
    /\ IsMarkedForOptimization o' = false
    /\ any_ic_changed_ s' = false
    /\ bytecode_arrays s' = bytecode_arrays s.
Proof.
  intros Ho Hsfi Hbc Hv Htier Hkind Huse Hframe Hmaglev Halways Hgate Hqueue
    Hpending Hdisabled Hcache Hlength Hallowance Hthreshold ticks marks.
  pose (o2 := after_baseline (flags s) sfi (seeded (flags s) o)).
  assert (Htier2 : exists kind2,
            GetActiveTier o2 = Some kind2 /\ kind2 <> TURBOFAN).
  { subst o2. unfold after_baseline.
    destruct (seeded_fields (flags s) o) as (_ & _ & Hseeded & _).
    destruct (_ && _ && _); cbn [GetActiveTier with_active_tier];
      rewrite Hseeded, Htier.
    - destruct kind; cbn; eauto.
    - eauto. }
  destruct Htier2 as (kind2 & Htier2 & Hkind2).
  destruct (OnInterruptTick_runs kMaxLoopNestingMarker f frame s o sfi bytecode
              kind2 Ho Hsfi Hbc ltac:(by exists v) Huse Hframe Htier2)
    as (s3 & Hu3 & ->).
  fold o2 in Hu3.
  pose proof (updated_function _ _ _ _ _ Hu3) as Ho3.
  destruct Hu3 as (Hflags3 & _ & Hsfis3 & Hbcs3 & Hcache3 & Hallowed3 & Hic3
                   & Hcalls3 & _ & Hfns3).
  destruct (ticked_fields (flags s) sfi o)
    as (Hshared3 & _ & Hqueue3 & Hmark3 & Hconcurrent3 & Hcode3 & Htier3).
  fold o2 in Hshared3, Hqueue3, Hmark3, Hconcurrent3, Hcode3, Htier3.
  assert (Hsfi3 : shared_function_infos s3 !! shared (counted o2) = Some sfi)
    by (by rewrite Hsfis3, Hshared3).
  assert (Hbc3 : bytecode_arrays s3 !! bytecode_array sfi = Some bytecode)
    by (by rewrite Hbcs3).
  assert (Hpending3 : pending (counted o2) = false).
  { unfold pending. rewrite Hmark3, Hconcurrent3, Hcode3. exact Hpending. }
  assert (Hv3 : feedback_vector (counted o2)
                = Some {| profiler_ticks := ticks;
                          invocation_count := invocation_count v |}).
  { unfold counted. cbn. subst o2.
    rewrite (proj1 (proj2 (proj2 (after_baseline_fields _ _ _)))).
    unfold seeded.
    rewrite Hv, (bool_decide_eq_true_2 (is_Some (Some v))) by (by exists v).
    cbn [feedback_vector with_interrupt_budget]. rewrite Hv. reflexivity. }
  assert (Hdecides :
    MaybeOptimizeFrame kMaxLoopNestingMarker f frame kind2 s3
    = (d ← ShouldOptimize f kind2 frame;
       if should_optimize d then Optimize f kind2 d else mret tt) s3).
  { apply (MaybeOptimizeFrame_decides _ _ _ _ _ _ sfi Ho3 Hsfi3).
    - by rewrite Hqueue3.
    - by rewrite Hflags3, Hallowed3, Hshared3.
    - done.
    - right. rewrite Hflags3. split; [done|]. split; [done|].
      rewrite Hv3. by eexists. }
  rewrite (bind_run _ _ _ _ _
             (ShouldOptimize_run s3 f kind2 frame (counted o2) sfi bytecode
                _ Ho3 ltac:(by rewrite Htier3) ltac:(by rewrite Hflags3)
                Hkind2 Hsfi3 Hbc3 Hv3 (or_introl Hcache) Hlength
                ltac:(by rewrite Hflags3) ltac:(by rewrite Hflags3)))
    in Hdecides.
  rewrite Hflags3, Hic3 in Hdecides. cbn [profiler_ticks] in Hdecides.
  subst marks. unfold pending in Hpending.
  destruct (ticks >=? _) eqn:Hhot; cbn [orb].
  - cbv beta iota in Hdecides.
    change (should_optimize TurbofanHotAndStable) with true in Hdecides.
    cbv beta iota in Hdecides.
    rewrite (Optimize_run f kind2 TurbofanHotAndStable s3 _ Ho3 eq_refl)
      in Hdecides.
    rewrite (bind_run _ _ _ _ _ Hdecides).
    eexists _, _. split; [reflexivity|]. cbn.
    split; [by rewrite Hcalls3|]. split; [apply lookup_insert_eq|].
    cbn. split; [done|]. split; [|done].
    cbn in Hmark3. rewrite Hmark3.
    by destruct (IsMarkedForOptimization o).
  - destruct (ShouldOptimizeAsSmallFunction _ _ _) eqn:Hsmall.
    + cbv beta iota in Hdecides.
      change (should_optimize TurbofanSmallFunction) with true in Hdecides.
      cbv beta iota in Hdecides.
      rewrite (Optimize_run f kind2 TurbofanSmallFunction s3 _ Ho3 eq_refl)
        in Hdecides.
      rewrite (bind_run _ _ _ _ _ Hdecides).
      eexists _, _. split; [reflexivity|]. cbn.
      split; [by rewrite Hcalls3|]. split; [apply lookup_insert_eq|].
      cbn. split; [done|]. split; [|done].
      cbn in Hmark3. rewrite Hmark3.
      by destruct (IsMarkedForOptimization o).
    + cbv beta iota in Hdecides.
      change (should_optimize DoNotOptimize) with false in Hdecides.
      cbv beta iota in Hdecides.
      rewrite (bind_run _ _ _ _ _ Hdecides).
      eexists _, _. split; [reflexivity|]. cbn.
      split; [by rewrite Hcalls3, app_nil_r|]. split; [exact Ho3|].
      rewrite Hmark3, Hconcurrent3.
      destruct (IsMarkedForOptimization o),
        (IsMarkedForConcurrentOptimization o); try discriminate Hpending.
      done.
Qed.

Lemma tick_marks_for_optimization_witness :
  exists s',
    OnInterruptTick 6 0%nat (scenario_frame 10) (cold_or_hot 8) = Some (tt, s')
    /\ calls s' = [CallMarkForOptimization 0%nat TURBOFAN kConcurrent].
Proof.
  destruct (tick_marks_for_optimization 6 (cold_or_hot 8) 0%nat
              (scenario_frame 10) (scenario_function (ticked 8) false false)
              (scenario_shared true false kNotCached) (scenario_bytecode 200 0)
              {| profiler_ticks := 8; invocation_count := 1 |}
              INTERPRETED_FUNCTION)
    as (s' & o' & Htick & Hcalls & _); by_evaluation.
  exists s'. split; [exact Htick | exact Hcalls].
Defined.

(** *** The test runner and [always_osr] *)

(** X11. Under the test runner, a function for which heuristic
    optimization is not allowed is left alone: [MaybeOptimizeFrame]
    returns at once with the isolate as it was, whatever the frame, the
    tier and the profile of the function, and a finished tick on it has
    made no call, has changed no nesting level and has left its marks as
    they were. *)
Theorem heuristic_optimization_disallowed
    (kMaxLoopNestingMarker : Z) (s : Isolate) (f : nat) (o : JSFunction) :
  functions s !! f = Some o ->
  FLAG_testing_d8_test_runner (flags s) = true ->
  shared o ∉ pending_optimization_allowed s ->
  (forall frame kind,
     MaybeOptimizeFrame kMaxLoopNestingMarker f frame kind s = Some (tt, s))
  /\ (forall frame u s',
        OnInterruptTick kMaxLoopNestingMarker f frame s = Some (u, s') ->
        calls s' = calls s
        /\ bytecode_arrays s' = bytecode_arrays s
        /\ exists o', functions s' !! f = Some o' /\ same_marks o o').
Proof.
  intros Ho Hrunner Hallowed.
  assert (Hgate : forall frame kind s1 o1,
    functions s1 !! f = Some o1 -> IsInOptimizationQueue o1 = false ->
    FLAG_testing_d8_test_runner (flags s1) = true ->
    shared o1 ∉ pending_optimization_allowed s1 ->
    MaybeOptimizeFrame kMaxLoopNestingMarker f frame kind s1 = Some (tt, s1)).
  { intros frame kind s1 o1 Ho1 Hqueue1 Hrunner1 Hallowed1.
    unfold MaybeOptimizeFrame, IsHeuristicOptimizationAllowed. exec.
    rewrite Hqueue1. exec.
    by rewrite Hrunner1, (bool_decide_eq_false_2 _ Hallowed1). }
  assert (Hidle : forall frame s1 o1 kind,
    housekeeping f s s1 -> functions s1 !! f = Some o1 -> same_marks o o1 ->
    MaybeOptimizeFrame kMaxLoopNestingMarker f frame kind s1 = Some (tt, s1)).
  { intros frame s1 o1 kind (Hflags & _ & _ & _ & _ & Hpending & _) Ho1
      (Hshared & _).
    destruct (IsInOptimizationQueue o1) eqn:Hqueue1.
    - by eapply MaybeOptimizeFrame_queued.
    - apply (Hgate _ _ _ o1); [done | done | congruence|].
      by rewrite Hpending, Hshared. }
  split.
  - intros frame kind. apply (Hidle frame s o kind);
      [apply housekeeping_refl | done | apply same_marks_refl].
  - intros frame u s' Htick.
    exact (OnInterruptTick_idle _ _ _ _ _ _ _ Ho (Hidle frame) Htick).
Qed.

Lemma heuristic_optimization_disallowed_witness :
  MaybeOptimizeFrame 6 0%nat (scenario_frame 10) INTERPRETED_FUNCTION
    under_test_runner = Some (tt, under_test_runner).
Proof.
  apply (proj1 (heuristic_optimization_disallowed 6 under_test_runner 0%nat
                  (scenario_function (ticked 20) false false)
                  eq_refl eq_refl ltac:(apply not_elem_of_empty))).
Defined.

(** Under [always_osr], [MaybeOptimizeFrame] on an unoptimized frame arms
    the frame and goes on to decide. *)
Lemma MaybeOptimizeFrame_always_osr kMax f frame kind s o sfi :
  functions s !! f = Some o ->
  shared_function_infos s !! shared o = Some sfi ->
  IsInOptimizationQueue o = false ->
  FLAG_testing_d8_test_runner (flags s) = false
  \/ shared o ∈ pending_optimization_allowed s ->
  optimization_disabled sfi = false ->
  is_unoptimized frame = true ->
  FLAG_always_osr (flags s) = true ->
  MaybeOptimizeFrame kMax f frame kind s
  = (AttemptOnStackReplacement kMax frame kMax;;
     d ← ShouldOptimize f kind frame;
     if should_optimize d then Optimize f kind d else mret tt) s.
Proof.
  intros Ho Hsfi Hqueue Hgate Hdisabled Hframe Halways.
  unfold MaybeOptimizeFrame. exec.
  rewrite Hqueue. exec. unfold IsHeuristicOptimizationAllowed. exec.
  assert (FLAG_testing_d8_test_runner (flags s)
          && negb (bool_decide (shared o ∈ pending_optimization_allowed s))
          = false) as ->.
  { destruct Hgate as [-> | Hin]; [done|].
    by rewrite (bool_decide_eq_true_2 _ Hin), andb_false_r. }
  exec. rewrite Hdisabled, Hframe, Halways. cbv beta iota.
  rewrite !bind_assoc. unfold mbind, M_bind, mret, M_ret.
  by destruct (AttemptOnStackReplacement kMax frame kMax s) as [[[] s1]|].
Qed.

(** X12. Under [always_osr], [MaybeOptimizeFrame] on an unoptimized frame
    of a function that passes the early returns first calls
    [AttemptOnStackReplacement] for the marker, and then decides as usual
    whether the function is already marked or not: the log grows by that
    call, followed by one call to [MarkForOptimization] exactly when
    [ShouldOptimize], asked after the arming, says so. When on-stack
    replacement is in use for the function and nothing is cached for it,
    the nesting level of the frame's bytecode array is afterwards what the
    eight-bit field keeps of the marker: the marker itself, for a marker
    that fits the field. *)
Theorem always_osr_arms_and_decides
    (kMaxLoopNestingMarker : Z) (s : Isolate) (f : nat) (frame : Frame)
    (kind : CodeKind) (o : JSFunction) (sfi : SharedFunctionInfo)
    (bytecode : BytecodeArray) (u : unit) (s' : Isolate) :
  functions s !! f = Some o ->
  function frame = f ->
  shared_function_infos s !! shared o = Some sfi ->
  bytecode_arrays s !! GetBytecodeArray frame = Some bytecode ->
  IsInOptimizationQueue o = false ->
  FLAG_testing_d8_test_runner (flags s) = false
  \/ shared o ∈ pending_optimization_allowed s ->
  optimization_disabled sfi = false ->
  is_unoptimized frame = true ->
  FLAG_always_osr (flags s) = true ->
  MaybeOptimizeFrame kMaxLoopNestingMarker f frame kind s = Some (u, s') ->
  (exists s1 d s2,
     AttemptOnStackReplacement kMaxLoopNestingMarker frame
       kMaxLoopNestingMarker s = Some (tt, s1)
     /\ ShouldOptimize f kind frame s1 = Some (d, s2)
     /\ calls s'
        = calls s
          ++ [CallAttemptOnStackReplacement frame kMaxLoopNestingMarker]
          ++ (if should_optimize d
              then [CallMarkForOptimization f (code_kind d)
                      (concurrency_mode d)]
              else [])
     /\ (should_optimize d = true ->
         functions s' !! f = Some (marked (concurrency_mode d) o)))
  /\ (FLAG_use_osr (flags s) = true ->
      IsUserJavaScript sfi = true ->
      osr_code_cache_state sfi = kNotCached ->
      0 <= osr_loop_nesting_level bytecode ->
      is_int32 (osr_loop_nesting_level bytecode + kMaxLoopNestingMarker) ->
      exists bytecode',
        bytecode_arrays s' !! GetBytecodeArray frame = Some bytecode'
        /\ osr_loop_nesting_level bytecode' = uint8 kMaxLoopNestingMarker
        /\ (0 <= kMaxLoopNestingMarker <= 255 ->
            osr_loop_nesting_level bytecode' = kMaxLoopNestingMarker)).
Proof.
  intros Ho Hfn Hsfi Hbc Hqueue Hgate Hdisabled Hframe Halways Hrun.
  destruct u.
  rewrite (MaybeOptimizeFrame_always_osr _ _ _ _ _ _ _ Ho Hsfi Hqueue Hgate
             Hdisabled Hframe Halways) in Hrun.
  apply bind_Some in Hrun as ([] & s1 & Hosr & Hrun).
  apply bind_Some in Hrun as (d & s2 & Hdecide & Hrun).
  destruct (AttemptOnStackReplacement_effect _ f _ _ _ _ _ Hosr)
    as (_ & Hfns1 & Hcalls1).
  destruct (ShouldOptimize_effect _ _ _ _ _ _ Hdecide)
    as (_ & Hfns2 & Hcalls2 & _).
  assert (Ho2 : functions s2 !! f = Some o) by (by rewrite Hfns2, Hfns1).
  assert (Hend :
    calls s'
    = calls s2 ++ (if should_optimize d
                   then [CallMarkForOptimization f (code_kind d)
                           (concurrency_mode d)]
                   else [])
    /\ bytecode_arrays s' = bytecode_arrays s2
    /\ (should_optimize d = true ->
        functions s' !! f = Some (marked (concurrency_mode d) o))).
  { destruct (should_optimize d) eqn:Hshould.
    - rewrite (Optimize_run _ _ _ _ _ Ho2 Hshould) in Hrun.
      injection Hrun as <-. cbn. do 2 (split; [done|]).
      intros _. apply lookup_insert_eq.
    - apply ret_Some in Hrun as [_ ->]. by rewrite app_nil_r. }
  destruct Hend as (Hcalls' & Hbcs' & Hmarked).
  split.
  - exists s1, d, s2. do 2 (split; [done|]). split; [|done].
    by rewrite Hcalls', Hcalls2, Hcalls1, <- app_assoc.
  - intros Hosr_on Huser Hcache Hlevel Hsum. subst f.
    rewrite (AttemptOnStackReplacement_run _ _ _ _ _ _ Ho Hsfi) in Hosr.
    cbv zeta in Hosr.
    rewrite Hosr_on, Huser, Hdisabled, Hframe, Hbc in Hosr.
    cbn [negb orb] in Hosr. injection Hosr as <-.
    rewrite (int32_id _ Hsum) in Hdecide, Hfns1, Hcalls1.
    apply ShouldOptimize_Some in Hdecide
      as [[-> _]
         | (_ & o0 & sfi0 & operand & old & Ho0 & Hsfi0 & Hcached & _)].
    + rewrite Hbcs'. eexists. split; [apply lookup_insert_eq|].
      cbn [osr_loop_nesting_level]. rewrite Z.min_r by lia.
      split; [done|]. intros Hmarker. unfold uint8. apply Z.mod_small. lia.
    + cbn in Ho0, Hsfi0. assert (o0 = o) as -> by congruence.
      assert (sfi0 = sfi) as -> by congruence. done.
Qed.

Lemma always_osr_arms_and_decides_witness :
  exists s',
    MaybeOptimizeFrame 6 0%nat (scenario_frame 10) INTERPRETED_FUNCTION
      always_osr_marked = Some (tt, s')
    /\ exists bytecode',
         bytecode_arrays s' !! 0%nat = Some bytecode'
         /\ osr_loop_nesting_level bytecode' = 6.
Proof.
  destruct (MaybeOptimizeFrame 6 0%nat (scenario_frame 10)
              INTERPRETED_FUNCTION always_osr_marked)
    as [[[] s']|] eqn:Hrun; [|vm_compute in Hrun; discriminate].
  exists s'. split; [reflexivity|].
  destruct (proj2 (always_osr_arms_and_decides 6 always_osr_marked 0%nat
                     (scenario_frame 10) INTERPRETED_FUNCTION
                     (scenario_function (ticked 20) false true)
                     (scenario_shared true false kNotCached)
                     (scenario_bytecode 200 0) tt s'
                     eq_refl eq_refl eq_refl eq_refl eq_refl
                     (or_introl eq_refl) eq_refl eq_refl eq_refl Hrun))
    as (bytecode' & Hat & _ & Hlevel); by_evaluation.
  exists bytecode'. split; [exact Hat|]. apply Hlevel. lia.
Defined.

(** *** What the controller never does *)

Lemma function_kept_refl o : function_kept o o.
Proof.
  unfold function_kept. do 5 (split; [done|]). split.
  - intros v Hv. exists v. split; [done|]. split; [done | lia].
  - intros kind Hkind. by left.
Qed.

Lemma function_kept_trans o1 o2 o3 :
  function_kept o1 o2 -> function_kept o2 o3 -> function_kept o1 o3.
Proof.
  intros (? & ? & ? & ? & Hp1 & Hv1 & Ht1) (? & ? & ? & ? & Hp2 & Hv2 & Ht2).
  unfold function_kept. do 4 (split; [congruence|]).
  split; [auto|]. split.
  - intros v Hv. destruct (Hv1 v Hv) as (v2 & Hv2' & ? & ?).
    destruct (Hv2 v2 Hv2') as (v3 & Hv3 & ? & ?).
    exists v3. split; [done|]. split; [congruence | lia].
  - intros kind Hkind. destruct (Ht1 kind Hkind) as [Hsame | [-> Hbase]].
    + exact (Ht2 kind Hsame).
    + destruct (Ht2 BASELINE Hbase) as [? | [? _]]; [by right | done].
Qed.

(** A function whose marks and optimized code are as they were, with the
    same feedback vector and tier or ones that come after them. *)
Lemma function_kept_fields o o' :
  shared o' = shared o ->
  native_context o' = native_context o ->
  IsInOptimizationQueue o' = IsInOptimizationQueue o ->
  IsMarkedForOptimization o' = IsMarkedForOptimization o ->
  IsMarkedForConcurrentOptimization o' = IsMarkedForConcurrentOptimization o ->
  HasAvailableOptimizedCode o' = HasAvailableOptimizedCode o ->
  (forall v,
     feedback_vector o = Some v ->
     exists v',
       feedback_vector o' = Some v'
       /\ invocation_count v' = invocation_count v
       /\ profiler_ticks v <= profiler_ticks v') ->
  (forall kind,
     GetActiveTier o = Some kind ->
     GetActiveTier o' = Some kind
     \/ kind = INTERPRETED_FUNCTION /\ GetActiveTier o' = Some BASELINE) ->
  function_kept o o'.
Proof.
  intros ? ? ? Hm Hc Hcode Hv Ht. unfold function_kept, pending.
  do 4 (split; [done|]). split; [by rewrite Hm, Hc, Hcode|]. done.
Qed.

Lemma marks_added_kept o o' : marks_added o o' -> function_kept o o'.
Proof.
  intros Hmarks. pose proof (marks_added_pending _ _ Hmarks) as Hpending.
  destruct Hmarks as (? & ? & Hv & Ht & ? & ? & _).
  unfold function_kept. do 5 (split; [done|]). split.
  - intros v Hv0. exists v. split; [congruence|]. split; [done | lia].
  - intros kind Hkind. left. congruence.
Qed.

Lemma seeded_kept fl o : function_kept o (seeded fl o).
Proof.
  destruct (seeded_fields fl o) as (? & ? & Ht & ? & Hm & Hc & ?).
  apply function_kept_fields; try done.
  - intros v Hv. exists v. unfold seeded.
    rewrite Hv, (bool_decide_eq_true_2 (is_Some (Some v))) by (by exists v).
    cbn. split; [done|]. split; [done | lia].
  - intros kind Hkind. left. congruence.
Qed.

Lemma after_baseline_kept fl sfi o : function_kept o (after_baseline fl sfi o).
Proof.
  destruct (after_baseline_fields fl sfi o)
    as (? & ? & Hv & _ & ? & Hm & Hc & ?).
  apply function_kept_fields; try done.
  - intros v Hv0. exists v. split; [congruence|]. split; [done | lia].
  - intros kind Hkind. unfold after_baseline.
    destruct (_ && _ && _); [|by left]. cbn. rewrite Hkind.
    destruct kind; cbn; auto.
Qed.

Lemma counted_kept o : function_kept o (counted o).
Proof.
  apply function_kept_fields; try done.
  - unfold counted. cbn. intros v ->. eexists. split; [done|]. cbn.
    split; [done|]. unfold saturating_increment. destruct (_ <? _); lia.
  - intros kind Hkind. by left.
Qed.

Lemma controller_effect_refl s : controller_effect s s.
Proof.
  unfold controller_effect. do 7 (split; [done|]). split; [done|].
  split; [|split; [done|]].
  - intros f o Ho. exists o. split; [done | apply function_kept_refl].
  - intros b bytecode Hb. exists bytecode.
    split; [done | apply level_changed_refl].
Qed.

Lemma controller_effect_trans s1 s2 s3 :
  controller_effect s1 s2 -> controller_effect s2 s3 ->
  controller_effect s1 s3.
Proof.
  intros (? & ? & ? & ? & ? & Hc1 & Hq1 & Hn1 & Hf1 & Hbn1 & Hb1)
         (? & ? & ? & ? & ? & Hc2 & Hq2 & Hn2 & Hf2 & Hbn2 & Hb2).
  unfold controller_effect. do 5 (split; [congruence|]).
  split; [by etrans|]. split; [by etrans|]. split; [auto|].
  split; [|split; [auto|]].
  - intros f o Ho. destruct (Hf1 f o Ho) as (o2 & Ho2 & Hk2).
    destruct (Hf2 f o2 Ho2) as (o3 & Ho3 & Hk3).
    exists o3. split; [done | by eapply function_kept_trans].
  - intros b bytecode Hb. destruct (Hb1 b bytecode Hb) as (b2 & Hb2' & [? ?]).
    destruct (Hb2 b b2 Hb2') as (b3 & Hb3 & [? ?]).
    exists b3. split; [done|]. split; congruence.
Qed.

Lemma decision_effect_controller f s s' :
  is_Some (functions s !! f) ->
  decision_effect f s s' -> controller_effect s s'.
Proof.
  intros [o Ho] (? & ? & ? & ? & ? & Hq & _ & ? & Hothers & Hf & Hb & Hbn).
  unfold controller_effect. do 6 (split; [done|]).
  split; [by rewrite Hq|]. split; [|split; [|done]].
  - intros g Hg. rewrite Hothers; [done | congruence].
  - intros g o0 Ho0. destruct (decide (g = f)) as [-> | Hne].
    + destruct (Hf o0 Ho0) as (o' & Ho' & Hmarks).
      exists o'. split; [done | by apply marks_added_kept].
    + rewrite (Hothers g Hne). exists o0.
      split; [done | apply function_kept_refl].
Qed.

Lemma updated_controller f o o' q s s' :
  functions s !! f = Some o ->
  function_kept o o' ->
  baseline_batch_compiler s `prefix_of` q ->
  updated f o' q s s' -> controller_effect s s'.
Proof.
  intros Ho Hkept Hq (? & ? & ? & Hb & ? & ? & _ & Hcalls & Hq' & Hfns).
  unfold controller_effect. do 5 (split; [done|]).
  split; [by rewrite Hcalls|]. split; [by rewrite Hq'|].
  rewrite Hfns, Hb. split; [|split; [|split; [done|]]].
  - intros g Hg. rewrite lookup_insert_ne; [done | congruence].
  - intros g o0 Ho0. destruct (decide (g = f)) as [-> | Hne].
    + rewrite lookup_insert_eq. exists o'. split; [done|]. congruence.
    + rewrite lookup_insert_ne by done. exists o0.
      split; [done | apply function_kept_refl].
  - intros b bytecode Hbc. exists bytecode.
    split; [done | apply level_changed_refl].
Qed.

Lemma queue_after_baseline_prefix fl sfi o f q :
  q `prefix_of` queue_after_baseline fl sfi o f q.
Proof.
  unfold queue_after_baseline. destruct (_ && _); [|done].
  by apply prefix_app_r.
Qed.

(** A tick that returns has found its function and the shared function
    info. *)
Lemma OnInterruptTick_loaded kMax f frame s u s' :
  OnInterruptTick kMax f frame s = Some (u, s') ->
  exists o sfi,
    functions s !! f = Some o
    /\ shared_function_infos s !! shared o = Some sfi.
Proof.
  unfold OnInterruptTick. intros H.
  apply bind_Some in H as (o & ? & [Ho ->]%load_function_Some & H).
  apply bind_Some in H as (u1 & s1 & Hseed & H).
  apply (seed_exact _ _ _ _ _ Ho) in Hseed.
  pose proof (updated_function _ _ _ _ _ Hseed) as Ho1.
  destruct Hseed as (_ & _ & Hsfis & _).
  apply bind_Some in H as (o1 & ? & [Ho1' ->]%load_function_Some & H).
  assert (o1 = seeded (flags s) o) as -> by congruence.
  apply bind_Some in H as (? & ? & [_ ->]%DCHECK_Some & H).
  apply bind_Some in H as (sfi & ? & [Hsfi ->]%load_shared_Some & H).
  exists o, sfi. split; [done|].
  by rewrite Hsfis, (proj1 (seeded_fields (flags s) o)) in Hsfi.
Qed.

Lemma run_controller_effect kMax op s u s' :
  run kMax op s = Some (u, s') -> controller_effect s s'.
Proof.
  destruct op as [f frame|f frame kind|f kind frame|frame n]; cbn [run].
  - intros Htick.
    destruct (OnInterruptTick_loaded _ _ _ _ _ _ Htick) as (o & sfi & Ho & Hsfi).
    assert (Hkept2 : function_kept o
                       (after_baseline (flags s) sfi (seeded (flags s) o))).
    { eapply function_kept_trans;
        [apply seeded_kept | apply after_baseline_kept]. }
    destruct (OnInterruptTick_exact _ _ _ _ _ _ _ _ Ho Hsfi Htick)
      as [[_ Hu] | (_ & _ & _ & kind & s3 & s4 & _ & Hu & Hrun & ->)].
    + eapply updated_controller;
        [exact Ho | exact Hkept2 | apply queue_after_baseline_prefix
        | exact Hu].
    + pose proof (updated_function _ _ _ _ _ Hu) as Ho3.
      destruct (MaybeOptimizeFrame_Some _ _ _ _ _ _ _ _ Ho3 Hrun)
        as (Heffect & _).
      eapply controller_effect_trans.
      { eapply updated_controller;
          [exact Ho | | apply queue_after_baseline_prefix | exact Hu].
        eapply function_kept_trans; [exact Hkept2 | apply counted_kept]. }
      eapply controller_effect_trans.
      { eapply decision_effect_controller; [|exact Heffect]. by eexists. }
      destruct (controller_effect_refl s4)
        as (? & ? & ? & ? & ? & ? & ? & ? & ? & ? & ?).
      by unfold controller_effect.
  - intros Hrun.
    assert (Hat : exists o, functions s !! f = Some o).
    { revert Hrun. unfold MaybeOptimizeFrame. intros Hrun.
      apply bind_Some in Hrun as (o & ? & [Ho _]%load_function_Some & _). eauto. }
    destruct Hat as [o Ho].
    destruct (MaybeOptimizeFrame_Some _ _ _ _ _ _ _ _ Ho Hrun) as (Heffect & _).
    eapply decision_effect_controller; [|exact Heffect]. by eexists.
  - intros Hrun. apply bind_Some in Hrun as (d & s1 & Hrun & [_ ->]%ret_Some).
    assert (Hat : exists o, functions s !! f = Some o).
    { revert Hrun. unfold ShouldOptimize. intros Hrun.
      apply bind_Some in Hrun as (o & ? & [Ho _]%load_function_Some & _). eauto. }
    destruct Hat as [o Ho].
    apply ShouldOptimize_effect in Hrun as (Heffect & _).
    eapply decision_effect_controller; [|exact Heffect]. by eexists.
  - intros Hrun.
    assert (Hat : exists o, functions s !! function frame = Some o).
    { revert Hrun. unfold AttemptOnStackReplacement, record. intros Hrun.
      apply bind_Some in Hrun as (? & ? & ->%modify_Some & Hrun).
      apply bind_Some in Hrun as (o & ? & [Ho _]%load_function_Some & _). eauto. }
    destruct Hat as [o Ho].
    apply (AttemptOnStackReplacement_effect _ (function frame)) in Hrun
      as (Heffect & _).
    eapply decision_effect_controller; [|exact Heffect]. by eexists.
Qed.

Lemma steps_controller_effect kMax s ops s' :
  steps kMax s ops s' -> controller_effect s s'.
Proof.
  induction 1 as [s | s op s1 ops s2 Hrun _ IH].
  - apply controller_effect_refl.
  - eapply controller_effect_trans; [|exact IH].
    by eapply run_controller_effect.
Qed.

(** X20. What the tiering manager never does. Over any sequence of ticks
    and calls of [MaybeOptimizeFrame], [ShouldOptimize] and
    [AttemptOnStackReplacement] that runs to its end, the flags, the
    shared function infos, the OSR-code cache and the table of pending
    optimizations are never written; the call log and the queue of the
    baseline batch compiler only grow; no function and no bytecode array
    is created or dropped; a bytecode array changes in its nesting level
    at most; and a function keeps its shared function info, its place in
    the optimization queue and its optimized code, stays pending (marked
    for optimization in either mode, or with optimized code) once it is,
    loses no feedback vector, keeps its invocation count, never has fewer
    profiler ticks than before, and changes its tier at most from the
    interpreter to baseline. *)
Theorem controller_never_undoes
    (kMaxLoopNestingMarker : Z) (s : Isolate) (ops : list Operation)
    (s' : Isolate) :
  steps kMaxLoopNestingMarker s ops s' ->
  flags s' = flags s
  /\ use_optimizer s' = use_optimizer s
  /\ shared_function_infos s' = shared_function_infos s
  /\ osr_optimized_code_cache s' = osr_optimized_code_cache s
  /\ pending_optimization_allowed s' = pending_optimization_allowed s
  /\ calls s `prefix_of` calls s'
  /\ baseline_batch_compiler s `prefix_of` baseline_batch_compiler s'
  /\ (forall f, functions s !! f = None -> functions s' !! f = None)
  /\ (forall f o,
        functions s !! f = Some o ->
        exists o',
          functions s' !! f = Some o'
          /\ shared o' = shared o
          /\ native_context o' = native_context o
          /\ IsInOptimizationQueue o' = IsInOptimizationQueue o
          /\ HasAvailableOptimizedCode o' = HasAvailableOptimizedCode o
          /\ (pending o = true -> pending o' = true)
          /\ (forall v,
                feedback_vector o = Some v ->
                exists v',
                  feedback_vector o' = Some v'
                  /\ invocation_count v' = invocation_count v
                  /\ profiler_ticks v <= profiler_ticks v')
          /\ (forall kind,
                GetActiveTier o = Some kind ->
                GetActiveTier o' = Some kind
                \/ kind = INTERPRETED_FUNCTION
                   /\ GetActiveTier o' = Some BASELINE))
  /\ (forall b, bytecode_arrays s !! b = None -> bytecode_arrays s' !! b = None)
  /\ (forall b bytecode,
        bytecode_arrays s !! b = Some bytecode ->
        exists bytecode',
          bytecode_arrays s' !! b = Some bytecode'
          /\ bytecode_length bytecode' = bytecode_length bytecode
          /\ bytecodes bytecode' = bytecodes bytecode).
Proof.
  intros Hsteps. exact (steps_controller_effect _ _ _ _ Hsteps).
Qed.

Lemma controller_never_undoes_witness :
  exists s',
    run_all 6 [OpOnInterruptTick 0%nat (scenario_frame 10);
               OpAttemptOnStackReplacement (scenario_frame 10) 2;
               OpOnInterruptTick 0%nat (scenario_frame 10)]
      (cold_or_hot 8) = Some s'
    /\ shared_function_infos s' = shared_function_infos (cold_or_hot 8)
    /\ calls (cold_or_hot 8) `prefix_of` calls s'.
Proof.
  destruct (run_all 6 [OpOnInterruptTick 0%nat (scenario_frame 10);
                       OpAttemptOnStackReplacement (scenario_frame 10) 2;
                       OpOnInterruptTick 0%nat (scenario_frame 10)]
              (cold_or_hot 8)) as [s'|] eqn:Hrun;
    [|vm_compute in Hrun; discriminate].
  destruct (controller_never_undoes 6 (cold_or_hot 8) _ s'
              (run_all_steps _ _ _ _ Hrun))
    as (_ & _ & Hsfis & _ & _ & Hcalls & _).
  exists s'. split; [reflexivity|]. split; [exact Hsfis | exact Hcalls].
Defined.

(** *** More ticks, never less optimization *)

(** The loop over the cached jumps does not look at the functions. *)
Lemma osr_cache_loop_functions b bytecode current_offset bytecode_offsets m
    s r s' :
  osr_cache_loop b bytecode current_offset bytecode_offsets s = Some (r, s') ->
  osr_cache_loop b bytecode current_offset bytecode_offsets (set_functions m s)
  = Some (r, set_functions m s').
Proof.
  induction bytecode_offsets as [|jump_offset rest IH]; cbn [osr_cache_loop].
  - by intros [-> ->]%ret_Some.
  - intros H. apply bind_Some in H as (jump_target & ? & Hdec & H).
    unfold GetJumpTargetOffset in *. apply value_Some in Hdec as [Hdec ->].
    rewrite Hdec. exec.
    destruct ((jump_offset >=? current_offset)
              && (current_offset >=? jump_target)); [|by apply IH].
    apply bind_Some in H as (operand & ? & Hop & H).
    unfold GetImmediateOperand1 in *. apply value_Some in Hop as [Hop ->].
    rewrite Hop. exec.
    apply bind_Some in H as (? & ? & Hset & [-> ->]%ret_Some).
    apply set_osr_loop_nesting_level_Some in Hset as (old & Hold & ->).
    assert (Hold' : bytecode_arrays (set_functions m s) !! b = Some old)
      by exact Hold.
    by rewrite (bind_run _ _ _ _ _
                  (set_osr_loop_nesting_level_run _ _ _ _ Hold')).
Qed.

(** X18. More profiler ticks never mean less optimization. If
    [ShouldOptimize] returns for a function, it also returns for the same
    function with a feedback vector of at least as many profiler ticks,
    everything else being equal: it makes the same stores, and its answer
    is the same or has become TurbofanHotAndStable; in particular an
    answer that asked for optimization still does. *)
Theorem ShouldOptimize_monotone_in_ticks
    (s : Isolate) (f : nat) (kind : CodeKind) (frame : Frame)
    (o : JSFunction) (v2 : FeedbackVector) (d : OptimizationDecision)
    (s' : Isolate) :
  functions s !! f = Some o ->
  (forall v, feedback_vector o = Some v ->
             profiler_ticks v <= profiler_ticks v2) ->
  ShouldOptimize f kind frame s = Some (d, s') ->
  let raised := <[f := with_feedback_vector o (Some v2)]> (functions s) in
  exists d2,
    ShouldOptimize f kind frame (set_functions raised s)
    = Some (d2, set_functions raised s')
    /\ (should_optimize d = true -> should_optimize d2 = true)
    /\ (d2 = d \/ d2 = TurbofanHotAndStable).
Proof.
  intros Ho Hticks H raised.
  remember (set_functions raised s) as rs eqn:Hrs.
  pose (o2 := with_feedback_vector o (Some v2)).
  assert (Ho2 : functions rs !! f = Some o2)
    by (rewrite Hrs; apply lookup_insert_eq).
  assert (Hflags : flags rs = flags s) by (by rewrite Hrs).
  assert (Hsfis : shared_function_infos rs = shared_function_infos s)
    by (by rewrite Hrs).
  assert (Hbcs : bytecode_arrays rs = bytecode_arrays s) by (by rewrite Hrs).
  assert (Hcache : osr_optimized_code_cache rs = osr_optimized_code_cache s)
    by (by rewrite Hrs).
  assert (Hic : any_ic_changed_ rs = any_ic_changed_ s) by (by rewrite Hrs).
  unfold ShouldOptimize in *.
  apply bind_Some in H as (o0 & ? & [Ho0 ->]%load_function_Some & H).
  assert (o0 = o) as -> by congruence.
  apply bind_Some in H as (? & ? & [Htier ->]%DCHECK_Some & H).
  apply bind_Some in H as (? & ? & [-> ->]%get_Some & H).
  exec. change (GetActiveTier o2) with (GetActiveTier o). rewrite Htier.
  exec. rewrite Hflags.
  destruct (TiersUpToMaglev (flags s) kind).
  { apply ret_Some in H as [-> ->]. exists Maglev. rewrite Hrs. auto. }
  destruct (bool_decide (kind = TURBOFAN)).
  { apply ret_Some in H as [-> ->]. exists DoNotOptimize. rewrite Hrs. auto. }
  apply bind_Some in H as (sfi & ? & [Hsfi ->]%load_shared_Some & H).
  apply bind_Some in H as (bytecode & ? & [Hbc ->]%load_bytecode_array_Some & H).
  assert (Hsfi2 : shared_function_infos rs !! shared o2 = Some sfi)
    by (by rewrite Hsfis).
  assert (Hbc2 : bytecode_arrays rs !! bytecode_array sfi = Some bytecode)
    by (by rewrite Hbcs).
  exec.
  apply bind_Some in H as (cached & s1 & Hloop & H).
  assert (Hloop2 :
    (if negb (bool_decide (osr_code_cache_state sfi = kNotCached))
        && is_unoptimized frame
     then
       bytecode_offsets ←
         GetBytecodeOffsetsFromSFI (native_context o2) (shared o2);
       osr_cache_loop (bytecode_array sfi) bytecode (GetBytecodeOffset frame)
         bytecode_offsets
     else mret None) rs = Some (cached, set_functions raised s1)).
  { destruct (negb _ && _).
    - unfold GetBytecodeOffsetsFromSFI in *.
      apply bind_Some in Hloop as (l & ? & Hl & Hloop).
      apply bind_Some in Hl as (? & ? & [-> ->]%get_Some & [-> ->]%ret_Some).
      exec. rewrite Hcache, Hrs.
      by apply osr_cache_loop_functions.
    - apply ret_Some in Hloop as [-> ->]. by rewrite Hrs. }
  rewrite (bind_run _ _ _ _ _ Hloop2). cbv beta.
  destruct cached as [d0|].
  { apply ret_Some in H as [-> ->]. exists d0. auto. }
  apply bind_Some in H as (v & ? & [Hv ->]%value_Some & H).
  apply bind_Some in H as (? & ? & [Hallowance ->]%DCHECK_Some & H).
  apply bind_Some in H as (? & ? & [-> ->]%get_Some & H).
  change (feedback_vector o2) with (Some v2). exec.
  rewrite Hallowance. exec. cbn [any_ic_changed_ set_functions].
  specialize (Hticks v Hv).
  destruct (Z.geb_spec (profiler_ticks v)
              (int32 (FLAG_ticks_before_optimization (flags s)
                      + int32 (bytecode_length bytecode
                               `quot` FLAG_bytecode_size_allowance_per_tick
                                        (flags s))))) as [Hhot | Hcold].
  - apply ret_Some in H as [-> ->]. exists TurbofanHotAndStable.
    rewrite (proj2 (Z.geb_le _ _)) by lia. auto.
  - assert (s' = s1) as ->
      by (destruct (ShouldOptimizeAsSmallFunction _ _ _);
          by apply ret_Some in H as [_ ->]).
    destruct (profiler_ticks v2 >=? _).
    + eexists. split; [reflexivity|]. split; [done | by right].
    + destruct (ShouldOptimizeAsSmallFunction _ _ _);
        apply ret_Some in H as [-> _]; eexists; eauto.
Qed.

Lemma ShouldOptimize_monotone_in_ticks_witness :
  exists d2 s2,
    ShouldOptimize 0%nat INTERPRETED_FUNCTION (scenario_frame 10)
      (set_functions
         (<[0%nat := with_feedback_vector
                       (scenario_function (ticked 1) false false)
                       (ticked 9)]> (functions (small_function false)))
         (small_function false)) = Some (d2, s2)
    /\ should_optimize d2 = true.
Proof.
  destruct (ShouldOptimize_monotone_in_ticks (small_function false) 0%nat
              INTERPRETED_FUNCTION (scenario_frame 10)
              (scenario_function (ticked 1) false false)
              {| profiler_ticks := 9; invocation_count := 1 |}
              TurbofanSmallFunction (small_function false) eq_refl)
    as (d2 & Hrun & Hstill & _).
  - intros v [= <-]. cbn. lia.
  - reflexivity.
  - exists d2. eexists. split; [exact Hrun|]. by apply Hstill.
Defined.

(** *** The texts of the reasons *)

(** X19. [OptimizationReasonToString] passes its bounds check for every
    reason and gives different reasons different texts; and the reason of
    a decision that [Optimize] accepts is never the text of
    [kDoNotOptimize]. *)
Theorem OptimizationReasonToString_names :
  (forall reason, is_Some (OptimizationReasonToString reason))
  /\ (forall r1 r2,
        OptimizationReasonToString r1 = OptimizationReasonToString r2 ->
        r1 = r2)
  /\ (forall f kind d s u s',
        Optimize f kind d s = Some (u, s') ->
        OptimizationReasonToString (optimization_reason d)
        <> OptimizationReasonToString kDoNotOptimize).
Proof.
  assert (Hinj : forall r1 r2,
            OptimizationReasonToString r1 = OptimizationReasonToString r2 ->
            r1 = r2).
  { intros r1 r2. by destruct r1, r2. }
  split; [|split; [exact Hinj|]].
  - intros reason. destruct reason; by eexists.
  - intros f kind d s u s'. unfold Optimize. intros H.
    apply bind_Some in H as (? & ? & [Hd _]%DCHECK_Some & _).
    intros Heq%Hinj. unfold should_optimize in Hd.
    by rewrite Heq, (bool_decide_eq_true_2 (kDoNotOptimize = kDoNotOptimize))
      in Hd.
Qed.

Lemma OptimizationReasonToString_names_witness :
  kHotAndStable = optimization_reason TurbofanHotAndStable
  /\ OptimizationReasonToString kHotAndStable = Some "hot and stable"%string.
Proof.
  split; [|reflexivity].
  apply (proj1 (proj2 OptimizationReasonToString_names)). reflexivity.
Defined.

End ControllerFacts.

(** ** The nesting level over sequences of operations *)

Module LevelFacts.
Import TieringManager TieringFacts ControllerFacts.

(** The loop over the cached jumps, with the entry it stops at: the
    entries before it do not bracket the current offset, it does, and the
    level stored is its immediate operand 1 plus one, as the eight-bit
    field holds it. *)
Lemma osr_cache_loop_stops b bytecode current_offset bytecode_offsets s r s1 :
  osr_cache_loop b bytecode current_offset bytecode_offsets s = Some (r, s1) ->
  (r = None /\ s1 = s
   /\ Forall (no_bracket bytecode current_offset) bytecode_offsets)
  \/ (r = Some TurbofanHotAndStable
      /\ exists passed jump_offset rest jump_target operand old,
           bytecode_offsets = passed ++ jump_offset :: rest
           /\ Forall (no_bracket bytecode current_offset) passed
           /\ bytecodes bytecode !! jump_offset ≫= jump_target_offset
              = Some jump_target
           /\ bytecodes bytecode !! jump_offset ≫= immediate_operand_1
              = Some operand
           /\ jump_target <= current_offset <= jump_offset
           /\ bytecode_arrays s !! b = Some old
           /\ s1 = with_osr_level b (uint8 (int32 (operand + 1))) old s).
Proof.
  induction bytecode_offsets as [|jump_offset rest IH]; cbn [osr_cache_loop].
  - intros [-> ->]%ret_Some. left. by repeat split.
  - intros H. apply bind_Some in H as (jump_target & s2 & Hdec & H).
    unfold GetJumpTargetOffset in Hdec. apply value_Some in Hdec as [Hdec ->].
    destruct ((jump_offset >=? current_offset)
              && (current_offset >=? jump_target)) eqn:Hin.
    + right. apply bind_Some in H as (operand & s3 & Hop & H).
      unfold GetImmediateOperand1 in Hop. apply value_Some in Hop as [Hop ->].
      apply bind_Some in H as (u & s4 & Hset & [-> ->]%ret_Some).
      apply set_osr_loop_nesting_level_Some in Hset as (old & Hold & ->).
      split; [done|]. exists [], jump_offset, rest, jump_target, operand, old.
      apply andb_true_iff in Hin as [Hhigh Hlow].
      split; [done|]. split; [constructor|]. split; [done|]. split; [done|].
      split; [lia | done].
    + assert (Hout : no_bracket bytecode current_offset jump_offset).
      { exists jump_target. split; [done|]. apply andb_false_iff in Hin. lia. }
      destruct (IH H)
        as [(-> & -> & Hall)
           | (-> & passed & j & rest' & t & op & old & -> & Hpassed & Hhit)].
      * left. repeat split. by constructor.
      * right. split; [done|].
        exists (jump_offset :: passed), j, rest', t, op, old.
        split; [done|]. split; [by constructor | done].
Qed.

(** A finished [ShouldOptimize] has written nothing, or it has taken its
    OSR-code-cache path: the shared function info of its function has
    cached entries, the frame is unoptimized, and the first cached jump
    whose range brackets the frame's offset has given the level stored in
    the function's bytecode array. *)
Lemma ShouldOptimize_writes f kind frame s d s' :
  ShouldOptimize f kind frame s = Some (d, s') ->
  s' = s
  \/ exists o sfi bytecode passed jump_offset rest jump_target operand,
       functions s !! f = Some o
       /\ shared_function_infos s !! shared o = Some sfi
       /\ bytecode_arrays s !! bytecode_array sfi = Some bytecode
       /\ osr_code_cache_state sfi <> kNotCached
       /\ is_unoptimized frame = true
       /\ default [] (osr_optimized_code_cache s
                        !! (native_context o, shared o))
          = passed ++ jump_offset :: rest
       /\ Forall (no_bracket bytecode (GetBytecodeOffset frame)) passed
       /\ bytecodes bytecode !! jump_offset ≫= jump_target_offset
          = Some jump_target
       /\ bytecodes bytecode !! jump_offset ≫= immediate_operand_1
          = Some operand
       /\ jump_target <= GetBytecodeOffset frame <= jump_offset
       /\ d = TurbofanHotAndStable
       /\ s' = with_osr_level (bytecode_array sfi)
                 (uint8 (int32 (operand + 1))) bytecode s.
Proof.
  unfold ShouldOptimize, GetBytecodeOffsetsFromSFI. intros H.
  apply bind_Some in H as (o & ? & [Ho ->]%load_function_Some & H).
  apply bind_Some in H as (? & ? & [_ ->]%DCHECK_Some & H).
  apply bind_Some in H as (? & ? & [-> ->]%get_Some & H).
  destruct (TiersUpToMaglev _ _); [apply ret_Some in H as [_ ->]; by left|].
  destruct (bool_decide _); [apply ret_Some in H as [_ ->]; by left|].
  apply bind_Some in H as (sfi & ? & [Hsfi ->]%load_shared_Some & H).
  apply bind_Some in H as (bytecode & ? & [Hb ->]%load_bytecode_array_Some & H).
  apply bind_Some in H as (cached & s1 & Hcached & H).
  assert (Hrest : cached = None -> s1 = s -> s' = s).
  { intros -> ->. inv_all; done. }
  destruct (negb (bool_decide (osr_code_cache_state sfi = kNotCached))
            && is_unoptimized frame) eqn:Hguard.
  - apply bind_Some in Hcached as (offsets & ? & Hoffsets & Hloop).
    apply bind_Some in Hoffsets as (? & ? & [-> ->]%get_Some & [Hlist0 ->]%ret_Some).
    subst offsets.
    apply osr_cache_loop_stops in Hloop
      as [(-> & -> & _)
         | (-> & passed & j & rest & t & operand & old & Hlist & Hpassed
            & Ht & Hop & Hin & Hold & ->)].
    + left. by apply Hrest.
    + right. apply ret_Some in H as [<- ->].
      assert (old = bytecode) as -> by congruence.
      apply andb_true_iff in Hguard as [Hstate Hframe].
      apply negb_true_iff, bool_decide_eq_false in Hstate.
      exists o, sfi, bytecode, passed, j, rest, t, operand.
      by repeat (split; [done|]).
  - apply ret_Some in Hcached as [-> ->]. left. by apply Hrest.
Qed.

(** Where the function misses the cache, [ShouldOptimize] writes
    nothing. *)
Lemma ShouldOptimize_misses f kind frame s d s' :
  misses_cache s f frame ->
  ShouldOptimize f kind frame s = Some (d, s') -> s' = s.
Proof.
  intros Hmiss
    [-> | (o & sfi & bytecode & passed & j & rest & t & operand & Ho & Hsfi
           & Hb & Hstate & Hframe & Hlist & _ & Ht & _ & Hin & _)]%ShouldOptimize_writes;
    [done|].
  destruct (Hmiss o sfi bytecode Ho Hsfi Hb) as [? | [? | Hall]];
    [done | congruence |].
  rewrite Hlist in Hall. apply Forall_app in Hall as [_ Hall].
  apply Forall_cons in Hall as [(t' & Ht' & Hout) _].
  exfalso. apply Hout. rewrite Ht in Ht'. injection Ht' as <-. lia.
Qed.

(** Nothing the controller does changes what the cache test reads. *)
Lemma misses_cache_controller s s' f frame :
  controller_effect s s' -> misses_cache s f frame -> misses_cache s' f frame.
Proof.
  intros (_ & _ & Hsfis & Hcache & _ & _ & _ & Hnone & Hkept & Hbnone & Hlevel)
    Hmiss o' sfi bytecode' Ho' Hsfi Hb'.
  destruct (functions s !! f) as [o|] eqn:Ho;
    [|by rewrite (Hnone f Ho) in Ho'].
  destruct (Hkept f o Ho) as (o2 & Ho2 & Hshared & Hcontext & _).
  rewrite Ho' in Ho2. injection Ho2 as <-.
  destruct (bytecode_arrays s !! bytecode_array sfi) as [bytecode|] eqn:Hb;
    [|by rewrite (Hbnone _ Hb) in Hb'].
  destruct (Hlevel _ _ Hb) as (b2 & Hb2 & _ & Hcodes).
  rewrite Hb' in Hb2. injection Hb2 as <-.
  rewrite Hsfis, Hshared in Hsfi.
  destruct (Hmiss o sfi bytecode Ho Hsfi Hb) as [? | [? | Hall]].
  - by left.
  - right. by left.
  - right. right. rewrite Hcache, Hshared, Hcontext.
    eapply Forall_impl; [exact Hall|].
    intros j (t & Ht & Hout). exists t. split; [by rewrite Hcodes | done].
Qed.

Lemma misses_cache_housekeeping g s s' o f frame :
  housekeeping g s s' -> functions s !! g = Some o ->
  misses_cache s f frame -> misses_cache s' f frame.
Proof.
  intros (_ & _ & Hsfis & Hbs & Hcache & _ & _ & _ & Hothers & Hg) Hog Hmiss
    o' sfi bytecode Ho' Hsfi Hb.
  assert (exists o0, functions s !! f = Some o0 /\ shared o' = shared o0
                     /\ native_context o' = native_context o0)
    as (o0 & Ho0 & Hshared & Hcontext).
  { destruct (decide (f = g)) as [->|Hne].
    - destruct (Hg o Hog) as (o2 & Ho2 & Hs & Hc & _).
      rewrite Ho' in Ho2. injection Ho2 as <-. eauto.
    - rewrite (Hothers f Hne) in Ho'. eauto. }
  rewrite Hsfis, Hshared in Hsfi. rewrite Hbs in Hb.
  unfold osr_cache_miss. rewrite Hcache, Hshared, Hcontext.
  by apply Hmiss.
Qed.

Lemma outside_cache_path_controller s s' op :
  controller_effect s s' -> outside_cache_path s op -> outside_cache_path s' op.
Proof.
  intros Heffect. destruct op; cbn [outside_cache_path]; [| | |done];
    by apply misses_cache_controller.
Qed.

Section Sequences.

Variable kMaxLoopNestingMarker : Z.

(** The marker fits the eight-bit field of the nesting level. *)
Hypothesis marker_range : 0 <= kMaxLoopNestingMarker <= 255.

Local Abbreviation advance := (advance kMaxLoopNestingMarker).

Lemma MaybeOptimizeFrame_advance f frame kind s u s' :
  misses_cache s f frame ->
  MaybeOptimizeFrame kMaxLoopNestingMarker f frame kind s = Some (u, s') ->
  advance s s'.
Proof.
  intros Hmiss. unfold MaybeOptimizeFrame, IsHeuristicOptimizationAllowed.
  intros H.
  apply bind_Some in H as (o & ? & [Ho ->]%load_function_Some & H).
  destruct (IsInOptimizationQueue o);
    [apply ret_Some in H as [_ ->]; apply advance_refl|].
  inv_run. inv_case; [inv_run; apply advance_refl|].
  inv_run. inv_case; [inv_run; apply advance_refl|].
  apply bind_Some in H as (done & s1 & Hosr & H).
  assert (Hadv : advance s s1 /\ controller_effect s s1).
  { destruct (is_unoptimized frame).
    - destruct (FLAG_always_osr (flags s)).
      + apply bind_Some in Hosr as ([] & s2 & Hosr & [_ ->]%ret_Some).
        split.
        * eapply AttemptOnStackReplacement_advance; [done| |eassumption].
          unfold kMaxInt. lia.
        * apply (AttemptOnStackReplacement_effect _ f) in Hosr as [Heffect _].
          by eapply decision_effect_controller.
      + split; [by eapply MaybeOSR_advance|].
        destruct (MaybeOSR_effect _ _ _ _ _ _ _ Ho Hosr)
          as [_ [-> | [_ Hrun]]]; [apply controller_effect_refl|].
        apply (AttemptOnStackReplacement_effect _ f) in Hrun as [Heffect _].
        by eapply decision_effect_controller.
    - apply ret_Some in Hosr as [_ ->].
      split; [apply advance_refl | apply controller_effect_refl]. }
  destruct Hadv as [Hadv Heffect].
  destruct done; [apply ret_Some in H as [_ ->]; done|].
  apply bind_Some in H as (d & s2 & Hdecide & H).
  apply ShouldOptimize_misses in Hdecide as ->;
    [|by eapply misses_cache_controller].
  destruct (should_optimize d).
  - eapply advance_trans; [exact Hadv|]. by eapply Optimize_advance.
  - by apply ret_Some in H as [_ ->].
Qed.

Lemma OnInterruptTick_advance f frame s u s' :
  misses_cache s f frame ->
  OnInterruptTick kMaxLoopNestingMarker f frame s = Some (u, s') ->
  advance s s'.
Proof.
  intros Hmiss Htick.
  apply OnInterruptTick_Some in Htick
    as (o & s1 & Ho & Hk
        & [[_ ->] | (_ & _ & _ & o1 & kind & s2 & _ & _ & Hrun & ->)]).
  - by eapply housekeeping_advance.
  - eapply advance_trans; [by eapply housekeeping_advance|].
    eapply (advance_trans _ _ s2).
    + eapply MaybeOptimizeFrame_advance; [|exact Hrun].
      by eapply misses_cache_housekeeping.
    + by apply advance_same.
Qed.

Lemma run_advance op s u s' :
  outside_cache_path s op -> levels_valid kMaxLoopNestingMarker op ->
  run kMaxLoopNestingMarker op s = Some (u, s') -> advance s s'.
Proof.
  intros Hmiss Hvalid.
  destruct op as [f frame|f frame kind|f kind frame|frame n];
    cbn [run levels_valid outside_cache_path] in *; intros H.
  - by eapply OnInterruptTick_advance.
  - by eapply MaybeOptimizeFrame_advance.
  - apply bind_Some in H as (d & s1 & Hd & [_ ->]%ret_Some).
    apply ShouldOptimize_misses in Hd as ->; [apply advance_refl | done].
  - by eapply AttemptOnStackReplacement_advance.
Qed.

Lemma steps_advance s ops s' :
  steps kMaxLoopNestingMarker s ops s' ->
  Forall (levels_valid kMaxLoopNestingMarker) ops ->
  Forall (outside_cache_path s) ops ->
  advance s s'.
Proof.
  induction 1 as [s|s op s1 ops s2 Hrun _ IH]; intros Hvalid Hmiss.
  - apply advance_refl.
  - apply Forall_cons in Hvalid as [Hop Hops].
    apply Forall_cons in Hmiss as [Hmiss Hrest].
    eapply advance_trans; [by eapply run_advance|].
    apply IH; [done|].
    eapply Forall_impl; [exact Hrest|]. intros op'.
    apply outside_cache_path_controller. by eapply run_controller_effect.
Qed.

End Sequences.



End LevelFacts.
